(** * APIS: device-control protocol layer and capture-sequence orchestrator

    A shallow embedding of [apis/utils.py], [apis/config.py],
    [apis/pics_controller.py] (PicsController), [apis/sequence.py]
    (PicsSequence) and [apis/io.py], followed by the properties of the
    specification that concern them and by further properties of the code.

    Conventions of the embedding:
    - Python [int] is [Z]; Python [str] is [string]; a text line read from
      the serial port is the already decoded text (7-bit characters), and
      [str.strip()] is applied to it as the code does.
    - Python methods are actions of a small state-and-exception monad [M]
      over a [World] that holds the controller object, the abort flag of the
      sequence object, the camera object, the scripted environment (device,
      collaborators, the other thread that may call [abort()]) and the
      chronological history of observable events.
    - The environment is an oracle: the device is a script of read results,
      of [in_waiting] tests and of write faults; a collaborator call
      ([utils.ensure_dir], [cam.set_exposure], [cam.capture],
      [io.save_image], [io.append_to_log]) raises when its script says so.
      [cam.stop_live] and [cam.resume_live] assign one attribute in both
      camera classes and do not raise; logging does not raise;
      [reset_input_buffer], [reset_output_buffer] and [flush] have no
      effect on the scripts.
    - [threading.Lock] is not modelled: the actions of one caller run one
      after the other.  The one concurrent effect kept is [abort()], which
      another thread may call during any blocking operation.
    - Durations are integers in milliseconds; the clock is logical and is
      advanced by [time.sleep] only.  Loops that wait on the clock carry
      fuel; each is started with enough of it and is proved to end. *)

From Stdlib Require Import ZArith List String Ascii Bool Lia DecimalString.
Import ListNotations.

Open Scope string_scope.
Open Scope Z_scope.

(* ================================================================== *)
(** * Python text primitives *)
(* ================================================================== *)

Module PyStr.

(** Characters removed by [str.strip()]: the white space among the code
    points below 256. *)
Definition is_space (c : ascii) : bool :=
  let n := nat_of_ascii c in
  ((9 <=? n)%nat && (n <=? 13)%nat) || ((28 <=? n)%nat && (n <=? 32)%nat) ||
  (n =? 133)%nat || (n =? 160)%nat.

Fixpoint lstrip (s : string) : string :=
  match s with
  | EmptyString => EmptyString
  | String c s' => if is_space c then lstrip s' else s
  end.

Fixpoint rstrip (s : string) : string :=
  match s with
  | EmptyString => EmptyString
  | String c s' =>
      let r := rstrip s' in
      if is_space c && (r =? EmptyString)%string then EmptyString
      else String c r
  end.

Definition strip (s : string) : string := rstrip (lstrip s).

(** [s.startswith(p)] *)
Definition startswith (p s : string) : bool := String.prefix p s.

(** [p in s] *)
Fixpoint contains (p s : string) : bool :=
  String.prefix p s ||
  match s with
  | EmptyString => false
  | String _ s' => contains p s'
  end.

(** Decimal digits of a non-negative integer. *)
Definition digits (n : Z) : string :=
  NilZero.string_of_uint (N.to_uint (Z.to_N n)).

Fixpoint zeros (k : nat) : string :=
  match k with
  | O => EmptyString
  | S k' => String "0" (zeros k')
  end.

(** [format(n, "0<width>d")]: sign first, then zeros up to [width]. *)
Definition format_0d (width : nat) (n : Z) : string :=
  let body := digits (Z.abs n) in
  if n <? 0
  then "-" ++ zeros (width - 1 - String.length body) ++ body
  else zeros (width - String.length body) ++ body.

(** [str(n)] for an int. *)
Definition str (n : Z) : string := format_0d 0 n.

(** The ASCII digit of a value in 0..9. *)
Definition digit_char (d : Z) : ascii := ascii_of_nat (48 + Z.to_nat d).

End PyStr.

(* ================================================================== *)
(** * apis/config.py *)
(* ================================================================== *)

Module config.

Definition SERIAL_BAUDRATE : Z := 9600.
Definition MAX_RETRIES : Z := 3.
(** CONNECTION_WAIT_S = 2.0 and SETTLING_TIME_S = 1.5, in milliseconds. *)
Definition CONNECTION_WAIT_MS : Z := 2000.
Definition SETTLING_TIME_MS : Z := 1500.

Definition CMD_POLARIZER : Z := 10.
Definition CMD_SAMPLE : Z := 11.
Definition CMD_HOME : Z := 96.
Definition CMD_RESET : Z := 98.
Definition CMD_ESTOP : Z := 99.

Inductive SafetyState := STATE_LATCHED | STATE_ARMED.

Definition state_eqb (a b : SafetyState) : bool :=
  match a, b with
  | STATE_LATCHED, STATE_LATCHED | STATE_ARMED, STATE_ARMED => true
  | _, _ => false
  end.

End config.
Export config.

(* ================================================================== *)
(** * Exceptions, events and the world *)
(* ================================================================== *)

(** The exception classes the code distinguishes.  [InterruptedError] is the
    one [PicsSequence._check_abort] raises and [run_sequence] catches apart;
    every class here derives from [Exception]. *)
Inductive ExnClass :=
| InterruptedError | RuntimeError | ConnectionError | OSError | ImportError
| SerialException.

Record exn := Exn { exn_class : ExnClass; exn_msg : string }.

Definition is_InterruptedError (e : exn) : bool :=
  match exn_class e with InterruptedError => true | _ => false end.

(** One result of [ser.readline()]: the decoded line, or an I/O error. *)
Inductive RxItem :=
| RxLine (line : string)
| RxFault (e : exn).

Inductive Mode := Crosspol | Normal.

(** The dictionary handed to [io.append_to_log] (the timestamp is left out). *)
Record LogRow := mkLogRow {
  row_mode : Mode;
  row_exposure_us : Z;
  row_polarizer_angle : Z;
  row_sample_angle : Z;
  row_filepath : string;
  row_arduino_response : string
}.

(** Public controller operations, recorded with their boolean result. *)
Inductive CtrlCall :=
| SendCommand (pp aaa : Z)
| EmergencyStop
| Reset
| Home.

(** Calls on collaborators that may raise. *)
Inductive Collab :=
| EnsureDir (path : string)
| SetExposure (us : Z)
| Capture
| SaveImage (path : string)
| AppendLog (path : string) (row : LogRow).

Inductive Event :=
| EvLog (msg : string)
| EvTransact (token : string)
| EvWrite (payload : string)
| EvSleep (ms : Z)
| EvCtrl (c : CtrlCall) (ok : bool)
| EvCollab (c : Collab) (fault : option exn)
| EvStopLive
| EvResumeLive.

(** The [PicsController] object.  [ser = None]: [self.ser is None];
    [ser = Some b]: a Serial object whose [is_open] is [b]. *)
Record Controller := mkController {
  ser : option bool;
  is_connected : bool;
  last_state : SafetyState
}.

(** The scripted serial device. [rx]: results of the successive [readline()]
    calls (an exhausted script reads as a timeout, the empty line);
    [waiting]: results of the successive [in_waiting] tests (exhausted:
    nothing waiting); [tx_faults]: outcome of the successive [write()] calls
    ([Some e]: the call raises [e]; exhausted: success); [open_fault]:
    whether [serial.Serial(...)] raises. *)
Record Device := mkDevice {
  rx : list RxItem;
  waiting : list bool;
  tx_faults : list (option exn);
  open_fault : option exn
}.

(** The camera object: which optional methods it has ([hasattr]) and the two
    attributes the methods of both implementations assign. *)
Record Camera := mkCamera {
  has_stop_live : bool;
  has_resume_live : bool;
  streaming : bool;
  exposure_us : Z
}.

Record World := mkWorld {
  ctrl : Controller;
  cam : Camera;
  dev : Device;
  (** outcome of the successive collaborator calls ([Some e]: raises [e]). *)
  collab : list (option exn);
  (** [PicsSequence._abort_flag]. *)
  abort_flag : bool;
  (** [Some n]: another thread calls [abort()] during the [n+1]-th blocking
      operation from now; [None]: nobody does. *)
  abort_in : option nat;
  (** logical clock, milliseconds. *)
  now : Z;
  (** history, oldest event first. *)
  trace : list Event
}.

Definition set_ctrl (c : Controller) (w : World) : World :=
  mkWorld c (cam w) (dev w) (collab w) (abort_flag w) (abort_in w) (now w) (trace w).
Definition set_cam (c : Camera) (w : World) : World :=
  mkWorld (ctrl w) c (dev w) (collab w) (abort_flag w) (abort_in w) (now w) (trace w).
Definition set_dev (d : Device) (w : World) : World :=
  mkWorld (ctrl w) (cam w) d (collab w) (abort_flag w) (abort_in w) (now w) (trace w).
Definition set_collab (l : list (option exn)) (w : World) : World :=
  mkWorld (ctrl w) (cam w) (dev w) l (abort_flag w) (abort_in w) (now w) (trace w).
Definition set_abort_flag (b : bool) (w : World) : World :=
  mkWorld (ctrl w) (cam w) (dev w) (collab w) b (abort_in w) (now w) (trace w).
Definition set_abort_in (a : option nat) (w : World) : World :=
  mkWorld (ctrl w) (cam w) (dev w) (collab w) (abort_flag w) a (now w) (trace w).
Definition set_now (t : Z) (w : World) : World :=
  mkWorld (ctrl w) (cam w) (dev w) (collab w) (abort_flag w) (abort_in w) t (trace w).
Definition emit (e : Event) (w : World) : World :=
  mkWorld (ctrl w) (cam w) (dev w) (collab w) (abort_flag w) (abort_in w) (now w)
          (trace w ++ [e]).

Definition set_ser (s : option bool) (c : Controller) : Controller :=
  mkController s (is_connected c) (last_state c).
Definition set_is_connected (b : bool) (c : Controller) : Controller :=
  mkController (ser c) b (last_state c).
Definition set_last_state (s : SafetyState) (c : Controller) : Controller :=
  mkController (ser c) (is_connected c) s.

(** [self.ser and self.ser.is_open] *)
Definition ser_is_open (c : Controller) : bool :=
  match ser c with Some b => b | None => false end.

(* ================================================================== *)
(** * The monad of Python actions *)
(* ================================================================== *)

(** [Diverge] is the result of a loop whose fuel ran out; no action below
    produces it (each loop is started with enough fuel). *)
Inductive Outcome (A : Type) :=
| Ok (a : A)
| Raise (e : exn)
| Diverge.
Arguments Ok {A} a.
Arguments Raise {A} e.
Arguments Diverge {A}.

Definition M (A : Type) : Type := World -> Outcome A * World.

Definition ret {A} (a : A) : M A := fun w => (Ok a, w).
Definition raise {A} (e : exn) : M A := fun w => (Raise e, w).
Definition diverge {A} : M A := fun w => (Diverge, w).

Definition bind {A B} (m : M A) (k : A -> M B) : M B :=
  fun w =>
    match m w with
    | (Ok a, w') => k a w'
    | (Raise e, w') => (Raise e, w')
    | (Diverge, w') => (Diverge, w')
    end.

Declare Scope py_scope.
Delimit Scope py_scope with py.
Notation "x <- m ;; k" := (bind m (fun x => k))
  (at level 100, m at next level, right associativity) : py_scope.
Notation "m ;; k" := (bind m (fun _ => k))
  (at level 100, right associativity) : py_scope.
Open Scope py_scope.

Definition gets {A} (f : World -> A) : M A := fun w => (Ok (f w), w).
Definition modify (f : World -> World) : M unit := fun w => (Ok tt, f w).

(** [logging.info] / [logging.warning] / [logging.error] / [self.log]. *)
Definition log (msg : string) : M unit := modify (emit (EvLog msg)).

(** One blocking operation goes by; the other thread may call
    [PicsSequence.abort()] during it. *)
Definition tick (w : World) : World :=
  match abort_in w with
  | None => w
  | Some O =>
      emit (EvLog "Abort requested!") (set_abort_flag true (set_abort_in None w))
  | Some (S n) => set_abort_in (Some n) w
  end.

(** [time.sleep(ms / 1000)] *)
Definition sleep (ms : Z) : M unit :=
  modify (fun w => tick (set_now (now w + ms) (emit (EvSleep ms) w))).

(* ================================================================== *)
(** * apis/utils.py *)
(* ================================================================== *)

Module utils.

(** [format_command(pp, aaa)]: [f"{pp:02d}{aaa:03d}"].  The function has no
    failing path on integers. *)
Definition format_command (pp aaa : Z) : Outcome string :=
  Ok (PyStr.format_0d 2 pp ++ PyStr.format_0d 3 aaa).

End utils.

(* ================================================================== *)
(** * apis/pics_controller.py *)
(* ================================================================== *)

Definition lift {A} (o : Outcome A) : M A := fun w => (o, w).

(** [try: m except Exception as e: h e] *)
Definition try_except {A} (m : M A) (h : exn -> M A) : M A :=
  fun w =>
    match m w with
    | (Raise e, w') => h e w'
    | r => r
    end.

Definition LF : string := String (ascii_of_nat 10) EmptyString.

Definition set_rx (l : list RxItem) (d : Device) : Device :=
  mkDevice l (waiting d) (tx_faults d) (open_fault d).
Definition set_waiting (l : list bool) (d : Device) : Device :=
  mkDevice (rx d) l (tx_faults d) (open_fault d).
Definition set_tx_faults (l : list (option exn)) (d : Device) : Device :=
  mkDevice (rx d) (waiting d) l (open_fault d).

(** [self.ser.readline().decode('utf-8', errors='ignore')]: a blocking read. *)
Definition ser_readline : M string :=
  fun w =>
    let w1 := tick w in
    match rx (dev w1) with
    | [] => (Ok EmptyString, w1)
    | RxLine l :: rest => (Ok l, set_dev (set_rx rest (dev w1)) w1)
    | RxFault e :: rest => (Raise e, set_dev (set_rx rest (dev w1)) w1)
    end.

(** [self.ser.in_waiting] used as a condition. *)
Definition ser_in_waiting : M bool :=
  fun w =>
    match waiting (dev w) with
    | [] => (Ok false, w)
    | b :: rest => (Ok b, set_dev (set_waiting rest (dev w)) w)
    end.

(** [self.ser.write(payload.encode('utf-8')); self.ser.flush()] *)
Definition ser_write (payload : string) : M unit :=
  fun w =>
    match tx_faults (dev w) with
    | [] => (Ok tt, emit (EvWrite payload) w)
    | None :: rest =>
        (Ok tt, emit (EvWrite payload) (set_dev (set_tx_faults rest (dev w)) w))
    | Some e :: rest => (Raise e, set_dev (set_tx_faults rest (dev w)) w)
    end.

(** [PicsController.disconnect()] *)
Definition disconnect : M unit :=
  modify (fun w => if ser_is_open (ctrl w)
                   then set_ctrl (set_ser (Some false) (ctrl w)) w else w) ;;
  modify (fun w => set_ctrl (set_is_connected false (ctrl w)) w).

(** The body of the [while attempt < retry_count] loop of
    [_send_raw_command], the [try] statement: one attempt either returns a
    response ([Some]) or times out, sleeps and continues ([None]). *)
Definition send_attempt (attempt retry_count : Z) (cmd_str : string)
  : M (option string) :=
  try_except
    (ser_write (cmd_str ++ LF) ;;
     line <- ser_readline ;;
     let response := PyStr.strip line in
     if (response =? EmptyString)%string then
       let attempt := attempt + 1 in
       log ("Timeout cmd=" ++ cmd_str ++ " (attempt " ++ PyStr.str attempt
            ++ "/" ++ PyStr.str retry_count ++ ")") ;;
       sleep (200 * 2 ^ (attempt - 1)) ;;
       ret None
     else ret (Some response))
    (fun e =>
       log ("Serial I/O Error: " ++ exn_msg e) ;;
       ret (Some ("ERR EXCEPTION " ++ exn_msg e))).

(** The [while attempt < retry_count] loop of [_send_raw_command]; [attempt]
    goes up by one with every timeout; [fuel] bounds the number of
    iterations. *)
Fixpoint send_loop (fuel : nat) (attempt retry_count : Z) (cmd_str : string)
  : M string :=
  if attempt <? retry_count then
    match fuel with
    | O => diverge
    | S fuel' =>
        r <- send_attempt attempt retry_count cmd_str ;;
        match r with
        | Some response => ret response
        | None => send_loop fuel' (attempt + 1) retry_count cmd_str
        end
    end
  else ret "ERR TIMEOUT".

(** [PicsController._send_raw_command(pp, aaa, retry_count)] *)
Definition _send_raw_command (pp aaa : Z) (retry_count : Z) : M string :=
  cmd_str <- lift (utils.format_command pp aaa) ;;
  modify (emit (EvTransact cmd_str)) ;;
  is_open <- gets (fun w => ser_is_open (ctrl w)) ;;
  if negb is_open then ret "ERR NO_CONNECTION"
  else send_loop (Z.to_nat retry_count) 0 retry_count cmd_str.

(** [PicsController.send_command(pp, aaa)] *)
Definition send_command (pp aaa : Z) : M bool :=
  resp <- _send_raw_command pp aaa MAX_RETRIES ;;
  log ("CMD: " ++ PyStr.format_0d 2 pp ++ PyStr.format_0d 3 aaa ++ " -> " ++ resp) ;;
  let ok := PyStr.startswith "OK" resp in
  modify (emit (EvCtrl (SendCommand pp aaa) ok)) ;;
  ret ok.

(** [PicsController.emergency_stop()] *)
Definition emergency_stop : M bool :=
  resp <- _send_raw_command CMD_ESTOP 0 MAX_RETRIES ;;
  if PyStr.contains "OK ESTOP" resp then
    modify (fun w => set_ctrl (set_last_state STATE_LATCHED (ctrl w)) w) ;;
    modify (emit (EvCtrl EmergencyStop true)) ;;
    ret true
  else
    modify (emit (EvCtrl EmergencyStop false)) ;;
    ret false.

(** [PicsController.reset()] *)
Definition reset : M bool :=
  resp <- _send_raw_command CMD_RESET 0 MAX_RETRIES ;;
  if PyStr.contains "OK RESET" resp then
    modify (fun w => set_ctrl (set_last_state STATE_ARMED (ctrl w)) w) ;;
    modify (emit (EvCtrl Reset true)) ;;
    ret true
  else
    modify (emit (EvCtrl Reset false)) ;;
    ret false.

(** [PicsController.home()] *)
Definition home : M bool :=
  st <- gets (fun w => last_state (ctrl w)) ;;
  if state_eqb st STATE_LATCHED then
    log "Ignored HOME while LATCHED." ;;
    modify (emit (EvCtrl Home false)) ;;
    ret false
  else
    resp <- _send_raw_command CMD_HOME 0 MAX_RETRIES ;;
    let ok := PyStr.contains "OK" resp in
    modify (emit (EvCtrl Home ok)) ;;
    ret ok.

(** [PicsController.rotate_polarizer(angle)] *)
Definition rotate_polarizer (angle : Z) : M bool :=
  send_command CMD_POLARIZER angle.

(** [PicsController.rotate_sample(angle)] *)
Definition rotate_sample (angle : Z) : M bool :=
  send_command CMD_SAMPLE angle.

(** The typed operations of the controller, as one type. *)
Inductive TypedCommand :=
| TRotatePolarizer (angle : Z)
| TRotateSample (angle : Z)
| TSendCommand (pp aaa : Z)
| THome
| TReset
| TEmergencyStop.

Definition run_typed (c : TypedCommand) : M bool :=
  match c with
  | TRotatePolarizer a => rotate_polarizer a
  | TRotateSample a => rotate_sample a
  | TSendCommand pp aaa => send_command pp aaa
  | THome => home
  | TReset => reset
  | TEmergencyStop => emergency_stop
  end.

(** The [while (time.time() - start_t) < config.CONNECTION_WAIT_S] loop of
    [connect]; returns [boot_msg_seen]. *)
Fixpoint boot_loop (fuel : nat) (start_t : Z) : M bool :=
  fun w =>
    if now w - start_t <? CONNECTION_WAIT_MS then
      match fuel with
      | O => (Diverge, w)
      | S fuel' =>
          (waiting_now <- ser_in_waiting ;;
           seen <- (if waiting_now : bool then
                      line <- ser_readline ;;
                      ret ((PyStr.strip line =? "READY")%string)
                    else ret false) ;;
           if seen : bool then ret true
           else sleep 100 ;; boot_loop fuel' start_t) w
      end
    else (Ok false, w).

(** [serial.Serial(port, baud, timeout=...)] assigned to [self.ser]. *)
Definition serial_open : M unit :=
  fun w =>
    match open_fault (dev w) with
    | Some e => (Raise e, w)
    | None => (Ok tt, set_ctrl (set_ser (Some true) (ctrl w)) w)
    end.

(** The [try] block of [connect] (lines 28-67). *)
Definition connect_try : M bool :=
  serial_open ;;
  sleep 2000 ;;
  start_t <- gets now ;;
  boot_msg_seen <- boot_loop (Z.to_nat CONNECTION_WAIT_MS) start_t ;;
  if boot_msg_seen : bool then
    log "Arduino BOOT detected (READY). State is LATCHED." ;;
    modify (fun w => set_ctrl (set_last_state STATE_LATCHED
                                 (set_is_connected true (ctrl w))) w) ;;
    ret true
  else
    log "No READY received. Sending FORCE RESET..." ;;
    resp <- _send_raw_command CMD_RESET 0 MAX_RETRIES ;;
    if PyStr.contains "OK RESET" resp then
      log "Force RESET successful. Connected & ARMED." ;;
      modify (fun w => set_ctrl (set_last_state STATE_ARMED
                                   (set_is_connected true (ctrl w))) w) ;;
      ret true
    else
      raise (Exn ConnectionError ("Failed to connect. Response to RESET: " ++ resp)).

(** The [except Exception as e] block of [connect] (lines 69-74). *)
Definition connect_except (e : exn) : M bool :=
  modify (fun w => set_ctrl (set_is_connected false (ctrl w)) w) ;;
  modify (fun w => if ser_is_open (ctrl w)
                   then set_ctrl (set_ser (Some false) (ctrl w)) w else w) ;;
  log ("Connection failed: " ++ exn_msg e) ;;
  raise e.

(** [PicsController.connect(port, baud)]; the attribute [self.port] is not
    modelled, nothing reads it. *)
Definition connect (port : string) (baud : Z) : M bool :=
  log ("Connecting to " ++ port ++ " at " ++ PyStr.str baud ++ "...") ;;
  try_except connect_try connect_except.

(* ================================================================== *)
(** * apis/sequence.py *)
(* ================================================================== *)

(** [path.endswith("/")] *)
Fixpoint ends_with_sep (path : string) : bool :=
  match path with
  | EmptyString => false
  | String c EmptyString => (c =? "/")%char
  | String _ rest => ends_with_sep rest
  end.

(** [os.path.join(a, b)], POSIX separator: a component that starts with the
    separator replaces what precedes it, no separator is added after an
    empty path or after one that ends with it.  [os.path.join(a, b, c)] is
    [os.path.join(os.path.join(a, b), c)]. *)
Definition path_join (a b : string) : string :=
  if PyStr.startswith "/" b then b
  else if (a =? EmptyString)%string || ends_with_sep a then a ++ b
  else a ++ "/" ++ b.

(** A call on a collaborator ([utils.ensure_dir], [cam.set_exposure],
    [cam.capture], [io.save_image], [io.append_to_log]): a blocking operation
    whose outcome the environment decides. *)
Definition collab_call (c : Collab) : M unit :=
  fun w =>
    let w1 := tick w in
    match collab w1 with
    | [] => (Ok tt, emit (EvCollab c None) w1)
    | None :: rest => (Ok tt, emit (EvCollab c None) (set_collab rest w1))
    | Some e :: rest => (Raise e, emit (EvCollab c (Some e)) (set_collab rest w1))
    end.

Definition set_streaming (b : bool) (c : Camera) : Camera :=
  mkCamera (has_stop_live c) (has_resume_live c) b (exposure_us c).
Definition set_exposure_us (us : Z) (c : Camera) : Camera :=
  mkCamera (has_stop_live c) (has_resume_live c) (streaming c) us.

(** [cam.stop_live()] and [cam.resume_live()]: both camera classes assign
    [_streaming] and nothing else. *)
Definition cam_stop_live : M unit :=
  modify (fun w => emit EvStopLive (set_cam (set_streaming false (cam w)) w)).
Definition cam_resume_live : M unit :=
  modify (fun w => emit EvResumeLive (set_cam (set_streaming true (cam w)) w)).

(** [cam.set_exposure(us)] *)
Definition cam_set_exposure (us : Z) : M unit :=
  collab_call (SetExposure us) ;;
  modify (fun w => set_cam (set_exposure_us us (cam w)) w).

(** [PicsSequence._check_abort()] *)
Definition _check_abort : M unit :=
  flag <- gets abort_flag ;;
  if flag : bool then raise (Exn InterruptedError "Sequence aborted by user.")
  else ret tt.

(** The [while (time.time() - start) < duration] loop of [_wait_settling]. *)
Fixpoint settle_loop (fuel : nat) (start duration : Z) : M unit :=
  fun w =>
    if now w - start <? duration then
      match fuel with
      | O => (Diverge, w)
      | S fuel' =>
          (_check_abort ;; sleep 50 ;; settle_loop fuel' start duration) w
      end
    else (Ok tt, w).

(** [PicsSequence._wait_settling(duration)] *)
Definition _wait_settling (duration : Z) : M unit :=
  start <- gets now ;;
  settle_loop (Z.to_nat duration) start duration.

Section RunSequence.

Variables (save_dir sample_id : string).
Variables (crosspol_exposure_us normal_exposure_us : Z).

Definition log_path : string :=
  path_join (path_join save_dir sample_id) (sample_id ++ "_log.csv").

Definition crosspol_path (crosspol_dir : string) (angle : Z) : string :=
  path_join crosspol_dir (sample_id ++ "_crosspol_" ++ PyStr.format_0d 3 angle ++ ".tif").

Definition normal_path (normal_dir : string) (angle : Z) : string :=
  path_join normal_dir (sample_id ++ "_normal_" ++ PyStr.format_0d 3 angle ++ ".tif").

Definition crosspol_row (fpath : string) (angle : Z) : LogRow :=
  mkLogRow Crosspol crosspol_exposure_us 90 angle fpath "OK".

Definition normal_row (fpath : string) (angle : Z) : LogRow :=
  mkLogRow Normal normal_exposure_us 0 angle fpath "OK".

(** The sample move of the Crosspol loop (sequence.py, lines 86-90). *)
Definition crosspol_move_sample (angle : Z) : M unit :=
  ok <- rotate_sample angle ;;
  if ok : bool then ret tt
  else
    log ("Error moving sample to " ++ PyStr.str angle ++ ". Retrying once...") ;;
    ok2 <- rotate_sample angle ;;
    if ok2 : bool then ret tt
    else raise (Exn RuntimeError ("Failed moving sample to " ++ PyStr.str angle)).

(** The sample move of the Normal loop (sequence.py, lines 126-127). *)
Definition normal_move_sample (angle : Z) : M unit :=
  ok <- rotate_sample angle ;;
  if ok : bool then ret tt
  else raise (Exn RuntimeError ("Failed moving sample to " ++ PyStr.str angle)).

(** [for angle in sample_angles:] of phase 1. *)
Fixpoint crosspol_loop (crosspol_dir : string) (angles : list Z) : M unit :=
  match angles with
  | [] => ret tt
  | angle :: rest =>
      _check_abort ;;
      log ("Crosspol: Sample " ++ PyStr.str angle ++ " deg") ;;
      crosspol_move_sample angle ;;
      _wait_settling SETTLING_TIME_MS ;;
      collab_call Capture ;;
      let fpath := crosspol_path crosspol_dir angle in
      collab_call (SaveImage fpath) ;;
      collab_call (AppendLog log_path (crosspol_row fpath angle)) ;;
      crosspol_loop crosspol_dir rest
  end.

(** [for angle in sample_angles:] of phase 2. *)
Fixpoint normal_loop (normal_dir : string) (angles : list Z) : M unit :=
  match angles with
  | [] => ret tt
  | angle :: rest =>
      _check_abort ;;
      log ("Normal: Sample " ++ PyStr.str angle ++ " deg") ;;
      normal_move_sample angle ;;
      _wait_settling SETTLING_TIME_MS ;;
      collab_call Capture ;;
      let fpath := normal_path normal_dir angle in
      collab_call (SaveImage fpath) ;;
      collab_call (AppendLog log_path (normal_row fpath angle)) ;;
      normal_loop normal_dir rest
  end.

Definition phase_crosspol (crosspol_dir : string) (angles : list Z) : M unit :=
  log "Phase 1: Crosspol" ;;
  cam_set_exposure crosspol_exposure_us ;;
  log "Moving Polarizer to 90..." ;;
  ok <- rotate_polarizer 90 ;;
  (if ok : bool then ret tt
   else raise (Exn RuntimeError "Failed to move Polarizer to 90.")) ;;
  _wait_settling SETTLING_TIME_MS ;;
  crosspol_loop crosspol_dir angles.

Definition phase_normal (normal_dir : string) (angles : list Z) : M unit :=
  log "Phase 2: Normal" ;;
  cam_set_exposure normal_exposure_us ;;
  log "Moving Polarizer to 0..." ;;
  ok <- rotate_polarizer 0 ;;
  (if ok : bool then ret tt
   else raise (Exn RuntimeError "Failed to move Polarizer to 0.")) ;;
  _wait_settling SETTLING_TIME_MS ;;
  normal_loop normal_dir angles.

Definition when (b : bool) (m : M unit) : M unit := if b then m else ret tt.

(** The body of the [try] statement of [run_sequence] (lines 46-148). *)
Definition run_body (angles : list Z) (do_crosspol do_normal : bool) : M unit :=
  log "Starting Sequence..." ;;
  connected <- gets (fun w => is_connected (ctrl w)) ;;
  (if connected : bool then ret tt
   else raise (Exn RuntimeError "Controller not connected.")) ;;
  let crosspol_dir := path_join (path_join save_dir sample_id) "crosspol" in
  let normal_dir := path_join (path_join save_dir sample_id) "normal" in
  when do_crosspol (collab_call (EnsureDir crosspol_dir)) ;;
  when do_normal (collab_call (EnsureDir normal_dir)) ;;
  can_stop <- gets (fun w => has_stop_live (cam w)) ;;
  when can_stop cam_stop_live ;;
  log "Arming system (RESET)..." ;;
  armed <- reset ;;
  (if armed : bool then ret tt
   else raise (Exn RuntimeError "Failed to ARM system (RESET command failed).")) ;;
  when do_crosspol (phase_crosspol crosspol_dir angles) ;;
  when do_normal (phase_normal normal_dir angles) ;;
  log "Sequence Complete. Homing..." ;;
  _ <- home ;;
  ret tt.

(** The [except] clauses of [run_sequence] (lines 150-163), applied to the
    outcome of the [try] body. *)
Definition run_handlers (r : Outcome unit) : M unit :=
  match r with
  | Ok _ => ret tt
  | Diverge => diverge
  | Raise e =>
      if is_InterruptedError e then
        log "Sequence Aborted!"
      else
        log ("Sequence Error: " ++ exn_msg e) ;;
        log "Emergency Stop Triggered due to Error." ;;
        _ <- emergency_stop ;;
        raise e
  end.

(** The [finally] clause of [run_sequence] (lines 165-167). *)
Definition run_finally : M unit :=
  can_resume <- gets (fun w => has_resume_live (cam w)) ;;
  when can_resume cam_resume_live.

(** [PicsSequence.run_sequence(save_dir, sample_id, crosspol_exposure_us,
    normal_exposure_us, sample_angles, do_crosspol, do_normal)] *)
Definition run_sequence (sample_angles : option (list Z))
    (do_crosspol do_normal : bool) : M unit :=
  fun w0 =>
    let w := set_abort_flag false w0 in
    let angles :=
      match sample_angles with
      | None => [90; 60; 45; 30; 0]
      | Some l => l
      end in
    if negb (do_crosspol || do_normal) then
      (Raise (Exn RuntimeError "No modes enabled for sequence."), w)
    else
      let (r, w1) := run_body angles do_crosspol do_normal w in
      let (r', w2) := run_handlers r w1 in
      match r' with
      | Diverge => (Diverge, w2)
      | _ =>
          match run_finally w2 with
          | (Ok _, w3) => (r', w3)
          | (r'', w3) => (r'', w3)
          end
      end.

End RunSequence.



(* ================================================================== *)
(** * Example worlds *)
(* ================================================================== *)

Definition ex_camera : Camera := mkCamera true true true 12000.

(** A connected controller in safety state [st] on an open line, facing a
    device that will answer [rxs]; no faults, nobody calls [abort()]. *)
Definition ex_world (st : SafetyState) (rxs : list RxItem) : World :=
  mkWorld (mkController (Some true) true st) ex_camera
          (mkDevice rxs [] [] None) [] false None 0 [].

(** A controller that was never connected ([self.ser is None]). *)
Definition ex_world_unconnected (st : SafetyState) : World :=
  mkWorld (mkController None false st) ex_camera
          (mkDevice [] [] [] None) [] false None 0 [].

(** What a tick adds to the history: the log line of [abort()], if it is
    called now. *)
Definition tick_delta (w : World) : list Event :=
  match abort_in w with
  | Some O => [EvLog "Abort requested!"]
  | _ => []
  end.

(* ================================================================== *)
(** * Views of the history *)
(* ================================================================== *)

(** The payloads handed to [ser.write], in order. *)
Fixpoint writes_of (tr : list Event) : list string :=
  match tr with
  | [] => []
  | EvWrite p :: tr' => p :: writes_of tr'
  | _ :: tr' => writes_of tr'
  end.

(** The transactions started ([_send_raw_command] entered), in order. *)
Fixpoint transactions_of (tr : list Event) : list string :=
  match tr with
  | [] => []
  | EvTransact t :: tr' => t :: transactions_of tr'
  | _ :: tr' => transactions_of tr'
  end.

Definition is_io (e : Event) : bool :=
  match e with
  | EvWrite _ | EvSleep _ => true
  | _ => false
  end.

(** Writes and sleeps only, in order. *)
Definition io_view (tr : list Event) : list Event := filter is_io tr.

(** Events of the retry loop: log lines, writes and sleeps. *)
Definition loop_level (e : Event) : bool :=
  match e with
  | EvLog _ | EvWrite _ | EvSleep _ => true
  | _ => false
  end.

(** The events a run added to the history. *)
Definition events_since (w w' : World) : list Event :=
  skipn (List.length (trace w)) (trace w').

(** The five characters the specification asks of [encode]. *)
Definition five_digits (code arg : Z) : string :=
  String (PyStr.digit_char (code / 10))
  (String (PyStr.digit_char (code mod 10))
  (String (PyStr.digit_char (arg / 100))
  (String (PyStr.digit_char ((arg / 10) mod 10))
  (String (PyStr.digit_char (arg mod 10)) EmptyString)))).

Definition is_digit (c : ascii) : bool :=
  let n := nat_of_ascii c in ((48 <=? n)%nat && (n <=? 57)%nat).

Fixpoint all_digits (s : string) : bool :=
  match s with
  | EmptyString => true
  | String c s' => is_digit c && all_digits s'
  end.

(** A read that the transaction treats as a timeout. *)
Definition is_timeout (r : RxItem) : Prop :=
  match r with
  | RxLine l => PyStr.strip l = EmptyString
  | RxFault _ => False
  end.

(** What [n] timed-out attempts starting at attempt index [a] put on the
    wire and in the sleep log: attempt number [k+1] writes the command and
    then sleeps [200 * 2^k] ms. *)
Definition backoff_io (cmd_str : string) (a : nat) (n : nat) : list Event :=
  flat_map (fun k => [EvWrite (cmd_str ++ LF); EvSleep (200 * 2 ^ Z.of_nat k)])
           (seq a n).

(** What no action of the controller or of the [try] body of a run touches:
    the line and the connection flag of the controller, the capabilities of
    the camera; and the abort flag, once set, stays set. *)
Definition sticky (w w' : World) : Prop :=
  ser (ctrl w') = ser (ctrl w) /\
  is_connected (ctrl w') = is_connected (ctrl w) /\
  has_stop_live (cam w') = has_stop_live (cam w) /\
  has_resume_live (cam w') = has_resume_live (cam w) /\
  (abort_flag w = true -> abort_flag w' = true).

(** [w'] is [w] with more history, of events that satisfy [P]. *)
Definition extends (P : Event -> bool) (w w' : World) : Prop :=
  exists d, trace w' = (trace w ++ d)%list /\ forallb P d = true.

(** Events below the controller's public operations: log lines, transaction
    starts, writes and sleeps. *)
Definition low_level (e : Event) : bool :=
  match e with
  | EvLog _ | EvTransact _ | EvWrite _ | EvSleep _ => true
  | _ => false
  end.

(** The polls of the boot wait of [connect]: the window is
    [CONNECTION_WAIT_MS] long and every poll that does not see "READY" is
    followed by a sleep of 100 ms. *)
Definition boot_polls : nat := Z.to_nat (CONNECTION_WAIT_MS / 100).

(** How many lines [n] polls read: one for every poll that finds input
    waiting. *)
Definition reads_in_window (n : nat) (ws : list bool) : nat :=
  List.length (filter (fun b : bool => b) (firstn n ws)).

(** A line read during the boot wait that is not the boot message. *)
Definition not_ready (r : RxItem) : Prop :=
  match r with
  | RxLine l => PyStr.strip l <> "READY"
  | RxFault _ => False
  end.

(** The device emits the line "READY" within the wait window: among the
    lines read by the polls of the window, the first that is not an ordinary
    other line is "READY". *)
Definition ready_in_window (d : Device) : Prop :=
  exists pre l rest,
    rx d = (pre ++ RxLine l :: rest)%list /\
    Forall not_ready pre /\
    PyStr.strip l = "READY" /\
    (List.length pre < reads_in_window boot_polls (waiting d))%nat.

(** No boot message within the window: every line the polls read is some
    other line. *)
Definition silent_in_window (d : Device) : Prop :=
  Forall not_ready (firstn (reads_in_window boot_polls (waiting d)) (rx d)).

(** A device that says nothing while [connect] listens and then answers
    [rxs] to what it is sent. *)
Definition ex_world_fresh (rxs : list RxItem) : World :=
  mkWorld (mkController None false STATE_LATCHED) ex_camera
          (mkDevice rxs [] [] None) [] false None 0 [].

(** A device that has just booted: one line is waiting at the first poll. *)
Definition ex_world_booting (rxs : list RxItem) : World :=
  mkWorld (mkController None false STATE_LATCHED) ex_camera
          (mkDevice rxs [true] [] None) [] false None 0 [].

(** A read that is a line of text, not an I/O error. *)
Definition is_line (r : RxItem) : Prop :=
  match r with
  | RxLine _ => True
  | RxFault _ => False
  end.

(** A port that cannot be opened. *)
Definition ex_world_no_port : World :=
  mkWorld (mkController None false STATE_LATCHED) ex_camera
          (mkDevice [] [] [] (Some (Exn SerialException "could not open port")))
          [] false None 0 [].

(** Events other than an emergency stop and a resume of the live preview. *)
Definition quiet (e : Event) : bool :=
  match e with
  | EvCtrl EmergencyStop _ | EvResumeLive => false
  | _ => true
  end.

(** An event that is not a failure: a controller operation that returned
    [True], a collaborator call that did not raise. *)
Definition ev_ok (e : Event) : bool :=
  match e with
  | EvCtrl _ ok => ok
  | EvCollab _ (Some _) => false
  | _ => true
  end.

(** The events the sequence property speaks of: polarizer moves, captures
    and log records. *)
Definition is_pose_event (e : Event) : bool :=
  match e with
  | EvCtrl (SendCommand pp _) _ => pp =? CMD_POLARIZER
  | EvCollab Capture _ => true
  | EvCollab (AppendLog _ _) _ => true
  | _ => false
  end.

Definition pose_view (tr : list Event) : list Event := filter is_pose_event tr.

Definition is_capture (e : Event) : bool :=
  match e with
  | EvCollab Capture _ => true
  | _ => false
  end.

Definition is_log_record (e : Event) : bool :=
  match e with
  | EvCollab (AppendLog _ _) _ => true
  | _ => false
  end.

Definition is_estop (e : Event) : bool :=
  match e with
  | EvCtrl EmergencyStop _ => true
  | _ => false
  end.


(** An action that always ends (it returns or raises), leaves the sticky
    part of the world alone and adds neither an emergency stop nor a resume
    of the live preview to the history. *)
Definition calm {A} (m : M A) : Prop :=
  forall w r w',
    m w = (r, w') -> r <> Diverge /\ sticky w w' /\ extends quiet w w'.

(** An action that, run by a connected controller, returns a value [a] and
    adds events [d] with [Q a d] whenever none of the events it adds is a
    failure and the abort flag is still clear when it ends. *)
Definition succeeds {A} (m : M A) (Q : A -> list Event -> Prop) : Prop :=
  forall w r w' d,
    is_connected (ctrl w) = true ->
    m w = (r, w') ->
    trace w' = (trace w ++ d)%list ->
    forallb ev_ok d = true ->
    abort_flag w' = false ->
    exists a, r = Ok a /\ Q a d.

(** [succeeds], for an action whose value does not matter: the pose events
    it adds are [V]. *)
Definition yields {A} (m : M A) (V : list Event) : Prop :=
  succeeds m (fun _ d => pose_view d = V).

(** [succeeds], for a controller operation: it returns [True]. *)
Definition acks (m : M bool) (V : list Event) : Prop :=
  succeeds m (fun b d => b = true /\ pose_view d = V).

(** A public controller operation: it always returns a boolean, having
    added low-level events and then its own record to the history. *)
Definition ctrl_op (m : M bool) (c : CtrlCall) : Prop :=
  forall w, exists b w' d,
    m w = (Ok b, w') /\
    trace w' = (trace w ++ d ++ [EvCtrl c b])%list /\
    forallb low_level d = true /\
    sticky w w'.

(** Events that are neither a controller operation nor a collaborator call. *)
Definition background (e : Event) : bool :=
  match e with
  | EvLog _ | EvTransact _ | EvWrite _ | EvSleep _ | EvStopLive => true
  | _ => false
  end.

(** An action that only adds background events and can fail in one way
    only: by raising while the abort flag is set. *)
Definition plain {A} (m : M A) : Prop :=
  forall w r w',
    m w = (r, w') ->
    sticky w w' /\
    exists d, trace w' = (trace w ++ d)%list /\ forallb background d = true /\
              ((exists a, r = Ok a) \/ (abort_flag w' = true /\ exists e, r = Raise e)).

(** What the [finally] clause adds to the history. *)
Definition resume_events (w : World) : list Event :=
  if has_resume_live (cam w) then [EvResumeLive] else [].

(** The angles a run sweeps. *)
Definition angles_of (sample_angles : option (list Z)) : list Z :=
  match sample_angles with
  | None => [90; 60; 45; 30; 0]
  | Some l => l
  end.

(** A device that acknowledges the first [n] commands the way the firmware
    does ("OK RESET" satisfies every check of the controller) and then
    answers [tail]. *)
Definition ex_acks (n : nat) (tail : list RxItem) : list RxItem :=
  (repeat (RxLine ("OK RESET" ++ LF)) n ++ tail)%list.


(** The public controller operations of a history, with their results. *)
Fixpoint ctrl_calls (tr : list Event) : list (CtrlCall * bool) :=
  match tr with
  | [] => []
  | EvCtrl c ok :: tr' => (c, ok) :: ctrl_calls tr'
  | _ :: tr' => ctrl_calls tr'
  end.

(** The capture and the log record of one Crosspol pose. *)
Definition crosspol_pose (save_dir sample_id : string) (exposure : Z) (angle : Z)
  : list Event :=
  let fpath :=
    crosspol_path sample_id (path_join (path_join save_dir sample_id) "crosspol") angle in
  [EvCollab Capture None;
   EvCollab (AppendLog (log_path save_dir sample_id)
               (crosspol_row exposure fpath angle)) None].

(** The capture and the log record of one Normal pose. *)
Definition normal_pose (save_dir sample_id : string) (exposure : Z) (angle : Z)
  : list Event :=
  let fpath :=
    normal_path sample_id (path_join (path_join save_dir sample_id) "normal") angle in
  [EvCollab Capture None;
   EvCollab (AppendLog (log_path save_dir sample_id)
               (normal_row exposure fpath angle)) None].

(** The pose events of a complete two-phase run: polarizer to 90, the
    Crosspol poses in the order of the angles, polarizer to 0, the Normal
    poses in the order of the angles. *)
Definition expected_poses (save_dir sample_id : string)
    (crosspol_exposure_us normal_exposure_us : Z) (angles : list Z) : list Event :=
  ([EvCtrl (SendCommand CMD_POLARIZER 90) true] ++
   flat_map (crosspol_pose save_dir sample_id crosspol_exposure_us) angles ++
   [EvCtrl (SendCommand CMD_POLARIZER 0) true] ++
   flat_map (normal_pose save_dir sample_id normal_exposure_us) angles)%list.

(** A device that acknowledges RESET and the polarizer move, rejects the
    first sample move and would accept the second. *)
Definition ex_one_rejection : list RxItem :=
  ex_acks 2 [RxLine "ERR BUSY"; RxLine ("OK 11 045" ++ LF)].

(* ================================================================== *)
(** * Further parts of the controller and tables of its behaviour *)
(* ================================================================== *)

(** [PicsController.get_state()] *)
Definition get_state : M SafetyState := gets (fun w => last_state (ctrl w)).

(** [PicsController.__init__]: the attributes of a new controller. *)
Definition new_controller : Controller := mkController None false STATE_LATCHED.

(** The command code and argument a typed command hands to
    [_send_raw_command]. *)
Definition code_of (c : TypedCommand) : Z * Z :=
  match c with
  | TRotatePolarizer a => (CMD_POLARIZER, a)
  | TRotateSample a => (CMD_SAMPLE, a)
  | TSendCommand pp aaa => (pp, aaa)
  | THome => (CMD_HOME, 0)
  | TReset => (CMD_RESET, 0)
  | TEmergencyStop => (CMD_ESTOP, 0)
  end.

(** The token of a typed command on the wire. *)
Definition token_of (c : TypedCommand) : string :=
  (PyStr.format_0d 2 (fst (code_of c)) ++ PyStr.format_0d 3 (snd (code_of c)))%string.

(** The test a typed command applies to the response. *)
Definition accepts (c : TypedCommand) (resp : string) : bool :=
  match c with
  | TReset => PyStr.contains "OK RESET" resp
  | TEmergencyStop => PyStr.contains "OK ESTOP" resp
  | THome => PyStr.contains "OK" resp
  | _ => PyStr.startswith "OK" resp
  end.

(** The safety state after a typed command that returned [ok]. *)
Definition state_after (c : TypedCommand) (ok : bool) (st : SafetyState) : SafetyState :=
  match c, ok with
  | TReset, true => STATE_ARMED
  | TEmergencyStop, true => STATE_LATCHED
  | _, _ => st
  end.

(** A typed command that does not reach the transaction layer: [home()]
    while the state is Latched. *)
Definition refused_locally (c : TypedCommand) (st : SafetyState) : bool :=
  match c with
  | THome => state_eqb st STATE_LATCHED
  | _ => false
  end.

(** The time slept, in milliseconds, in a history. *)
Fixpoint slept (tr : list Event) : Z :=
  match tr with
  | [] => 0
  | EvSleep ms :: tr' => ms + slept tr'
  | _ :: tr' => slept tr'
  end.

(** The record a typed command leaves in the history. *)
Definition call_of (c : TypedCommand) : CtrlCall :=
  match c with
  | TRotatePolarizer a => SendCommand CMD_POLARIZER a
  | TRotateSample a => SendCommand CMD_SAMPLE a
  | TSendCommand pp aaa => SendCommand pp aaa
  | THome => Home
  | TReset => Reset
  | TEmergencyStop => EmergencyStop
  end.

(** The safety state that a history of controller operations leads to: an
    acknowledged RESET arms, an acknowledged emergency stop latches, nothing
    else changes the state. *)
Definition replay (calls : list (CtrlCall * bool)) (st : SafetyState) : SafetyState :=
  fold_left (fun s c =>
               match c with
               | (Reset, true) => STATE_ARMED
               | (EmergencyStop, true) => STATE_LATCHED
               | _ => s
               end) calls st.

(** A line on the wire as the device expects it: five decimal digits and a
    line feed. *)
Definition is_wire_line (p : string) : bool :=
  match p with
  | String c1 (String c2 (String c3 (String c4 (String c5 (String nl EmptyString))))) =>
      is_digit c1 && is_digit c2 && is_digit c3 && is_digit c4 && is_digit c5 &&
      (nat_of_ascii nl =? 10)%nat
  | _ => false
  end.

(** Events that are not a write, or write a well-formed line. *)
Definition wire_ok (e : Event) : bool :=
  match e with
  | EvWrite p => is_wire_line p
  | _ => true
  end.

(* ================================================================== *)
(** * apis/utils.py and apis/io.py: file names, directories, image and log files *)
(* ================================================================== *)

(** The nine characters of the class that [sanitize_filename] replaces, by
    code: less-than, greater-than, colon, double quote, slash, backslash,
    vertical bar, question mark, asterisk. *)
Definition is_forbidden (c : ascii) : bool :=
  existsb (Nat.eqb (nat_of_ascii c)) [60; 62; 58; 34; 47; 92; 124; 63; 42]%nat.

(** [utils.sanitize_filename(name)]: [re.sub] of every character of the
    class by an underscore. *)
Fixpoint sanitize_filename (name : string) : string :=
  match name with
  | EmptyString => EmptyString
  | String c rest =>
      String (if is_forbidden c then "_"%char else c) (sanitize_filename rest)
  end.

(** Whether a name still holds a character of the class. *)
Fixpoint has_forbidden (name : string) : bool :=
  match name with
  | EmptyString => false
  | String c rest => is_forbidden c || has_forbidden rest
  end.

Module PyPath.

Definition is_sep (c : ascii) : bool := (c =? "/")%char.

(** [p[:p.rfind('/') + 1]]: the part of [p] up to and with its last [/]. *)
Fixpoint head_of (p : string) : string :=
  match p with
  | EmptyString => EmptyString
  | String c rest =>
      let h := head_of rest in
      if is_sep c || negb (h =? EmptyString)%string then String c h
      else EmptyString
  end.

Fixpoint all_sep (s : string) : bool :=
  match s with
  | EmptyString => true
  | String c rest => is_sep c && all_sep rest
  end.

(** [s.rstrip('/')] *)
Fixpoint rstrip_sep (s : string) : string :=
  match s with
  | EmptyString => EmptyString
  | String c rest =>
      let r := rstrip_sep rest in
      if is_sep c && (r =? EmptyString)%string then EmptyString else String c r
  end.

(** [os.path.dirname(p)] (posixpath): the head, without its trailing
    separators unless it consists of separators only. *)
Definition dirname (p : string) : string :=
  let head := head_of p in
  if all_sep head then head else rstrip_sep head.

(** [c.lower()] for one 7-bit character. *)
Definition lower_char (c : ascii) : ascii :=
  let n := nat_of_ascii c in
  if ((65 <=? n)%nat && (n <=? 90)%nat) then ascii_of_nat (n + 32) else c.

(** [s.lower()] *)
Fixpoint lower (s : string) : string :=
  match s with
  | EmptyString => EmptyString
  | String c rest => String (lower_char c) (lower rest)
  end.

(** [s.endswith(suffix)] *)
Definition endswith (suffix s : string) : bool :=
  (String.length suffix <=? String.length s)%nat &&
  (substring (String.length s - String.length suffix) (String.length suffix) s
   =? suffix)%string.

End PyPath.

Module io.

(** A numpy array: its shape and its elements in row-major order. *)
Record Image := mkImage {
  shape : list nat;
  elements : list Z
}.

(** [image_data.size] *)
Definition size (img : Image) : nat := fold_right Nat.mul 1%nat (shape img).

(** [image_data.ndim] *)
Definition ndim (img : Image) : nat := List.length (shape img).

(** What [cv2.cvtColor(image_data, cv2.COLOR_RGB2BGR)] returns for a
    three-channel image when it accepts it: the first and the third element
    of every pixel change places. *)
Fixpoint swap_rb (l : list Z) : list Z :=
  match l with
  | r :: g :: b :: rest => b :: g :: r :: swap_rb rest
  | _ => l
  end.

Definition cvtColor_RGB2BGR (img : Image) : Image :=
  mkImage (shape img) (swap_rb (elements img)).

(** What a file holds: the CSV rows appended to it, each the list of its
    fields, or what [cv2.imwrite] made of the array handed to it (the
    encoding is OpenCV's: it may narrow the elements to the type the format
    stores). *)
Inductive Chunk :=
| Row (fields : list string)
| Tiff (array : Image).

(** The result of one [cv2.imwrite] call, as the environment decides it. *)
Inductive Imwrite :=
| Written
| NotWritten
| WriteError (e : exn).

(** The host the I/O functions run on: the directories and the files that
    exist (paths are compared as strings), whether OpenCV was imported, the
    scripted outcome of the successive [os.makedirs] and [open] calls ([Some
    e]: the call raises [e]; exhausted: success), of the successive
    [cv2.cvtColor] calls (the same; OpenCV refuses the element types it does
    not convert) and of the successive [cv2.imwrite] calls (exhausted:
    written), and the lines logged. *)
Record Host := mkHost {
  dirs : list string;
  files : list (string * list Chunk);
  HAS_OPENCV : bool;
  os_faults : list (option exn);
  cvt_faults : list (option exn);
  imwrite_script : list Imwrite;
  logged : list string
}.

Definition set_dirs (l : list string) (h : Host) : Host :=
  mkHost l (files h) (HAS_OPENCV h) (os_faults h) (cvt_faults h) (imwrite_script h)
         (logged h).
Definition set_files (l : list (string * list Chunk)) (h : Host) : Host :=
  mkHost (dirs h) l (HAS_OPENCV h) (os_faults h) (cvt_faults h) (imwrite_script h)
         (logged h).
Definition set_os_faults (l : list (option exn)) (h : Host) : Host :=
  mkHost (dirs h) (files h) (HAS_OPENCV h) l (cvt_faults h) (imwrite_script h)
         (logged h).
Definition set_cvt_faults (l : list (option exn)) (h : Host) : Host :=
  mkHost (dirs h) (files h) (HAS_OPENCV h) (os_faults h) l (imwrite_script h)
         (logged h).
Definition set_imwrite_script (l : list Imwrite) (h : Host) : Host :=
  mkHost (dirs h) (files h) (HAS_OPENCV h) (os_faults h) (cvt_faults h) l (logged h).
Definition logging (msg : string) (h : Host) : Host :=
  mkHost (dirs h) (files h) (HAS_OPENCV h) (os_faults h) (cvt_faults h)
         (imwrite_script h) (logged h ++ [msg]).

(** The content of the file at [path], if there is one. *)
Fixpoint read_file (l : list (string * list Chunk)) (path : string)
  : option (list Chunk) :=
  match l with
  | [] => None
  | (p, c) :: rest => if (p =? path)%string then Some c else read_file rest path
  end.

(** The files with the content of [path] replaced (or added). *)
Fixpoint write_file (l : list (string * list Chunk)) (path : string)
    (content : list Chunk) : list (string * list Chunk) :=
  match l with
  | [] => [(path, content)]
  | (p, c) :: rest =>
      if (p =? path)%string then (p, content) :: rest
      else (p, c) :: write_file rest path content
  end.

(** [os.path.isfile(path)] *)
Definition isfile (h : Host) (path : string) : bool :=
  match read_file (files h) path with Some _ => true | None => false end.

(** [os.path.exists(path)]; the empty path does not exist. *)
Definition exists_ (h : Host) (path : string) : bool :=
  negb (path =? EmptyString)%string &&
  (existsb (String.eqb path) (dirs h) || isfile h path).

(** The next scripted outcome of an [os.makedirs] or [open] call. *)
Definition os_call (h : Host) : option exn * Host :=
  match os_faults h with
  | [] => (None, h)
  | f :: rest => (f, set_os_faults rest h)
  end.

(** The proper ancestors of a directory path: its prefixes that end before
    a separator. *)
Fixpoint ancestors (done todo : string) : list string :=
  match todo with
  | EmptyString => []
  | String c rest =>
      (if PyPath.is_sep c && negb (done =? EmptyString)%string then [done] else [])
      ++ ancestors (done ++ String c EmptyString) rest
  end.

(** [os.makedirs(directory)]: the empty path is an error; otherwise the
    directory and its missing ancestors are created, unless the host
    refuses. *)
Definition makedirs (directory : string) (h : Host) : Outcome unit * Host :=
  if (directory =? EmptyString)%string then
    (Raise (Exn OSError "[Errno 2] No such file or directory: ''"), h)
  else
    match os_call h with
    | (Some e, h1) => (Raise e, h1)
    | (None, h1) =>
        (Ok tt, set_dirs (dirs h1 ++ ancestors EmptyString directory ++ [directory]) h1)
    end.

(** [utils.ensure_dir(directory)] *)
Definition ensure_dir (directory : string) (h : Host) : Outcome unit * Host :=
  if negb (exists_ h directory) then makedirs directory h else (Ok tt, h).

(** A value of the dictionaries handed to [append_to_log]. *)
Inductive PyVal :=
| VStr (s : string)
| VInt (n : Z).

(** The text [csv] writes for a value. *)
Definition csv_text (v : PyVal) : string :=
  match v with
  | VStr s => s
  | VInt n => PyStr.str n
  end.

(** [data_dict.get(k, "")] *)
Fixpoint dict_get (data_dict : list (string * PyVal)) (k : string) : PyVal :=
  match data_dict with
  | [] => VStr EmptyString
  | (k', v) :: rest => if (k' =? k)%string then v else dict_get rest k
  end.

Definition fieldnames : list string :=
  ["timestamp"; "mode"; "exposure_us"; "gain";
   "polarizer_angle"; "sample_angle"; "filepath";
   "arduino_response"; "attempt_count"].

(** The row [append_to_log] writes for a dictionary: the known fields, in
    their order, an absent one as the empty text. *)
Definition csv_row (data_dict : list (string * PyVal)) : list string :=
  map (fun k => csv_text (dict_get data_dict k)) fieldnames.

(** [io.append_to_log(log_path, data_dict)] *)
Definition append_to_log (log_path : string) (data_dict : list (string * PyVal))
    (h : Host) : Outcome bool * Host :=
  let file_exists := isfile h log_path in
  match ensure_dir (PyPath.dirname log_path) h with
  | (Ok _, h1) =>
      (* try: with open(log_path, mode='a', newline='') as f: ... *)
      match os_call h1 with
      | (Some e, h2) =>
          (Ok false,
           logging ("Failed to write log " ++ log_path ++ ": " ++ exn_msg e) h2)
      | (None, h2) =>
          let old := match read_file (files h2) log_path with
                     | Some c => c
                     | None => []
                     end in
          let header := if negb file_exists then [Row fieldnames] else [] in
          (Ok true,
           set_files (write_file (files h2) log_path
                        (old ++ header ++ [Row (csv_row data_dict)])) h2)
      end
  | (Raise e, h1) => (Raise e, h1)
  | (Diverge, h1) => (Diverge, h1)
  end.

(** The host after the successive calls [append_to_log(log_path, d)] for
    the dictionaries [d] of a list, in order. *)
Fixpoint append_rows (log_path : string) (rows : list (list (string * PyVal)))
    (h : Host) : Host :=
  match rows with
  | [] => h
  | d :: rest => append_rows log_path rest (snd (append_to_log log_path d h))
  end.

(** A chunk that is a row of as many fields as there are field names. *)
Definition is_full_row (c : Chunk) : bool :=
  match c with
  | Row fields => (List.length fields =? List.length fieldnames)%nat
  | Tiff _ => false
  end.

(** [filepath.lower().endswith(('.tif', '.tiff'))] *)
Definition is_tiff_name (filepath : string) : bool :=
  PyPath.endswith ".tif" (PyPath.lower filepath) ||
  PyPath.endswith ".tiff" (PyPath.lower filepath).

(** The name [save_image] writes to: the extension is added when the name
    has none of the two (line 34-35). *)
Definition tiff_path (filepath : string) : string :=
  if negb (is_tiff_name filepath) then filepath ++ ".tif" else filepath.

(** The next scripted outcome of a [cv2.cvtColor] call. *)
Definition cvt_call (h : Host) : option exn * Host :=
  match cvt_faults h with
  | [] => (None, h)
  | f :: rest => (f, set_cvt_faults rest h)
  end.

(** [color_mode == "rgb" and image_data.ndim == 3 and
    image_data.shape[2] == 3] *)
Definition needs_cvt (color_mode : option string) (img : Image) : bool :=
  match color_mode with
  | Some m => (m =? "rgb")%string
  | None => false
  end
  && (ndim img =? 3)%nat && (nth 2 (shape img) 0 =? 3)%nat.

(** The optional colour conversion of [save_image] (lines 38-39), which
    stands before the [try] statement: an error of [cv2.cvtColor] leaves
    the function. *)
Definition to_bgr (color_mode : option string) (img : Image) (h : Host)
  : Outcome Image * Host :=
  if needs_cvt color_mode img then
    match cvt_call h with
    | (Some e, h1) => (Raise e, h1)
    | (None, h1) => (Ok (cvtColor_RGB2BGR img), h1)
    end
  else (Ok img, h).

(** The [try] statement of [save_image] (lines 42-50). *)
Definition try_imwrite (filepath : string) (img : Image) (h : Host)
  : Outcome bool * Host :=
  match imwrite_script h with
  | [] =>
      (Ok true,
       logging ("Saved image: " ++ filepath)
         (set_files (write_file (files h) filepath [Tiff img]) h))
  | Written :: rest =>
      (Ok true,
       logging ("Saved image: " ++ filepath)
         (set_files (write_file (files h) filepath [Tiff img])
            (set_imwrite_script rest h)))
  | NotWritten :: rest =>
      (Ok false,
       logging ("Failed to save image: cv2.imwrite failed for " ++ filepath)
         (set_imwrite_script rest h))
  | WriteError e :: rest =>
      (Ok false,
       logging ("Failed to save image: " ++ exn_msg e) (set_imwrite_script rest h))
  end.

(** [io.save_image(filepath, image_data, color_mode)] *)
Definition save_image (filepath : string) (image_data : option Image)
    (color_mode : option string) (h : Host) : Outcome bool * Host :=
  if negb (HAS_OPENCV h) then
    (Raise (Exn ImportError "OpenCV (cv2) is required to save images."), h)
  else
    let directory := PyPath.dirname filepath in
    match (if negb (directory =? EmptyString)%string
           then ensure_dir directory h else (Ok tt, h)) with
    | (Ok _, h1) =>
        match image_data with
        | None =>
            (Ok false,
             logging ("Cannot save image: Data is None or empty. File: " ++ filepath) h1)
        | Some img =>
            if (size img =? 0)%nat then
              (Ok false,
               logging ("Cannot save image: Data is None or empty. File: " ++ filepath) h1)
            else
              match to_bgr color_mode img h1 with
              | (Ok bgr, h2) => try_imwrite (tiff_path filepath) bgr h2
              | (Raise e, h2) => (Raise e, h2)
              | (Diverge, h2) => (Diverge, h2)
              end
        end
    | (Raise e, h1) => (Raise e, h1)
    | (Diverge, h1) => (Diverge, h1)
    end.

(** The dictionary [run_sequence] hands to [append_to_log] for a pose
    (sequence.py, lines 101-109 and 136-144). *)
Definition mode_name (m : Mode) : string :=
  match m with
  | Crosspol => "crosspol"
  | Normal => "normal"
  end.

Definition dict_of_row (timestamp : string) (r : LogRow) : list (string * PyVal) :=
  [("timestamp", VStr timestamp);
   ("mode", VStr (mode_name (row_mode r)));
   ("exposure_us", VInt (row_exposure_us r));
   ("polarizer_angle", VInt (row_polarizer_angle r));
   ("sample_angle", VInt (row_sample_angle r));
   ("filepath", VStr (row_filepath r));
   ("arduino_response", VStr (row_arduino_response r))].

End io.

(* ================================================================== *)
(** * Notions for the settling wait and for the shape of a run *)
(* ================================================================== *)

(** When the other thread will call [abort()], seen [k] blocking operations
    later. *)
Definition pending_after (k : nat) (a : option nat) : option nat :=
  match a with
  | None => None
  | Some j => Some (j - k)%nat
  end.

(** [PicsSequence.abort()] *)
Definition abort : M unit :=
  modify (set_abort_flag true) ;;
  log "Abort requested!".

(** The pose events of a complete run, by the phases enabled: an enabled
    phase gives its polarizer move and then its poses in the order of the
    angles; a phase that is not enabled gives nothing. *)
Definition expected_poses_of (save_dir sample_id : string)
    (crosspol_exposure_us normal_exposure_us : Z) (angles : list Z)
    (do_crosspol do_normal : bool) : list Event :=
  ((if do_crosspol
    then EvCtrl (SendCommand CMD_POLARIZER 90) true ::
         flat_map (crosspol_pose save_dir sample_id crosspol_exposure_us) angles
    else []) ++
   (if do_normal
    then EvCtrl (SendCommand CMD_POLARIZER 0) true ::
         flat_map (normal_pose save_dir sample_id normal_exposure_us) angles
    else []))%list.




(** Events that involve neither the device nor a collaborator: log lines,
    sleeps, the pause of the live preview. *)
Definition passive (e : Event) : bool :=
  match e with
  | EvLog _ | EvSleep _ | EvStopLive => true
  | _ => false
  end.

(** An action that always ends, leaves the controller object alone and adds
    only passive events. *)
Definition inert {A} (m : M A) : Prop :=
  forall w r w',
    m w = (r, w') -> r <> Diverge /\ ctrl w' = ctrl w /\ extends passive w w'.

(** An action that always ends, adds only events that satisfy [P], and
    leaves the safety state that the controller operations it made lead
    to. *)
Definition tame (P : Event -> bool) {A} (m : M A) : Prop :=
  forall w r w',
    m w = (r, w') ->
    r <> Diverge /\
    exists d, trace w' = (trace w ++ d)%list /\ forallb P d = true /\
              last_state (ctrl w') = replay (ctrl_calls d) (last_state (ctrl w)).






(* ================================================================== *)
(** * A monitor of the rig, for the captures and the log records of a run *)
(* ================================================================== *)

(** What the history says of the rig at some point: the time slept since
    the last controller operation, the exposure the camera was last given
    (nothing if the call raised), the angle of the last polarizer move and of
    the last sample move (nothing if that move, or a later HOME, RESET or
    emergency stop, leaves the position unknown), and the path last handed to
    [save_image]. *)
Record Rig := mkRig {
  settled_ms : Z;
  exposure_set : option Z;
  polarizer_at : option Z;
  sample_at : option Z;
  saved_as : option string
}.

Definition holds (o : option Z) (n : Z) : bool :=
  match o with
  | Some x => x =? n
  | None => false
  end.

Definition holds_path (o : option string) (p : string) : bool :=
  match o with
  | Some x => (x =? p)%string
  | None => false
  end.

(** The polarizer angle of a mode. *)
Definition mode_angle (m : Mode) : Z :=
  match m with
  | Crosspol => 90
  | Normal => 0
  end.

(** A log record that tells the truth about the rig: its exposure is the
    one last given to the camera, its angles are those of the last moves,
    both acknowledged, its polarizer angle is the one of its mode, and its
    path is the one last handed to [save_image]. *)
Definition truthful (s : Rig) (row : LogRow) : bool :=
  holds (exposure_set s) (row_exposure_us row) &&
  holds (polarizer_at s) (row_polarizer_angle row) &&
  holds (sample_at s) (row_sample_angle row) &&
  (row_polarizer_angle row =? mode_angle (row_mode row)) &&
  holds_path (saved_as s) (row_filepath row).

(** One event seen by the monitor; [None]: the event is a capture taken
    before [SETTLING_TIME_MS] of sleep have followed the last controller
    operation, or a log record that is not truthful. *)
Definition rig_step (s : Rig) (e : Event) : option Rig :=
  match e with
  | EvSleep ms =>
      Some (mkRig (settled_ms s + Z.max ms 0) (exposure_set s) (polarizer_at s)
                  (sample_at s) (saved_as s))
  | EvCtrl (SendCommand pp a) ok =>
      Some (mkRig 0 (exposure_set s)
              (if pp =? CMD_POLARIZER then (if ok then Some a else None)
               else polarizer_at s)
              (if pp =? CMD_SAMPLE then (if ok then Some a else None)
               else sample_at s)
              (saved_as s))
  | EvCtrl _ _ => Some (mkRig 0 (exposure_set s) None None (saved_as s))
  | EvCollab (SetExposure us) fault =>
      Some (mkRig (settled_ms s)
              (match fault with None => Some us | Some _ => None end)
              (polarizer_at s) (sample_at s) (saved_as s))
  | EvCollab Capture _ =>
      if SETTLING_TIME_MS <=? settled_ms s then Some s else None
  | EvCollab (SaveImage p) _ =>
      Some (mkRig (settled_ms s) (exposure_set s) (polarizer_at s) (sample_at s)
                  (Some p))
  | EvCollab (AppendLog _ row) _ =>
      if truthful s row then Some s else None
  | _ => Some s
  end.

(** The monitor run over a history. *)
Fixpoint watch (s : Rig) (d : list Event) : option Rig :=
  match d with
  | [] => Some s
  | e :: d' =>
      match rig_step s e with
      | Some s' => watch s' d'
      | None => None
      end
  end.

(** A rig of which nothing is known. *)
Definition rig_unknown : Rig := mkRig 0 None None None None.

(** An action that always ends and whose events the monitor accepts from
    every state that satisfies [pre], ending, when the action returns [a], in
    a state that satisfies [post a]. *)
Definition keeps {A} (pre : Rig -> Prop) (m : M A) (post : A -> Rig -> Prop) : Prop :=
  forall w r w',
    m w = (r, w') ->
    r <> Diverge /\
    exists d, trace w' = (trace w ++ d)%list /\
      forall s, pre s ->
        exists s', watch s d = Some s' /\
                   match r with Ok a => post a s' | _ => True end.

(** A condition on the rig that more sleep does not undo. *)
Definition patient (pre : Rig -> Prop) : Prop :=
  forall s k, 0 <= k -> pre s ->
    pre (mkRig (settled_ms s + k) (exposure_set s) (polarizer_at s) (sample_at s)
               (saved_as s)).

(** The time slept in a history, sleeps of negative length not counted. *)
Fixpoint slept_for (d : list Event) : Z :=
  match d with
  | [] => 0
  | EvSleep ms :: d' => Z.max ms 0 + slept_for d'
  | _ :: d' => slept_for d'
  end.

(** The rig after a typed command that returned [b]. *)
Definition rig_after (c : TypedCommand) (b : bool) (s : Rig) : Rig :=
  match rig_step s (EvCtrl (call_of c) b) with
  | Some s' => s'
  | None => s
  end.

(** The condition of the rig during the loop of a phase: the exposure of the
    phase is set, the polarizer stands at the angle of the phase. *)
Definition in_phase (exposure angle : Z) (s : Rig) : Prop :=
  exposure_set s = Some exposure /\ polarizer_at s = Some angle /\ 0 <= settled_ms s.

(** The same, with the sample at the angle of the pose. *)
Definition in_pose (exposure angle sample : Z) (s : Rig) : Prop :=
  in_phase exposure angle s /\ sample_at s = Some sample.

(** An action whose events the monitor accepts from every state. *)
Definition fine {A} (m : M A) : Prop :=
  keeps (fun _ => True) m (fun _ _ => True).

(* ================================================================== *)
(** * Checkpoints of a run *)
(* ================================================================== *)


(** [observes m w]: in the course of the action [m], started in the world
    [w], a checkpoint (a call of [_check_abort]) finds the abort flag set.
    The checkpoint is either the action itself, or lies in the first part of
    a sequence, or in what follows a first part that has returned, or in a
    slice of the settling loop whose condition holds. *)
Inductive observes : forall A : Type, M A -> World -> Prop :=
| observes_check (w : World) :
    abort_flag w = true -> observes unit _check_abort w
| observes_first (A B : Type) (m : M A) (k : A -> M B) (w : World) :
    observes A m w -> observes B (bind m k) w
| observes_then (A B : Type) (m : M A) (k : A -> M B) (w w1 : World) (a : A) :
    m w = (Ok a, w1) -> observes B (k a) w1 -> observes B (bind m k) w
| observes_slice (fuel : nat) (start duration : Z) (w : World) :
    now w - start < duration ->
    observes unit (_check_abort ;; sleep 50 ;; settle_loop fuel start duration) w ->
    observes unit (settle_loop (S fuel) start duration) w.
Arguments observes {A} m w.
Arguments observes_first {A B} m k w _.
Arguments observes_then {A B} m k w w1 a _ _.


(* ================================================================== *)
(** * Basic facts *)
(* ================================================================== *)

Lemma writes_of_app (a b : list Event) :
  writes_of (a ++ b)%list = (writes_of a ++ writes_of b)%list.
Proof.
  induction a as [|e a IH]; simpl; [reflexivity|].
  destruct e; simpl; rewrite IH; reflexivity.
Qed.

Lemma transactions_of_app (a b : list Event) :
  transactions_of (a ++ b)%list = (transactions_of a ++ transactions_of b)%list.
Proof.
  induction a as [|e a IH]; simpl; [reflexivity|].
  destruct e; simpl; rewrite IH; reflexivity.
Qed.

Lemma io_view_app (a b : list Event) :
  io_view (a ++ b)%list = (io_view a ++ io_view b)%list.
Proof. apply filter_app. Qed.

Lemma events_since_app (w w' : World) (d : list Event) :
  trace w' = (trace w ++ d)%list -> events_since w w' = d.
Proof.
  intros H. unfold events_since. rewrite H.
  rewrite skipn_app, skipn_all, Nat.sub_diag. reflexivity.
Qed.

Lemma range_check (f : Z -> bool) (hi : nat) :
  forallb (fun k => f (Z.of_nat k)) (seq 0 hi) = true ->
  forall n, 0 <= n < Z.of_nat hi -> f n = true.
Proof.
  intros H n Hn.
  rewrite forallb_forall in H.
  specialize (H (Z.to_nat n)).
  rewrite Z2Nat.id in H by lia.
  apply H. apply in_seq. lia.
Qed.

Lemma format_02d_in_range (n : Z) :
  0 <= n <= 99 ->
  PyStr.format_0d 2 n =
  String (PyStr.digit_char (n / 10)) (String (PyStr.digit_char (n mod 10)) EmptyString).
Proof.
  intros Hn. apply String.eqb_eq.
  apply (range_check
           (fun n => (PyStr.format_0d 2 n =?
                      String (PyStr.digit_char (n / 10))
                        (String (PyStr.digit_char (n mod 10)) EmptyString))%string)
           100); [vm_compute; reflexivity | lia].
Qed.

Lemma format_03d_in_range (n : Z) :
  0 <= n <= 999 ->
  PyStr.format_0d 3 n =
  String (PyStr.digit_char (n / 100))
    (String (PyStr.digit_char ((n / 10) mod 10))
       (String (PyStr.digit_char (n mod 10)) EmptyString)).
Proof.
  intros Hn. apply String.eqb_eq.
  apply (range_check
           (fun n => (PyStr.format_0d 3 n =?
                      String (PyStr.digit_char (n / 100))
                        (String (PyStr.digit_char ((n / 10) mod 10))
                           (String (PyStr.digit_char (n mod 10)) EmptyString)))%string)
           1000); [vm_compute; reflexivity | lia].
Qed.

Lemma digit_char_is_digit (d : Z) : 0 <= d <= 9 -> is_digit (PyStr.digit_char d) = true.
Proof.
  intros Hd.
  apply (range_check (fun d => is_digit (PyStr.digit_char d)) 10);
    [vm_compute; reflexivity | lia].
Qed.

(** A transaction on a line that is not open: the guard of
    [_send_raw_command] answers before anything is written. *)
Lemma send_raw_not_open (pp aaa retry_count : Z) (w : World) :
  ser_is_open (ctrl w) = false ->
  _send_raw_command pp aaa retry_count w =
  (Ok "ERR NO_CONNECTION",
   emit (EvTransact (PyStr.format_0d 2 pp ++ PyStr.format_0d 3 aaa)) w).
Proof.
  intros H. unfold _send_raw_command, bind, lift, utils.format_command, modify, gets.
  simpl. rewrite H. reflexivity.
Qed.

(* ================================================================== *)
(** * ProtocolCodec: format_command *)
(* ================================================================== *)

(** C9, as the code has it: [format_command] has no range check and no failing
    path, so it returns a string for every pair of integers; when the code is
    in [0,99] and the argument in [0,999] that string is exactly five ASCII
    digits, the 2-digit zero-padded code followed by the 3-digit zero-padded
    argument. *)
Theorem format_command_five_digits (code arg : Z) :
  (exists s, utils.format_command code arg = Ok s) /\
  (0 <= code <= 99 -> 0 <= arg <= 999 ->
   utils.format_command code arg = Ok (five_digits code arg) /\
   String.length (five_digits code arg) = 5%nat /\
   all_digits (five_digits code arg) = true).
Proof.
  split; [eexists; reflexivity|].
  intros Hc Ha. unfold utils.format_command.
  rewrite (format_02d_in_range code Hc), (format_03d_in_range arg Ha).
  split; [reflexivity|]. split; [reflexivity|].
  unfold five_digits, all_digits.
  rewrite !digit_char_is_digit; [reflexivity | | | | |].
  - pose proof (Z.mod_pos_bound arg 10); lia.
  - pose proof (Z.mod_pos_bound (arg / 10) 10); lia.
  - split; [apply Z.div_pos; lia | apply Z.lt_succ_r, Z.div_lt_upper_bound; lia].
  - pose proof (Z.mod_pos_bound code 10); lia.
  - split; [apply Z.div_pos; lia | apply Z.lt_succ_r, Z.div_lt_upper_bound; lia].
Qed.

Lemma format_command_five_digits_witness :
  (0 <= 10 <= 99) /\ (0 <= 90 <= 999) /\ utils.format_command 10 90 = Ok "10090".
Proof.
  split; [lia|]. split; [lia|].
  apply (proj2 (format_command_five_digits 10 90)); lia.
Defined.

(** C9, as stated, fails: a code outside [0,99] is not rejected;
    [format_command(100, 0)] returns the six characters "100000". *)
Lemma format_command_out_of_range_accepted :
  ~ (0 <= 100 <= 99) /\
  utils.format_command 100 0 = Ok "100000" /\
  ~ (exists e, utils.format_command 100 0 = Raise e) /\
  String.length "100000" <> 5%nat.
Proof.
  split; [lia|]. split; [reflexivity|]. split.
  - intros [e He]. discriminate He.
  - discriminate.
Qed.

(* ================================================================== *)
(** * CommandChannel: _send_raw_command *)
(* ================================================================== *)

Lemma tick_ctrl (w : World) : ctrl (tick w) = ctrl w.
Proof. unfold tick. destruct (abort_in w) as [[|n]|]; reflexivity. Qed.

Lemma tick_dev (w : World) : dev (tick w) = dev w.
Proof. unfold tick. destruct (abort_in w) as [[|n]|]; reflexivity. Qed.

Lemma tick_cam (w : World) : cam (tick w) = cam w.
Proof. unfold tick. destruct (abort_in w) as [[|n]|]; reflexivity. Qed.

Lemma tick_collab (w : World) : collab (tick w) = collab w.
Proof. unfold tick. destruct (abort_in w) as [[|n]|]; reflexivity. Qed.

Lemma tick_now (w : World) : now (tick w) = now w.
Proof. unfold tick. destruct (abort_in w) as [[|n]|]; reflexivity. Qed.

Lemma tick_trace (w : World) : trace (tick w) = (trace w ++ tick_delta w)%list.
Proof.
  unfold tick, tick_delta. destruct (abort_in w) as [[|n]|]; simpl;
    rewrite ?app_nil_r; reflexivity.
Qed.

Lemma tick_delta_io (w : World) : io_view (tick_delta w) = [].
Proof. unfold tick_delta. destruct (abort_in w) as [[|n]|]; reflexivity. Qed.

Lemma writes_of_io_view (d : list Event) : writes_of (io_view d) = writes_of d.
Proof.
  induction d as [|e d IH]; [reflexivity|].
  destruct e; simpl; rewrite ?IH; reflexivity.
Qed.

Lemma tick_delta_loop_level (w : World) : forallb loop_level (tick_delta w) = true.
Proof. unfold tick_delta. destruct (abort_in w) as [[|n]|]; reflexivity. Qed.

Lemma loop_level_no_transactions (d : list Event) :
  forallb loop_level d = true -> transactions_of d = [].
Proof.
  induction d as [|e d IH]; [reflexivity|].
  simpl. intros H. apply andb_prop in H. destruct H as [He Hd].
  destruct e; simpl in *; try discriminate; auto.
Qed.

Ltac wsimpl :=
  repeat (progress
    (rewrite ?tick_trace, ?tick_ctrl, ?tick_dev, ?tick_cam, ?tick_collab, ?tick_now;
     cbn [trace dev ctrl cam collab now abort_flag abort_in emit set_now set_dev
          set_ctrl set_cam set_collab set_abort_flag set_abort_in
          rx waiting tx_faults open_fault set_rx set_waiting set_tx_faults
          ser is_connected last_state set_ser set_is_connected set_last_state
          fst snd])).

Ltac iosimpl :=
  repeat (progress
    (rewrite ?io_view_app, ?tick_delta_io, ?forallb_app, ?tick_delta_loop_level;
     cbn [io_view filter is_io app forallb loop_level andb])).

(** One attempt whose read times out: the command is written, the attempt
    counter goes up, the back-off sleep is taken, the loop continues. *)
Lemma send_loop_timeout_step (fuel : nat) (a : nat) (R : Z) (cmd : string) (w : World) :
  Z.of_nat a < R ->
  tx_faults (dev w) = [] ->
  is_timeout (nth 0 (rx (dev w)) (RxLine EmptyString)) ->
  exists w' d,
    send_loop (S fuel) (Z.of_nat a) R cmd w = send_loop fuel (Z.of_nat (S a)) R cmd w' /\
    trace w' = (trace w ++ d)%list /\
    io_view d = [EvWrite (cmd ++ LF); EvSleep (200 * 2 ^ Z.of_nat a)] /\
    forallb loop_level d = true /\
    rx (dev w') = skipn 1 (rx (dev w)) /\
    tx_faults (dev w') = [] /\
    ctrl w' = ctrl w.
Proof.
  intros Ha Htx Hto.
  assert (Hlt : (Z.of_nat a <? R) = true) by (apply Z.ltb_lt; exact Ha).
  assert (Hexp : Z.of_nat a + 1 - 1 = Z.of_nat a) by lia.
  assert (Hsucc : Z.of_nat a + 1 = Z.of_nat (S a)) by lia.
  cbn [send_loop]. rewrite Hlt.
  unfold bind at 1. unfold send_attempt, try_except. unfold bind at 1.
  unfold ser_write at 1. rewrite Htx.
  unfold bind at 1. unfold ser_readline at 1.
  set (w1 := emit (EvWrite (cmd ++ LF)) w).
  assert (Hrx1 : rx (dev (tick w1)) = rx (dev w)) by (rewrite tick_dev; reflexivity).
  rewrite <- Hrx1 in Hto. rewrite <- Hrx1.
  destruct (rx (dev (tick w1))) as [|[l|e] rest] eqn:Erx.
  - (* exhausted script: the read times out *)
    cbn -[tick Z.pow Z.mul Z.add PyStr.str append].
    rewrite Hexp, Hsucc.
    eexists. eexists. split; [reflexivity|].
    unfold w1. wsimpl. rewrite <- !app_assoc.
    split; [reflexivity|]. iosimpl. repeat split; auto.
  - simpl in Hto.
    cbn -[tick Z.pow Z.mul Z.add PyStr.str append PyStr.strip].
    rewrite Hto.
    cbn -[tick Z.pow Z.mul Z.add PyStr.str append].
    rewrite Hexp, Hsucc.
    eexists. eexists. split; [reflexivity|].
    unfold w1. wsimpl. rewrite <- !app_assoc.
    split; [reflexivity|]. iosimpl. repeat split; auto.
  - simpl in Hto. contradiction.
Qed.

Lemma backoff_io_cons (cmd : string) (a n : nat) :
  backoff_io cmd a (S n) =
  (EvWrite (cmd ++ LF) :: EvSleep (200 * 2 ^ Z.of_nat a) :: backoff_io cmd (S a) n)%list.
Proof. reflexivity. Qed.

Lemma backoff_io_writes (cmd : string) (n : nat) :
  forall a, writes_of (backoff_io cmd a n) = repeat (cmd ++ LF)%string n.
Proof.
  induction n as [|n IH]; intros a; [reflexivity|].
  rewrite backoff_io_cons. simpl. rewrite IH. reflexivity.
Qed.

(** [n] timed-out attempts in a row. *)
Lemma send_loop_timeouts (n : nat) :
  forall (fuel a : nat) (R : Z) (cmd : string) (w : World),
    Z.of_nat (a + n) <= R ->
    tx_faults (dev w) = [] ->
    (forall k, (k < n)%nat -> is_timeout (nth k (rx (dev w)) (RxLine EmptyString))) ->
    exists w' d,
      send_loop (n + fuel) (Z.of_nat a) R cmd w =
        send_loop fuel (Z.of_nat (a + n)) R cmd w' /\
      trace w' = (trace w ++ d)%list /\
      io_view d = backoff_io cmd a n /\
      forallb loop_level d = true /\
      rx (dev w') = skipn n (rx (dev w)) /\
      tx_faults (dev w') = [] /\
      ctrl w' = ctrl w.
Proof.
  induction n as [|n IH]; intros fuel a R cmd w HR Htx Hto.
  - exists w, []. rewrite Nat.add_0_r. simpl. rewrite app_nil_r.
    repeat split; auto.
  - destruct (send_loop_timeout_step (n + fuel) a R cmd w)
      as (w1 & d1 & E1 & T1 & V1 & L1 & R1 & X1 & C1);
      [lia | exact Htx | apply Hto; lia |].
    destruct (IH fuel (S a) R cmd w1) as (w2 & d2 & E2 & T2 & V2 & L2 & R2 & X2 & C2);
      [lia | exact X1 | |].
    + intros k Hk. rewrite R1.
      specialize (Hto (S k) ltac:(lia)).
      destruct (rx (dev w)) as [|x rest]; simpl in *; [destruct k|]; exact Hto.
    + exists w2, (d1 ++ d2)%list. change (S n + fuel)%nat with (S (n + fuel)).
      rewrite E1, E2. replace (S a + n)%nat with (a + S n)%nat by lia.
      split; [reflexivity|].
      rewrite T2, T1, <- app_assoc. split; [reflexivity|].
      rewrite io_view_app, V1, V2, backoff_io_cons. simpl.
      split; [reflexivity|].
      rewrite forallb_app, L1, L2. split; [reflexivity|].
      rewrite R2, R1, C2, C1.
      split; [|auto].
      destruct (rx (dev w)) as [|x rest]; simpl; [destruct n|]; reflexivity.
Qed.

(** An attempt whose read returns content: the stripped line is the result. *)
Lemma send_loop_response (fuel a : nat) (R : Z) (cmd l : string)
    (rest : list RxItem) (w : World) :
  Z.of_nat a < R ->
  tx_faults (dev w) = [] ->
  rx (dev w) = RxLine l :: rest ->
  PyStr.strip l <> EmptyString ->
  exists w' d,
    send_loop (S fuel) (Z.of_nat a) R cmd w = (Ok (PyStr.strip l), w') /\
    trace w' = (trace w ++ d)%list /\
    io_view d = [EvWrite (cmd ++ LF)] /\
    forallb loop_level d = true /\
    rx (dev w') = rest /\
    tx_faults (dev w') = [] /\
    ctrl w' = ctrl w.
Proof.
  intros Ha Htx Hrx Hl.
  assert (Hlt : (Z.of_nat a <? R) = true) by (apply Z.ltb_lt; exact Ha).
  cbn [send_loop]. rewrite Hlt.
  unfold bind at 1. unfold send_attempt, try_except. unfold bind at 1.
  unfold ser_write at 1. rewrite Htx.
  unfold bind at 1. unfold ser_readline at 1.
  set (w1 := emit (EvWrite (cmd ++ LF)) w).
  assert (Hrx1 : rx (dev (tick w1)) = RxLine l :: rest)
    by (rewrite tick_dev; exact Hrx).
  rewrite Hrx1.
  apply String.eqb_neq in Hl.
  cbn -[tick PyStr.strip append]. rewrite Hl.
  eexists. eexists. split; [reflexivity|].
  unfold w1. wsimpl. rewrite <- !app_assoc.
  split; [reflexivity|]. iosimpl. repeat split; auto.
Qed.

(** Once the attempts are used up the loop returns the sentinel. *)
Lemma send_loop_exhausted (fuel : nat) (a R : Z) (cmd : string) (w : World) :
  R <= a -> send_loop fuel a R cmd w = (Ok "ERR TIMEOUT", w).
Proof.
  intros H. assert (E : (a <? R) = false) by (apply Z.ltb_ge; exact H).
  destruct fuel; cbn [send_loop]; rewrite E; reflexivity.
Qed.

(** Entering a transaction on an open line. *)
Lemma send_raw_open (pp aaa R : Z) (w : World) :
  ser_is_open (ctrl w) = true ->
  _send_raw_command pp aaa R w =
  send_loop (Z.to_nat R) 0 R (PyStr.format_0d 2 pp ++ PyStr.format_0d 3 aaa)
            (emit (EvTransact (PyStr.format_0d 2 pp ++ PyStr.format_0d 3 aaa)) w).
Proof.
  intros H. unfold _send_raw_command, bind, lift, utils.format_command, modify, gets.
  simpl. rewrite H. reflexivity.
Qed.

(** A transaction that meets [N] empty reads and then a response. *)
Lemma transact_response (pp aaa : Z) (max_attempts N : nat) (w : World)
    (pre rest : list RxItem) (l : string) :
  ser_is_open (ctrl w) = true ->
  tx_faults (dev w) = [] ->
  (N < max_attempts)%nat ->
  List.length pre = N ->
  Forall is_timeout pre ->
  PyStr.strip l <> EmptyString ->
  rx (dev w) = (pre ++ RxLine l :: rest)%list ->
  let cmd := (PyStr.format_0d 2 pp ++ PyStr.format_0d 3 aaa)%string in
  exists w' d,
    _send_raw_command pp aaa (Z.of_nat max_attempts) w = (Ok (PyStr.strip l), w') /\
    trace w' = (trace w ++ d)%list /\
    transactions_of d = [cmd] /\
    io_view d = (backoff_io cmd 0 N ++ [EvWrite (cmd ++ LF)])%list /\
    rx (dev w') = rest /\ tx_faults (dev w') = [] /\ ctrl w' = ctrl w.
Proof.
  intros Hopen Htx HN Hlen Hpre Hl Hrx cmd.
  rewrite (send_raw_open pp aaa (Z.of_nat max_attempts) w Hopen), Nat2Z.id.
  fold cmd. set (w0 := emit (EvTransact cmd) w).
  assert (T0 : trace w0 = (trace w ++ [EvTransact cmd])%list) by reflexivity.
  assert (X0 : tx_faults (dev w0) = []) by exact Htx.
  destruct (send_loop_timeouts N (max_attempts - N) 0 (Z.of_nat max_attempts) cmd w0)
    as (w1 & d1 & E1 & T1 & V1 & L1 & R1 & X1 & C1); [lia | exact X0 | |].
  { intros k Hk. change (rx (dev w0)) with (rx (dev w)). rewrite Hrx.
    rewrite app_nth1 by lia.
    rewrite Forall_forall in Hpre. apply Hpre, nth_In. lia. }
  replace (N + (max_attempts - N))%nat with max_attempts in E1 by lia.
  change (Z.of_nat 0) with 0 in E1. rewrite E1. simpl Nat.add.
  destruct (max_attempts - N)%nat as [|f] eqn:Ef; [lia|].
  destruct (send_loop_response f N (Z.of_nat max_attempts) cmd l rest w1)
    as (w2 & d2 & E2 & T2 & V2 & L2 & R2 & X2 & C2); [lia | exact X1 | | exact Hl |].
  { rewrite R1. change (rx (dev w0)) with (rx (dev w)). rewrite Hrx.
    rewrite skipn_app, <- Hlen, skipn_all, Nat.sub_diag. reflexivity. }
  exists w2, ([EvTransact cmd] ++ d1 ++ d2)%list. split; [exact E2|].
  split; [rewrite T2, T1, T0, <- !app_assoc; reflexivity|].
  split; [|split; [|split; [exact R2|split; [exact X2|rewrite C2, C1; reflexivity]]]].
  - rewrite !transactions_of_app. simpl.
    rewrite (loop_level_no_transactions d1 L1), (loop_level_no_transactions d2 L2).
    reflexivity.
  - rewrite !io_view_app, V1, V2. reflexivity.
Qed.

(** A transaction whose [max_attempts] reads all time out. *)
Lemma transact_timeout (pp aaa : Z) (max_attempts : nat) (w : World) :
  ser_is_open (ctrl w) = true ->
  tx_faults (dev w) = [] ->
  (forall k, (k < max_attempts)%nat ->
             is_timeout (nth k (rx (dev w)) (RxLine EmptyString))) ->
  let cmd := (PyStr.format_0d 2 pp ++ PyStr.format_0d 3 aaa)%string in
  exists w' d,
    _send_raw_command pp aaa (Z.of_nat max_attempts) w = (Ok "ERR TIMEOUT", w') /\
    trace w' = (trace w ++ d)%list /\
    transactions_of d = [cmd] /\
    io_view d = backoff_io cmd 0 max_attempts /\
    rx (dev w') = skipn max_attempts (rx (dev w)) /\
    tx_faults (dev w') = [] /\ ctrl w' = ctrl w.
Proof.
  intros Hopen Htx Hto cmd.
  rewrite (send_raw_open pp aaa (Z.of_nat max_attempts) w Hopen), Nat2Z.id.
  fold cmd. set (w0 := emit (EvTransact cmd) w).
  assert (T0 : trace w0 = (trace w ++ [EvTransact cmd])%list) by reflexivity.
  assert (X0 : tx_faults (dev w0) = []) by exact Htx.
  destruct (send_loop_timeouts max_attempts 0 0 (Z.of_nat max_attempts) cmd w0)
    as (w1 & d1 & E1 & T1 & V1 & L1 & R1 & X1 & C1); [lia | exact X0 | exact Hto |].
  rewrite Nat.add_0_r in E1. change (Z.of_nat 0) with 0 in E1. rewrite E1.
  simpl Nat.add. rewrite send_loop_exhausted by lia.
  exists w1, ([EvTransact cmd] ++ d1)%list. split; [reflexivity|].
  split; [rewrite T1, T0, <- !app_assoc; reflexivity|].
  split; [|split; [|split; [exact R1|split; [exact X1|rewrite C1; reflexivity]]]].
  - rewrite transactions_of_app. simpl.
    rewrite (loop_level_no_transactions d1 L1). reflexivity.
  - rewrite io_view_app, V1. reflexivity.
Qed.

(** C5.  A transaction with [max_attempts] attempts on an open line whose
    writes do not fail: (1) if the device yields [N] empty reads and then a
    non-empty response, [N < max_attempts], the transaction returns that
    response (stripped), having written the command exactly [N+1] times and
    slept [200 * 2^(k-1)] ms after the [k]-th empty read, between two
    attempts; (2) if the first [max_attempts] reads are all empty, the
    command is written exactly [max_attempts] times, each write followed by
    its back-off sleep, and the transaction returns "ERR TIMEOUT", which is
    classified as a failure. *)
Theorem send_raw_command_retry (pp aaa : Z) (max_attempts : nat) (w : World) :
  ser_is_open (ctrl w) = true ->
  tx_faults (dev w) = [] ->
  let cmd := (PyStr.format_0d 2 pp ++ PyStr.format_0d 3 aaa)%string in
  (forall (N : nat) (pre rest : list RxItem) (l : string),
      (N < max_attempts)%nat ->
      List.length pre = N ->
      Forall is_timeout pre ->
      PyStr.strip l <> EmptyString ->
      rx (dev w) = (pre ++ RxLine l :: rest)%list ->
      exists w',
        _send_raw_command pp aaa (Z.of_nat max_attempts) w = (Ok (PyStr.strip l), w') /\
        io_view (events_since w w') =
          (backoff_io cmd 0 N ++ [EvWrite (cmd ++ LF)])%list /\
        writes_of (events_since w w') = repeat (cmd ++ LF)%string (N + 1) /\
        rx (dev w') = rest) /\
  ((forall k, (k < max_attempts)%nat ->
              is_timeout (nth k (rx (dev w)) (RxLine EmptyString))) ->
   exists w',
     _send_raw_command pp aaa (Z.of_nat max_attempts) w = (Ok "ERR TIMEOUT", w') /\
     io_view (events_since w w') = backoff_io cmd 0 max_attempts /\
     writes_of (events_since w w') = repeat (cmd ++ LF)%string max_attempts /\
     PyStr.startswith "OK" "ERR TIMEOUT" = false).
Proof.
  intros Hopen Htx cmd. split.
  - intros N pre rest l HN Hlen Hpre Hl Hrx.
    destruct (transact_response pp aaa max_attempts N w pre rest l
                Hopen Htx HN Hlen Hpre Hl Hrx)
      as (w' & d & E & T & _ & V & R & _).
    exists w'. rewrite (events_since_app w w' d T).
    split; [exact E|]. split; [exact V|]. split; [|exact R].
    rewrite <- writes_of_io_view, V, writes_of_app, backoff_io_writes, repeat_app.
    reflexivity.
  - intros Hto.
    destruct (transact_timeout pp aaa max_attempts w Hopen Htx Hto)
      as (w' & d & E & T & _ & V & _).
    exists w'. rewrite (events_since_app w w' d T).
    split; [exact E|]. split; [exact V|]. split; [|reflexivity].
    rewrite <- writes_of_io_view, V. apply backoff_io_writes.
Qed.

Lemma send_raw_command_retry_witness :
  let w := ex_world STATE_ARMED
             [RxLine EmptyString; RxLine EmptyString; RxLine ("OK 11 045" ++ LF)] in
  ser_is_open (ctrl w) = true /\ tx_faults (dev w) = [] /\
  exists w',
    _send_raw_command 11 45 3 w = (Ok "OK 11 045", w') /\
    writes_of (events_since w w') = ["11045" ++ LF; "11045" ++ LF; "11045" ++ LF]%string.
Proof.
  intros w. split; [reflexivity|]. split; [reflexivity|].
  destruct (proj1 (send_raw_command_retry 11 45 3 w eq_refl eq_refl)
              2%nat [RxLine EmptyString; RxLine EmptyString] [] ("OK 11 045" ++ LF)%string)
    as (w' & E & _ & W & _).
  - lia.
  - reflexivity.
  - repeat constructor.
  - discriminate.
  - reflexivity.
  - exists w'. split; [exact E | exact W].
Defined.

(* ================================================================== *)
(** * DeviceController: emergency_stop, home, typed commands *)
(* ================================================================== *)

Lemma contains_nonempty (p s : string) :
  p <> EmptyString -> PyStr.contains p s = true -> s <> EmptyString.
Proof.
  intros Hp H ->. destruct p; [congruence | discriminate H].
Qed.

(** C3, as the code has it: whatever the prior safety state, (1) when the
    ESTOP transaction returns a response that contains "OK ESTOP",
    [emergency_stop] sets the safety state to Latched and returns [True];
    (2) in particular when the device, on an open line, answers the ESTOP
    command with a line that contains "OK ESTOP", at once or after [N]
    empty reads ([N] below the retry budget): the command "99000" has then
    been written [N+1] times. *)
Theorem emergency_stop_latches (w : World) :
  (forall resp w1,
      _send_raw_command CMD_ESTOP 0 MAX_RETRIES w = (Ok resp, w1) ->
      PyStr.contains "OK ESTOP" resp = true ->
      exists w',
        emergency_stop w = (Ok true, w') /\
        last_state (ctrl w') = STATE_LATCHED /\
        trace w' = (trace w1 ++ [EvCtrl EmergencyStop true])%list) /\
  (forall (N : nat) (pre rest : list RxItem) (l : string),
      ser_is_open (ctrl w) = true ->
      tx_faults (dev w) = [] ->
      (N < 3)%nat ->
      List.length pre = N ->
      Forall is_timeout pre ->
      rx (dev w) = (pre ++ RxLine l :: rest)%list ->
      PyStr.contains "OK ESTOP" (PyStr.strip l) = true ->
      exists w',
        emergency_stop w = (Ok true, w') /\
        last_state (ctrl w') = STATE_LATCHED /\
        writes_of (events_since w w') = repeat ("99000" ++ LF)%string (N + 1)).
Proof.
  assert (Hgen : forall resp w1,
      _send_raw_command CMD_ESTOP 0 MAX_RETRIES w = (Ok resp, w1) ->
      PyStr.contains "OK ESTOP" resp = true ->
      exists w',
        emergency_stop w = (Ok true, w') /\
        last_state (ctrl w') = STATE_LATCHED /\
        trace w' = (trace w1 ++ [EvCtrl EmergencyStop true])%list).
  { intros resp w1 Hraw Hack. unfold emergency_stop, bind. rewrite Hraw, Hack.
    eexists. split; [reflexivity|]. split; reflexivity. }
  split; [exact Hgen|].
  intros N pre rest l Hopen Htx HN Hlen Hpre Hrx Hack.
  assert (Hl : PyStr.strip l <> EmptyString)
    by (apply (contains_nonempty "OK ESTOP"); [discriminate | exact Hack]).
  destruct (transact_response CMD_ESTOP 0 3 N w pre rest l
              Hopen Htx HN Hlen Hpre Hl Hrx)
    as (w1 & d & E & T & _ & V & _).
  destruct (Hgen _ _ E Hack) as (w' & E' & L' & T').
  exists w'. split; [exact E'|]. split; [exact L'|].
  rewrite (events_since_app w w' (d ++ [EvCtrl EmergencyStop true])%list)
    by (rewrite T', T, <- app_assoc; reflexivity).
  rewrite writes_of_app. simpl. rewrite app_nil_r.
  rewrite <- writes_of_io_view, V, writes_of_app, backoff_io_writes, repeat_app.
  reflexivity.
Qed.

Lemma emergency_stop_latches_witness :
  let w := ex_world STATE_ARMED [RxLine EmptyString; RxLine ("OK ESTOP" ++ LF)] in
  last_state (ctrl w) = STATE_ARMED /\
  exists w', emergency_stop w = (Ok true, w') /\ last_state (ctrl w') = STATE_LATCHED /\
             writes_of (events_since w w') = ["99000" ++ LF; "99000" ++ LF]%string.
Proof.
  intros w. split; [reflexivity|].
  apply (proj2 (emergency_stop_latches w)
           1%nat [RxLine EmptyString] [] ("OK ESTOP" ++ LF)%string).
  - reflexivity.
  - reflexivity.
  - lia.
  - reflexivity.
  - repeat constructor.
  - reflexivity.
  - reflexivity.
Defined.

(** C3, as stated, fails: the line "OK" is an acknowledgement (it starts with
    "OK"), yet [emergency_stop] returns [False] and leaves the state Armed. *)
Lemma emergency_stop_plain_ok_not_latched :
  let w := ex_world STATE_ARMED [RxLine "OK"] in
  PyStr.startswith "OK" (PyStr.strip "OK") = true /\
  fst (emergency_stop w) = Ok false /\
  last_state (ctrl (snd (emergency_stop w))) = STATE_ARMED /\
  writes_of (trace (snd (emergency_stop w))) = ["99000" ++ LF]%string.
Proof. vm_compute. repeat split; reflexivity. Qed.

(** C4.  [home()] called while the safety state is Latched returns [False]
    without starting a transaction: nothing is written, the controller and
    the device are as before. *)
Theorem home_latched_rejected (w : World) :
  last_state (ctrl w) = STATE_LATCHED ->
  exists w',
    home w = (Ok false, w') /\
    writes_of (events_since w w') = [] /\
    transactions_of (events_since w w') = [] /\
    last_state (ctrl w') = last_state (ctrl w) /\
    ctrl w' = ctrl w /\ dev w' = dev w.
Proof.
  intros H. unfold home, bind, gets, log, modify. rewrite H. simpl.
  eexists. split; [reflexivity|].
  rewrite (events_since_app w _ [EvLog "Ignored HOME while LATCHED."; EvCtrl Home false]).
  - repeat split; try reflexivity. exact H.
  - simpl. rewrite <- app_assoc. reflexivity.
Qed.

Lemma home_latched_rejected_witness :
  let w := ex_world STATE_LATCHED [RxLine ("OK HOME" ++ LF)] in
  last_state (ctrl w) = STATE_LATCHED /\
  exists w', home w = (Ok false, w') /\ writes_of (events_since w w') = [] /\
             rx (dev w') = [RxLine ("OK HOME" ++ LF)].
Proof.
  intros w. split; [reflexivity|].
  destruct (home_latched_rejected w eq_refl) as (w' & E & W & _ & _ & _ & D).
  exists w'. split; [exact E|]. split; [exact W|]. rewrite D. reflexivity.
Defined.

Lemma not_open_result (w w2 : World) (d : list Event) :
  trace w2 = (trace w ++ d)%list ->
  writes_of d = [] ->
  ctrl w2 = ctrl w -> dev w2 = dev w ->
  writes_of (events_since w w2) = [] /\
  last_state (ctrl w2) = last_state (ctrl w) /\
  ctrl w2 = ctrl w /\ dev w2 = dev w.
Proof.
  intros T W C D. rewrite (events_since_app w w2 d T), C. auto.
Qed.

(** After [disconnect()] the line is not open, whatever it was. *)
Lemma disconnect_closes (w : World) :
  exists w', disconnect w = (Ok tt, w') /\ ser_is_open (ctrl w') = false /\
             is_connected (ctrl w') = false /\ trace w' = trace w.
Proof.
  unfold disconnect, bind, modify, ser_is_open.
  destruct (ser (ctrl w)) as [[|]|] eqn:E; simpl; rewrite ?E;
    eexists; (split; [reflexivity|]); simpl; rewrite ?E; auto.
Qed.

(** C10.  Every typed command issued while the serial line is not open
    ([self.ser] is [None] or closed) returns [False] without raising; nothing
    is written to the wire and the controller, its safety state included, is
    as before. *)
Theorem typed_command_not_open (c : TypedCommand) (w : World) :
  ser_is_open (ctrl w) = false ->
  exists w',
    run_typed c w = (Ok false, w') /\
    writes_of (events_since w w') = [] /\
    last_state (ctrl w') = last_state (ctrl w) /\
    ctrl w' = ctrl w /\ dev w' = dev w.
Proof.
  intros H.
  assert (Hsend : forall pp aaa, exists w',
             send_command pp aaa w = (Ok false, w') /\
             writes_of (events_since w w') = [] /\
             last_state (ctrl w') = last_state (ctrl w) /\
             ctrl w' = ctrl w /\ dev w' = dev w).
  { intros pp aaa. unfold send_command, bind.
    rewrite (send_raw_not_open pp aaa MAX_RETRIES w H).
    cbn -[append PyStr.format_0d].
    eexists. split; [reflexivity|].
    eapply not_open_result;
      [cbn -[append PyStr.format_0d]; rewrite <- !app_assoc; reflexivity
      | reflexivity | reflexivity | reflexivity]. }
  destruct c as [a|a|pp aaa| | |]; cbn [run_typed].
  - apply Hsend.
  - apply Hsend.
  - apply Hsend.
  - unfold home, bind, gets.
    destruct (state_eqb (last_state (ctrl w)) STATE_LATCHED) eqn:Est.
    + cbn. eexists. split; [reflexivity|].
      eapply not_open_result;
        [cbn; rewrite <- !app_assoc; reflexivity
        | reflexivity | reflexivity | reflexivity].
    + rewrite (send_raw_not_open CMD_HOME 0 MAX_RETRIES w H).
      cbn. eexists. split; [reflexivity|].
      eapply not_open_result;
        [cbn; rewrite <- !app_assoc; reflexivity
        | reflexivity | reflexivity | reflexivity].
  - unfold reset, bind.
    rewrite (send_raw_not_open CMD_RESET 0 MAX_RETRIES w H).
    cbn. eexists. split; [reflexivity|].
    eapply not_open_result;
      [cbn; rewrite <- !app_assoc; reflexivity
      | reflexivity | reflexivity | reflexivity].
  - unfold emergency_stop, bind.
    rewrite (send_raw_not_open CMD_ESTOP 0 MAX_RETRIES w H).
    cbn. eexists. split; [reflexivity|].
    eapply not_open_result;
      [cbn; rewrite <- !app_assoc; reflexivity
      | reflexivity | reflexivity | reflexivity].
Qed.

Lemma typed_command_not_open_witness :
  let w := ex_world_unconnected STATE_ARMED in
  ser_is_open (ctrl w) = false /\
  exists w', run_typed (TRotateSample 45) w = (Ok false, w') /\
             writes_of (events_since w w') = [] /\
             last_state (ctrl w') = STATE_ARMED.
Proof.
  intros w. split; [reflexivity|].
  destruct (typed_command_not_open (TRotateSample 45) w eq_refl)
    as (w' & E & W & L & _).
  exists w'. split; [exact E|]. split; [exact W | exact L].
Defined.

(* ================================================================== *)
(** * Every transaction returns *)
(* ================================================================== *)

Lemma sticky_refl (w : World) : sticky w w.
Proof. unfold sticky. auto. Qed.

Lemma sticky_trans (w1 w2 w3 : World) : sticky w1 w2 -> sticky w2 w3 -> sticky w1 w3.
Proof.
  unfold sticky. intros (A1 & B1 & C1 & D1 & E1) (A2 & B2 & C2 & D2 & E2).
  repeat split; try congruence; auto.
Qed.

Lemma tick_abort_flag (w : World) : abort_flag w = true -> abort_flag (tick w) = true.
Proof. unfold tick. destruct (abort_in w) as [[|n]|]; simpl; auto. Qed.

Lemma tick_sticky (w : World) : sticky w (tick w).
Proof.
  unfold sticky. rewrite tick_ctrl, tick_cam.
  repeat split; auto. apply tick_abort_flag.
Qed.

Lemma extends_refl (P : Event -> bool) (w : World) : extends P w w.
Proof. exists []. rewrite app_nil_r. auto. Qed.

Lemma extends_trans (P : Event -> bool) (w1 w2 w3 : World) :
  extends P w1 w2 -> extends P w2 w3 -> extends P w1 w3.
Proof.
  intros (d1 & T1 & F1) (d2 & T2 & F2). exists (d1 ++ d2)%list.
  rewrite T2, T1, <- app_assoc, forallb_app, F1, F2. auto.
Qed.

Ltac solve_abort :=
  repeat first
    [ assumption
    | apply tick_abort_flag
    | progress cbn [abort_flag emit set_now set_dev set_ctrl set_cam set_collab
                    set_abort_flag set_abort_in] ].

Ltac solve_sticky :=
  unfold sticky; wsimpl;
  repeat split; try reflexivity; try (intros ?; solve_abort).

Ltac solve_trace :=
  wsimpl; rewrite <- ?app_assoc;
  first [ reflexivity | symmetry; apply app_nil_r ].

Ltac solve_writes :=
  rewrite ?writes_of_app; unfold tick_delta;
  repeat match goal with
         | |- context [abort_in ?x] => destruct (abort_in x) as [[|?]|]
         end; reflexivity.

Ltac finish_attempt :=
  eexists; eexists; eexists; split; [reflexivity|];
  split; [solve_trace|];
  split; [iosimpl; reflexivity|];
  split; [first [left; solve_writes | right; solve_writes]|];
  split; [solve_sticky | wsimpl; reflexivity].

(** One attempt always ends, with a response or with the decision to go on;
    it writes the command at most once. *)
Lemma send_attempt_returns (a R : Z) (cmd : string) (w : World) :
  exists o w1 d,
    send_attempt a R cmd w = (Ok o, w1) /\
    trace w1 = (trace w ++ d)%list /\
    forallb loop_level d = true /\
    (writes_of d = [] \/ writes_of d = [(cmd ++ LF)%string]) /\
    sticky w w1 /\ last_state (ctrl w1) = last_state (ctrl w).
Proof.
  unfold send_attempt, try_except. unfold bind at 1. unfold ser_write at 1.
  destruct (tx_faults (dev w)) as [|[e|] txs] eqn:Etx.
  - unfold bind at 1. unfold ser_readline at 1.
    set (w1 := emit (EvWrite (cmd ++ LF)) w).
    destruct (rx (dev (tick w1))) as [|[l|e] rest] eqn:Erx.
    + cbn -[tick Z.pow Z.mul Z.add Z.sub PyStr.str append].
      unfold w1. finish_attempt.
    + cbn -[tick Z.pow Z.mul Z.add Z.sub PyStr.str append PyStr.strip].
      destruct (PyStr.strip l =? EmptyString)%string eqn:El;
        cbn -[tick Z.pow Z.mul Z.add Z.sub PyStr.str append PyStr.strip];
        unfold w1; finish_attempt.
    + cbn -[tick Z.pow Z.mul Z.add Z.sub PyStr.str append PyStr.strip].
      unfold w1. finish_attempt.
  - cbn -[tick Z.pow Z.mul Z.add Z.sub PyStr.str append PyStr.strip].
    finish_attempt.
  - unfold bind at 1. unfold ser_readline at 1.
    set (w1 := emit (EvWrite (cmd ++ LF)) (set_dev (set_tx_faults txs (dev w)) w)).
    destruct (rx (dev (tick w1))) as [|[l|e] rest] eqn:Erx.
    + cbn -[tick Z.pow Z.mul Z.add Z.sub PyStr.str append].
      unfold w1. finish_attempt.
    + cbn -[tick Z.pow Z.mul Z.add Z.sub PyStr.str append PyStr.strip].
      destruct (PyStr.strip l =? EmptyString)%string eqn:El;
        cbn -[tick Z.pow Z.mul Z.add Z.sub PyStr.str append PyStr.strip];
        unfold w1; finish_attempt.
    + cbn -[tick Z.pow Z.mul Z.add Z.sub PyStr.str append PyStr.strip].
      unfold w1. finish_attempt.
Qed.

(** The retry loop always returns a response: it neither raises nor runs
    out of fuel; it adds only log lines, writes of the command and sleeps to
    the history, and writes the command at most [fuel] times. *)
Lemma send_loop_returns (fuel : nat) :
  forall (a R : Z) (cmd : string) (w : World),
    R - a <= Z.of_nat fuel ->
    exists resp w' d k,
      send_loop fuel a R cmd w = (Ok resp, w') /\
      trace w' = (trace w ++ d)%list /\
      forallb loop_level d = true /\
      writes_of d = repeat (cmd ++ LF)%string k /\ (k <= fuel)%nat /\
      sticky w w' /\ last_state (ctrl w') = last_state (ctrl w).
Proof.
  induction fuel as [|fuel IH]; intros a R cmd w Hfuel.
  - rewrite send_loop_exhausted by lia.
    exists "ERR TIMEOUT", w, [], 0%nat. rewrite app_nil_r.
    repeat split; auto using sticky_refl.
  - destruct (Z.ltb_spec a R) as [Hlt|Hge].
    + apply Z.ltb_lt in Hlt. cbn [send_loop]. rewrite Hlt. unfold bind at 1.
      destruct (send_attempt_returns a R cmd w) as (o & w1 & d1 & E1 & T1 & L1 & W1 & S1 & St1).
      rewrite E1.
      destruct o as [response|].
      * exists response, w1, d1.
        destruct W1 as [W1|W1]; [exists 0%nat | exists 1%nat];
          (split; [reflexivity|]); repeat split; auto; try lia; apply S1.
      * destruct (IH (a + 1) R cmd w1) as (resp & w2 & d2 & k & E2 & T2 & L2 & W2 & K2 & S2 & St2);
          [lia|].
        exists resp, w2, (d1 ++ d2)%list.
        assert (HS : sticky w w2) by (eapply sticky_trans; eauto).
        destruct W1 as [W1|W1]; [exists k | exists (S k)];
          (split; [exact E2|]);
          (split; [rewrite T2, T1, <- app_assoc; reflexivity|]);
          (split; [rewrite forallb_app, L1, L2; reflexivity|]);
          (split; [rewrite writes_of_app, W1, W2; reflexivity|]);
          (split; [lia|]); (split; [exact HS | congruence]).
    + rewrite send_loop_exhausted by lia.
      exists "ERR TIMEOUT", w, [], 0%nat. rewrite app_nil_r.
      repeat split; auto using sticky_refl; lia.
Qed.

Lemma loop_level_low_level (d : list Event) :
  forallb loop_level d = true -> forallb low_level d = true.
Proof.
  rewrite !forallb_forall. intros H e He. specialize (H e He).
  destruct e; simpl in *; congruence.
Qed.

(** Every transaction returns a response string. *)
Lemma send_raw_returns (pp aaa R : Z) (w : World) :
  let cmd := (PyStr.format_0d 2 pp ++ PyStr.format_0d 3 aaa)%string in
  exists resp w' d k,
    _send_raw_command pp aaa R w = (Ok resp, w') /\
    trace w' = (trace w ++ EvTransact cmd :: d)%list /\
    forallb loop_level d = true /\
    writes_of d = repeat (cmd ++ LF)%string k /\ (k <= Z.to_nat R)%nat /\
    sticky w w' /\ last_state (ctrl w') = last_state (ctrl w).
Proof.
  intros cmd.
  destruct (ser_is_open (ctrl w)) eqn:Hopen.
  - rewrite (send_raw_open pp aaa R w Hopen). fold cmd.
    destruct (send_loop_returns (Z.to_nat R) 0 R cmd (emit (EvTransact cmd) w))
      as (resp & w' & d & k & E & T & L & W & K & S & St); [lia|].
    exists resp, w', d, k. split; [exact E|].
    split; [rewrite T; simpl; rewrite <- app_assoc; reflexivity|].
    repeat split; auto; apply S.
  - rewrite (send_raw_not_open pp aaa R w Hopen). fold cmd.
    exists "ERR NO_CONNECTION", (emit (EvTransact cmd) w), [], 0%nat.
    repeat split; auto; lia.
Qed.

(* ================================================================== *)
(** * DeviceController: connect *)
(* ================================================================== *)

Lemma boot_loop_unfold (fuel : nat) (start : Z) (w : World) :
  now w - start < CONNECTION_WAIT_MS ->
  boot_loop (S fuel) start w =
  (waiting_now <- ser_in_waiting ;;
   seen <- (if waiting_now : bool then
              line <- ser_readline ;;
              ret ((PyStr.strip line =? "READY")%string)
            else ret false) ;;
   if seen : bool then ret true
   else sleep 100 ;; boot_loop fuel start) w.
Proof.
  intros H. apply Z.ltb_lt in H. cbn [boot_loop]. rewrite H. reflexivity.
Qed.

Lemma boot_loop_done (fuel : nat) (start : Z) (w : World) :
  CONNECTION_WAIT_MS <= now w - start ->
  boot_loop fuel start w = (Ok false, w).
Proof.
  intros H. apply Z.ltb_ge in H. destruct fuel; cbn [boot_loop]; rewrite H; reflexivity.
Qed.

Lemma reads_in_window_nil (n : nat) : reads_in_window n [] = 0%nat.
Proof. destruct n; reflexivity. Qed.

Lemma reads_in_window_false (n : nat) (ws : list bool) :
  reads_in_window (S n) (false :: ws) = reads_in_window n ws.
Proof. reflexivity. Qed.

Lemma reads_in_window_true (n : nat) (ws : list bool) :
  reads_in_window (S n) (true :: ws) = S (reads_in_window n ws).
Proof. reflexivity. Qed.

Ltac finish_boot_step :=
  split; [solve_trace|];
  split; [iosimpl; reflexivity|];
  split; [solve_writes|];
  wsimpl; repeat split; try reflexivity; try lia.

(** A poll that finds nothing waiting. *)
Lemma boot_poll_idle (fuel : nat) (start : Z) (w : World) :
  now w - start < CONNECTION_WAIT_MS ->
  hd false (waiting (dev w)) = false ->
  exists w1 d,
    boot_loop (S fuel) start w = boot_loop fuel start w1 /\
    trace w1 = (trace w ++ d)%list /\
    forallb loop_level d = true /\
    writes_of d = [] /\
    now w1 = now w + 100 /\
    waiting (dev w1) = tl (waiting (dev w)) /\
    rx (dev w1) = rx (dev w) /\
    tx_faults (dev w1) = tx_faults (dev w) /\
    ctrl w1 = ctrl w.
Proof.
  intros Hnow Hw. rewrite (boot_loop_unfold fuel start w Hnow).
  unfold bind at 1. unfold ser_in_waiting.
  destruct (waiting (dev w)) as [|b ws] eqn:Ews.
  - cbn -[tick boot_loop]. eexists. eexists. split; [reflexivity|].
    finish_boot_step. exact Ews.
  - simpl in Hw. subst b.
    cbn -[tick boot_loop]. eexists. eexists. split; [reflexivity|].
    finish_boot_step.
Qed.

(** A poll that reads a line which is not the boot message. *)
Lemma boot_poll_other (fuel : nat) (start : Z) (w : World) (ws : list bool) :
  now w - start < CONNECTION_WAIT_MS ->
  waiting (dev w) = true :: ws ->
  not_ready (hd (RxLine EmptyString) (rx (dev w))) ->
  exists w1 d,
    boot_loop (S fuel) start w = boot_loop fuel start w1 /\
    trace w1 = (trace w ++ d)%list /\
    forallb loop_level d = true /\
    writes_of d = [] /\
    now w1 = now w + 100 /\
    waiting (dev w1) = ws /\
    rx (dev w1) = tl (rx (dev w)) /\
    tx_faults (dev w1) = tx_faults (dev w) /\
    ctrl w1 = ctrl w.
Proof.
  intros Hnow Ews Hnr. rewrite (boot_loop_unfold fuel start w Hnow).
  unfold bind at 1. unfold ser_in_waiting. rewrite Ews.
  unfold bind at 1. unfold bind at 1. unfold ser_readline.
  set (w0 := set_dev (set_waiting ws (dev w)) w).
  assert (Hrx : rx (dev (tick w0)) = rx (dev w)) by (rewrite tick_dev; reflexivity).
  rewrite Hrx.
  destruct (rx (dev w)) as [|[l|e] rest] eqn:Erx.
  - cbn -[tick boot_loop]. eexists. eexists. split; [reflexivity|].
    unfold w0. finish_boot_step. exact Erx.
  - simpl in Hnr. apply String.eqb_neq in Hnr.
    cbn -[tick boot_loop PyStr.strip]. rewrite Hnr.
    cbn -[tick boot_loop PyStr.strip]. eexists. eexists. split; [reflexivity|].
    unfold w0. finish_boot_step.
  - simpl in Hnr. contradiction.
Qed.

(** A poll that reads the boot message. *)
Lemma boot_poll_ready (fuel : nat) (start : Z) (w : World) (ws : list bool)
    (l : string) (rest : list RxItem) :
  now w - start < CONNECTION_WAIT_MS ->
  waiting (dev w) = true :: ws ->
  rx (dev w) = RxLine l :: rest ->
  PyStr.strip l = "READY" ->
  exists w1 d,
    boot_loop (S fuel) start w = (Ok true, w1) /\
    trace w1 = (trace w ++ d)%list /\
    forallb loop_level d = true /\
    writes_of d = [] /\
    tx_faults (dev w1) = tx_faults (dev w) /\
    ctrl w1 = ctrl w.
Proof.
  intros Hnow Ews Erx Hl. rewrite (boot_loop_unfold fuel start w Hnow).
  unfold bind at 1. unfold ser_in_waiting. rewrite Ews.
  unfold bind at 1. unfold bind at 1. unfold ser_readline.
  set (w0 := set_dev (set_waiting ws (dev w)) w).
  assert (Hrx : rx (dev (tick w0)) = RxLine l :: rest) by (rewrite tick_dev; exact Erx).
  rewrite Hrx. cbn -[tick boot_loop PyStr.strip]. rewrite Hl.
  cbn -[tick]. eexists. eexists. split; [reflexivity|].
  unfold w0. split; [solve_trace|].
  split; [iosimpl; reflexivity|].
  split; [solve_writes|].
  wsimpl. split; reflexivity.
Qed.

Lemma not_ready_timeout : not_ready (RxLine EmptyString).
Proof. simpl. discriminate. Qed.

(** The boot wait when no poll of the window reads the boot message: it ends
    with [boot_msg_seen = False], nothing written, the lines read consumed. *)
Lemma boot_loop_silent (n : nat) :
  forall (fuel : nat) (start : Z) (w : World),
    now w - start = CONNECTION_WAIT_MS - 100 * Z.of_nat n ->
    (n <= fuel)%nat ->
    Forall not_ready (firstn (reads_in_window n (waiting (dev w))) (rx (dev w))) ->
    exists w' d,
      boot_loop fuel start w = (Ok false, w') /\
      trace w' = (trace w ++ d)%list /\
      forallb loop_level d = true /\
      writes_of d = [] /\
      rx (dev w') = skipn (reads_in_window n (waiting (dev w))) (rx (dev w)) /\
      tx_faults (dev w') = tx_faults (dev w) /\
      ctrl w' = ctrl w.
Proof.
  induction n as [|n IH]; intros fuel start w Hnow Hfuel Hsilent.
  - rewrite boot_loop_done by lia. exists w, []. rewrite app_nil_r.
    repeat split; reflexivity.
  - destruct fuel as [|fuel]; [lia|].
    assert (Hlt : now w - start < CONNECTION_WAIT_MS) by lia.
    destruct (waiting (dev w)) as [|[|] ws] eqn:Ews; rewrite ?Ews in Hsilent.
    + destruct (boot_poll_idle fuel start w Hlt)
        as (w1 & d1 & E1 & T1 & L1 & W1 & N1 & Q1 & R1 & X1 & C1);
        [rewrite Ews; reflexivity|].
      rewrite Ews in Q1. simpl in Q1. rewrite reads_in_window_nil in Hsilent |- *.
      destruct (IH fuel start w1) as (w2 & d2 & E2 & T2 & L2 & W2 & R2 & X2 & C2);
        [lia | lia | rewrite Q1, reads_in_window_nil; constructor |].
      exists w2, (d1 ++ d2)%list. rewrite E1, E2. split; [reflexivity|].
      split; [rewrite T2, T1, <- app_assoc; reflexivity|].
      split; [rewrite forallb_app, L1, L2; reflexivity|].
      split; [rewrite writes_of_app, W1, W2; reflexivity|].
      rewrite R2, Q1, R1, X2, X1, C2, C1, reads_in_window_nil.
      repeat split; reflexivity.
    + (* input waiting: a line is read *)
      rewrite reads_in_window_true in Hsilent |- *.
      destruct (boot_poll_other fuel start w ws Hlt Ews)
        as (w1 & d1 & E1 & T1 & L1 & W1 & N1 & Q1 & R1 & X1 & C1).
      { destruct (rx (dev w)) as [|x rest]; [apply not_ready_timeout|].
        simpl in Hsilent. inversion Hsilent; assumption. }
      destruct (IH fuel start w1) as (w2 & d2 & E2 & T2 & L2 & W2 & R2 & X2 & C2);
        [lia | lia | |].
      { rewrite Q1, R1. destruct (rx (dev w)) as [|x rest]; simpl.
        - rewrite firstn_nil. constructor.
        - simpl in Hsilent. inversion Hsilent; assumption. }
      exists w2, (d1 ++ d2)%list. rewrite E1, E2. split; [reflexivity|].
      split; [rewrite T2, T1, <- app_assoc; reflexivity|].
      split; [rewrite forallb_app, L1, L2; reflexivity|].
      split; [rewrite writes_of_app, W1, W2; reflexivity|].
      rewrite R2, Q1, R1, X2, X1, C2, C1.
      repeat split; try reflexivity.
      destruct (rx (dev w)) as [|x rest]; simpl; [apply skipn_nil | reflexivity].
    + destruct (boot_poll_idle fuel start w Hlt)
        as (w1 & d1 & E1 & T1 & L1 & W1 & N1 & Q1 & R1 & X1 & C1);
        [rewrite Ews; reflexivity|].
      rewrite Ews in Q1. simpl in Q1. rewrite reads_in_window_false in Hsilent |- *.
      destruct (IH fuel start w1) as (w2 & d2 & E2 & T2 & L2 & W2 & R2 & X2 & C2);
        [lia | lia | rewrite Q1, R1; exact Hsilent |].
      exists w2, (d1 ++ d2)%list. rewrite E1, E2. split; [reflexivity|].
      split; [rewrite T2, T1, <- app_assoc; reflexivity|].
      split; [rewrite forallb_app, L1, L2; reflexivity|].
      split; [rewrite writes_of_app, W1, W2; reflexivity|].
      rewrite R2, Q1, R1, X2, X1, C2, C1. repeat split; reflexivity.
Qed.

(** The boot wait when a poll of the window reads the boot message: it ends
    with [boot_msg_seen = True] and nothing written. *)
Lemma boot_loop_ready (n : nat) :
  forall (fuel : nat) (start : Z) (w : World) (pre : list RxItem) (l : string)
         (rest : list RxItem),
    now w - start = CONNECTION_WAIT_MS - 100 * Z.of_nat n ->
    (n <= fuel)%nat ->
    rx (dev w) = (pre ++ RxLine l :: rest)%list ->
    Forall not_ready pre ->
    PyStr.strip l = "READY" ->
    (List.length pre < reads_in_window n (waiting (dev w)))%nat ->
    exists w' d,
      boot_loop fuel start w = (Ok true, w') /\
      trace w' = (trace w ++ d)%list /\
      forallb loop_level d = true /\
      writes_of d = [] /\
      tx_faults (dev w') = tx_faults (dev w) /\
      ctrl w' = ctrl w.
Proof.
  induction n as [|n IH]; intros fuel start w pre l rest Hnow Hfuel Hrx Hpre Hl Hlen.
  - unfold reads_in_window in Hlen. simpl in Hlen. lia.
  - destruct fuel as [|fuel]; [lia|].
    assert (Hlt : now w - start < CONNECTION_WAIT_MS) by lia.
    destruct (waiting (dev w)) as [|[|] ws] eqn:Ews; rewrite ?Ews in Hlen.
    + rewrite reads_in_window_nil in Hlen. lia.
    + rewrite reads_in_window_true in Hlen.
      destruct pre as [|x pre].
      * apply (boot_poll_ready fuel start w ws l rest Hlt Ews Hrx Hl).
      * destruct (boot_poll_other fuel start w ws Hlt Ews)
          as (w1 & d1 & E1 & T1 & L1 & W1 & N1 & Q1 & R1 & X1 & C1).
        { rewrite Hrx. simpl. inversion Hpre; assumption. }
        destruct (IH fuel start w1 pre l rest)
          as (w2 & d2 & E2 & T2 & L2 & W2 & X2 & C2);
          [lia | lia | rewrite R1, Hrx; reflexivity | inversion Hpre; assumption
          | exact Hl | rewrite Q1; simpl in Hlen; lia |].
        exists w2, (d1 ++ d2)%list. rewrite E1, E2. split; [reflexivity|].
        split; [rewrite T2, T1, <- app_assoc; reflexivity|].
        split; [rewrite forallb_app, L1, L2; reflexivity|].
        split; [rewrite writes_of_app, W1, W2; reflexivity|].
        rewrite X2, X1, C2, C1. split; reflexivity.
    + rewrite reads_in_window_false in Hlen.
      destruct (boot_poll_idle fuel start w Hlt)
        as (w1 & d1 & E1 & T1 & L1 & W1 & N1 & Q1 & R1 & X1 & C1);
        [rewrite Ews; reflexivity|].
      rewrite Ews in Q1. simpl in Q1.
      destruct (IH fuel start w1 pre l rest)
        as (w2 & d2 & E2 & T2 & L2 & W2 & X2 & C2);
        [lia | lia | rewrite R1; exact Hrx | exact Hpre | exact Hl
        | rewrite Q1; exact Hlen |].
      exists w2, (d1 ++ d2)%list. rewrite E1, E2. split; [reflexivity|].
      split; [rewrite T2, T1, <- app_assoc; reflexivity|].
      split; [rewrite forallb_app, L1, L2; reflexivity|].
      split; [rewrite writes_of_app, W1, W2; reflexivity|].
      rewrite X2, X1, C2, C1. split; reflexivity.
Qed.

(** The world in which [connect] starts listening: the port is open and the
    two seconds of boot settle have passed. *)
Lemma connect_try_listen (w : World) :
  open_fault (dev w) = None ->
  exists w0 d0,
    connect_try w =
      (boot_msg_seen <- boot_loop (Z.to_nat CONNECTION_WAIT_MS) (now w0) ;;
       if boot_msg_seen : bool then
         log "Arduino BOOT detected (READY). State is LATCHED." ;;
         modify (fun w => set_ctrl (set_last_state STATE_LATCHED
                                      (set_is_connected true (ctrl w))) w) ;;
         ret true
       else
         log "No READY received. Sending FORCE RESET..." ;;
         resp <- _send_raw_command CMD_RESET 0 MAX_RETRIES ;;
         if PyStr.contains "OK RESET" resp then
           log "Force RESET successful. Connected & ARMED." ;;
           modify (fun w => set_ctrl (set_last_state STATE_ARMED
                                        (set_is_connected true (ctrl w))) w) ;;
           ret true
         else
           raise (Exn ConnectionError
                    ("Failed to connect. Response to RESET: " ++ resp))) w0 /\
    trace w0 = (trace w ++ d0)%list /\
    forallb loop_level d0 = true /\
    writes_of d0 = [] /\
    dev w0 = dev w /\
    ctrl w0 = set_ser (Some true) (ctrl w).
Proof.
  intros Hopen. unfold connect_try.
  unfold bind at 1. unfold serial_open. rewrite Hopen.
  unfold bind at 1. unfold sleep at 1, modify at 1.
  unfold bind at 1. unfold gets at 1.
  eexists. eexists. split; [reflexivity|].
  split; [solve_trace|].
  split; [iosimpl; reflexivity|].
  split; [solve_writes|].
  wsimpl. split; reflexivity.
Qed.

Lemma boot_window_start :
  0 = CONNECTION_WAIT_MS - 100 * Z.of_nat boot_polls /\
  (boot_polls <= Z.to_nat CONNECTION_WAIT_MS)%nat.
Proof. split; [reflexivity | apply Nat.leb_le; reflexivity]. Qed.

(** [connect] when the boot message is read within the window. *)
Lemma connect_ready (port : string) (baud : Z) (w : World) :
  open_fault (dev w) = None ->
  ready_in_window (dev w) ->
  exists w' d,
    connect port baud w = (Ok true, w') /\
    trace w' = (trace w ++ d)%list /\
    forallb loop_level d = true /\
    writes_of d = [] /\
    ctrl w' = mkController (Some true) true STATE_LATCHED.
Proof.
  intros Hopen (pre & l & rest & Hrx & Hpre & Hl & Hlen).
  unfold connect. unfold bind at 1. unfold log at 1, modify at 1.
  set (wa := emit (EvLog ("Connecting to " ++ port ++ " at " ++ PyStr.str baud ++ "...")) w).
  destruct (connect_try_listen wa Hopen) as (w0 & d0 & E0 & T0 & L0 & W0 & D0 & C0).
  unfold try_except. rewrite E0. unfold bind at 1.
  destruct boot_window_start as [Hstart Hfuel].
  destruct (boot_loop_ready boot_polls (Z.to_nat CONNECTION_WAIT_MS) (now w0) w0
              pre l rest) as (w1 & d1 & E1 & T1 & L1 & W1 & X1 & C1);
    [lia | exact Hfuel | rewrite D0; exact Hrx | exact Hpre | exact Hl
    | rewrite D0; exact Hlen |].
  rewrite E1. cbn -[append].
  eexists. eexists. split; [reflexivity|].
  cbn -[append]. rewrite T1, T0. unfold wa. cbn -[append].
  rewrite <- !app_assoc. split; [reflexivity|].
  rewrite !forallb_app, L0, L1, !writes_of_app, W0, W1, C1, C0.
  repeat split; reflexivity.
Qed.

(** [connect] when the window passes without the boot message: one RESET
    transaction is run in the world [w1] the wait leaves, and its response
    decides the outcome. *)
Lemma connect_fallback (port : string) (baud : Z) (w : World) :
  open_fault (dev w) = None ->
  silent_in_window (dev w) ->
  exists w1 w2 resp d1 d2 k w' d3,
    connect port baud w =
      ((if PyStr.contains "OK RESET" resp then Ok true
        else Raise (Exn ConnectionError
                      ("Failed to connect. Response to RESET: " ++ resp))), w') /\
    trace w1 = (trace w ++ d1)%list /\
    forallb loop_level d1 = true /\ writes_of d1 = [] /\
    rx (dev w1) = skipn (reads_in_window boot_polls (waiting (dev w))) (rx (dev w)) /\
    tx_faults (dev w1) = tx_faults (dev w) /\
    ser_is_open (ctrl w1) = true /\
    _send_raw_command CMD_RESET 0 MAX_RETRIES w1 = (Ok resp, w2) /\
    trace w2 = (trace w1 ++ EvTransact "98000" :: d2)%list /\
    forallb loop_level d2 = true /\
    writes_of d2 = repeat ("98000" ++ LF)%string k /\ (k <= 3)%nat /\
    trace w' = (trace w2 ++ d3)%list /\ forallb loop_level d3 = true /\
    writes_of d3 = [] /\
    ctrl w' = (if PyStr.contains "OK RESET" resp
               then mkController (Some true) true STATE_ARMED
               else mkController (Some false) false (last_state (ctrl w))).
Proof.
  intros Hopen Hsilent.
  unfold connect. unfold bind at 1. unfold log at 1, modify at 1.
  set (wa := emit (EvLog ("Connecting to " ++ port ++ " at " ++ PyStr.str baud ++ "...")) w).
  destruct (connect_try_listen wa Hopen) as (w0 & d0 & E0 & T0 & L0 & W0 & D0 & C0).
  unfold try_except. rewrite E0. unfold bind at 1.
  destruct boot_window_start as [Hstart Hfuel].
  destruct (boot_loop_silent boot_polls (Z.to_nat CONNECTION_WAIT_MS) (now w0) w0)
    as (w1 & d1 & E1 & T1 & L1 & W1 & R1 & X1 & C1);
    [lia | exact Hfuel | rewrite D0; exact Hsilent |].
  rewrite E1. unfold bind at 1. unfold log at 1, modify at 1.
  set (w1' := emit (EvLog "No READY received. Sending FORCE RESET...") w1).
  destruct (send_raw_returns CMD_RESET 0 MAX_RETRIES w1')
    as (resp & w2 & d2 & k & E2 & T2 & L2 & W2 & K2 & S2 & St2).
  assert (Hctrl1 : ctrl w1' = set_ser (Some true) (ctrl w)).
  { unfold w1'. cbn. rewrite C1, C0. reflexivity. }
  destruct S2 as (Sser & Sconn & _).
  unfold bind at 1. rewrite E2.
  exists w1', w2, resp,
    ([EvLog ("Connecting to " ++ port ++ " at " ++ PyStr.str baud ++ "...")] ++ d0 ++ d1 ++
     [EvLog "No READY received. Sending FORCE RESET..."])%list, d2, k.
  destruct (PyStr.contains "OK RESET" resp) eqn:Hack.
  - eexists. eexists. split; [cbn -[append]; reflexivity|].
    split; [unfold w1'; cbn -[append]; rewrite T1, T0; unfold wa; cbn -[append];
            rewrite <- !app_assoc; reflexivity|].
    split; [rewrite !forallb_app, L0, L1; reflexivity|].
    split; [rewrite !writes_of_app, W0, W1; reflexivity|].
    split; [unfold w1'; cbn; rewrite R1, D0; reflexivity|].
    split; [unfold w1'; cbn; rewrite X1, D0; reflexivity|].
    split; [unfold ser_is_open; rewrite Hctrl1; reflexivity|].
    split; [exact E2|]. split; [exact T2|]. split; [exact L2|].
    split; [exact W2|]. split; [exact K2|].
    split; [cbn -[append]; reflexivity|].
    split; [reflexivity|]. split; [reflexivity|].
    unfold set_ctrl, set_last_state, set_is_connected. cbn [ctrl ser is_connected last_state].
    rewrite Sser, Hctrl1. reflexivity.
  - eexists. eexists.
    split; [cbn -[append]; unfold ser_is_open; cbn -[append]; rewrite Sser, Hctrl1;
            cbn -[append]; reflexivity|].
    split; [unfold w1'; cbn -[append]; rewrite T1, T0; unfold wa; cbn -[append];
            rewrite <- !app_assoc; reflexivity|].
    split; [rewrite !forallb_app, L0, L1; reflexivity|].
    split; [rewrite !writes_of_app, W0, W1; reflexivity|].
    split; [unfold w1'; cbn; rewrite R1, D0; reflexivity|].
    split; [unfold w1'; cbn; rewrite X1, D0; reflexivity|].
    split; [unfold ser_is_open; rewrite Hctrl1; reflexivity|].
    split; [exact E2|]. split; [exact T2|]. split; [exact L2|].
    split; [exact W2|]. split; [exact K2|].
    split; [cbn -[append]; reflexivity|].
    split; [reflexivity|]. split; [reflexivity|].
    unfold emit, set_ctrl, set_ser, set_is_connected.
    cbn [ctrl ser is_connected last_state].
    rewrite St2, Hctrl1. reflexivity.
Qed.

(** With no I/O error among the reads, the two cases of the handshake are
    the only ones. *)
Lemma window_dichotomy (d : Device) :
  Forall is_line (rx d) -> ready_in_window d \/ silent_in_window d.
Proof.
  intros Hlines. unfold ready_in_window, silent_in_window.
  set (m := reads_in_window boot_polls (waiting d)).
  assert (Hsplit : rx d = (firstn m (rx d) ++ skipn m (rx d))%list)
    by (symmetry; apply firstn_skipn).
  assert (Hm : (List.length (firstn m (rx d)) <= m)%nat) by apply firstn_le_length.
  assert (Hl : Forall is_line (firstn m (rx d))).
  { rewrite Forall_forall in *. intros x Hx. apply Hlines.
    rewrite Hsplit. apply in_or_app. left. exact Hx. }
  revert Hsplit Hm Hl. generalize (skipn m (rx d)) as tl.
  generalize (firstn m (rx d)) as l. intros l.
  assert (Hcases : Forall is_line l ->
            Forall not_ready l \/
            exists pre x post, l = (pre ++ RxLine x :: post)%list /\
                               Forall not_ready pre /\ PyStr.strip x = "READY").
  { induction l as [|r l IH]; intros Hl; [left; constructor|].
    inversion Hl as [|? ? Hr Hl']; subst.
    destruct r as [x|e]; [|contradiction].
    destruct (String.string_dec (PyStr.strip x) "READY") as [Heq|Hne].
    - right. exists [], x, l. repeat split; auto.
    - destruct (IH Hl') as [Hall|(pre & y & post & E & Hpre & Hy)].
      + left. constructor; assumption.
      + right. exists (RxLine x :: pre), y, post. subst l.
        split; [reflexivity|]. split; [constructor; assumption | exact Hy]. }
  intros tl Hsplit Hm Hl.
  destruct (Hcases Hl) as [Hall|(pre & x & post & E & Hpre & Hx)].
  - right. exact Hall.
  - left. exists pre, x, (post ++ tl)%list.
    split; [rewrite Hsplit, E, <- app_assoc; reflexivity|].
    split; [exact Hpre|]. split; [exact Hx|].
    subst l. rewrite length_app in Hm. simpl in Hm. lia.
Qed.

(** C6, as the code has it.  For every [connect()] call whose port opens:
    if the device emits the line "READY" within the wait window, [connect]
    succeeds with safety state Latched and nothing is written; if the window
    passes without it, [connect] runs exactly one RESET transaction (the
    token "98000", written once per attempt, at most [MAX_RETRIES] times),
    and if the response of that transaction contains "OK RESET" the state is
    Armed and [connect] succeeds, else [connect] fails with a
    [ConnectionError], not connected and the line closed. *)
Theorem connect_handshake (port : string) (baud : Z) (w : World) :
  open_fault (dev w) = None ->
  (ready_in_window (dev w) ->
   exists w',
     connect port baud w = (Ok true, w') /\
     last_state (ctrl w') = STATE_LATCHED /\
     is_connected (ctrl w') = true /\
     writes_of (events_since w w') = [] /\
     transactions_of (events_since w w') = []) /\
  (silent_in_window (dev w) ->
   exists w1 w2 resp k w',
     rx (dev w1) = skipn (reads_in_window boot_polls (waiting (dev w))) (rx (dev w)) /\
     tx_faults (dev w1) = tx_faults (dev w) /\
     ser_is_open (ctrl w1) = true /\
     _send_raw_command CMD_RESET 0 MAX_RETRIES w1 = (Ok resp, w2) /\
     transactions_of (events_since w w') = ["98000"] /\
     writes_of (events_since w w') = repeat ("98000" ++ LF)%string k /\
     (k <= 3)%nat /\
     if PyStr.contains "OK RESET" resp then
       connect port baud w = (Ok true, w') /\
       last_state (ctrl w') = STATE_ARMED /\
       is_connected (ctrl w') = true
     else
       connect port baud w =
         (Raise (Exn ConnectionError ("Failed to connect. Response to RESET: " ++ resp)),
          w') /\
       is_connected (ctrl w') = false /\
       ser_is_open (ctrl w') = false).
Proof.
  intros Hopen. split.
  - intros Hready.
    destruct (connect_ready port baud w Hopen Hready) as (w' & d & E & T & L & W & C).
    exists w'. rewrite (events_since_app w w' d T), C.
    repeat split; auto. apply loop_level_no_transactions. exact L.
  - intros Hsilent.
    destruct (connect_fallback port baud w Hopen Hsilent)
      as (w1 & w2 & resp & d1 & d2 & k & w' & d3 &
          E & T1 & L1 & W1 & R1 & X1 & O1 & E2 & T2 & L2 & W2 & K2 & T3 & L3 & W3 & C).
    exists w1, w2, resp, k, w'.
    assert (Hd : events_since w w' = (d1 ++ EvTransact "98000" :: d2 ++ d3)%list).
    { apply events_since_app. rewrite T3, T2, T1, <- !app_assoc. reflexivity. }
    rewrite Hd.
    split; [exact R1|]. split; [exact X1|]. split; [exact O1|]. split; [exact E2|].
    split.
    { rewrite transactions_of_app. simpl. rewrite transactions_of_app.
      rewrite (loop_level_no_transactions d1 L1), (loop_level_no_transactions d2 L2),
        (loop_level_no_transactions d3 L3). reflexivity. }
    split.
    { rewrite writes_of_app. simpl. rewrite writes_of_app, W1, W2, W3.
      simpl. apply app_nil_r. }
    split; [exact K2|].
    rewrite E, C.
    destruct (PyStr.contains "OK RESET" resp); repeat split; reflexivity.
Qed.

Lemma connect_handshake_witness :
  let w := ex_world_fresh [RxLine EmptyString; RxLine ("OK RESET" ++ LF)] in
  open_fault (dev w) = None /\ silent_in_window (dev w) /\
  exists w', connect "COM3" SERIAL_BAUDRATE w = (Ok true, w') /\
             last_state (ctrl w') = STATE_ARMED /\ is_connected (ctrl w') = true.
Proof.
  intros w.
  assert (Hsilent : silent_in_window (dev w)) by (vm_compute; constructor).
  split; [reflexivity|]. split; [exact Hsilent|].
  destruct (proj2 (connect_handshake "COM3" SERIAL_BAUDRATE w eq_refl) Hsilent)
    as (w1 & w2 & resp & k & w' & _ & _ & _ & _ & _ & _ & _ & H).
  assert (Hrun : fst (connect "COM3" SERIAL_BAUDRATE w) = Ok true) by (vm_compute; reflexivity).
  destruct (PyStr.contains "OK RESET" resp).
  - exists w'. exact H.
  - destruct H as (E & _). rewrite E in Hrun. discriminate Hrun.
Defined.

(** C6, as stated, fails in three ways: (1) a RESET whose first read times
    out is written twice on the wire, not once; (2) the reply "OK" to the
    RESET is an acknowledgement (it starts with "OK"), yet [connect] fails
    with a connection error; (3) when the port does not open, no RESET is
    sent at all and the error of the port is raised. *)
Lemma connect_not_exactly_one_reset_on_wire :
  (let w := ex_world_fresh [RxLine EmptyString; RxLine ("OK RESET" ++ LF)] in
   silent_in_window (dev w) /\
   fst (connect "COM3" SERIAL_BAUDRATE w) = Ok true /\
   writes_of (trace (snd (connect "COM3" SERIAL_BAUDRATE w))) = ["98000" ++ LF; "98000" ++ LF]%string) /\
  (let w := ex_world_fresh [RxLine "OK"] in
   silent_in_window (dev w) /\
   PyStr.startswith "OK" (PyStr.strip "OK") = true /\
   fst (connect "COM3" SERIAL_BAUDRATE w) =
     Raise (Exn ConnectionError "Failed to connect. Response to RESET: OK")) /\
  (let w := ex_world_no_port in
   ~ ready_in_window (dev w) /\
   fst (connect "COM3" SERIAL_BAUDRATE w) = Raise (Exn SerialException "could not open port") /\
   writes_of (trace (snd (connect "COM3" SERIAL_BAUDRATE w))) = []).
Proof.
  split; [|split].
  - split; [vm_compute; constructor|]. split; vm_compute; reflexivity.
  - split; [vm_compute; constructor|]. split; vm_compute; reflexivity.
  - split.
    + intros (pre & l & rest & Hrx & _). destruct pre; discriminate Hrx.
    + split; vm_compute; reflexivity.
Qed.

(* ================================================================== *)
(** * The public operations of the controller always return *)
(* ================================================================== *)

Lemma sticky_emit (e : Event) (w : World) : sticky w (emit e w).
Proof. unfold sticky. simpl. auto. Qed.

Lemma send_command_ctrl_op (pp aaa : Z) : ctrl_op (send_command pp aaa) (SendCommand pp aaa).
Proof.
  intros w. unfold send_command. unfold bind at 1.
  destruct (send_raw_returns pp aaa MAX_RETRIES w)
    as (resp & w1 & d & k & E & T & L & _ & _ & S & _).
  rewrite E. cbn -[append PyStr.format_0d PyStr.startswith].
  eexists. eexists.
  exists (EvTransact (PyStr.format_0d 2 pp ++ PyStr.format_0d 3 aaa) :: d ++
          [EvLog ("CMD: " ++ PyStr.format_0d 2 pp ++ PyStr.format_0d 3 aaa
                  ++ " -> " ++ resp)])%list.
  split; [reflexivity|].
  cbn -[append PyStr.format_0d PyStr.startswith]. rewrite T.
  split; [rewrite <- !app_assoc; simpl; rewrite <- ?app_assoc; reflexivity|].
  split; [simpl; rewrite forallb_app, (loop_level_low_level d L); reflexivity|].
  destruct S as (S1 & S2 & S3 & S4 & S5). unfold sticky. simpl. auto.
Qed.

Lemma reset_ctrl_op : ctrl_op reset Reset.
Proof.
  intros w. unfold reset. unfold bind at 1.
  destruct (send_raw_returns CMD_RESET 0 MAX_RETRIES w)
    as (resp & w1 & d & k & E & T & L & _ & _ & S & _).
  rewrite E. destruct S as (S1 & S2 & S3 & S4 & S5).
  destruct (PyStr.contains "OK RESET" resp); cbn -[append];
    (eexists; eexists; exists (EvTransact "98000" :: d); split; [reflexivity|]);
    cbn -[append]; rewrite T;
    (split; [rewrite <- !app_assoc; reflexivity|]);
    (split; [simpl; rewrite (loop_level_low_level d L); reflexivity|]);
    unfold sticky; simpl; auto.
Qed.

Lemma emergency_stop_ctrl_op : ctrl_op emergency_stop EmergencyStop.
Proof.
  intros w. unfold emergency_stop. unfold bind at 1.
  destruct (send_raw_returns CMD_ESTOP 0 MAX_RETRIES w)
    as (resp & w1 & d & k & E & T & L & _ & _ & S & _).
  rewrite E. destruct S as (S1 & S2 & S3 & S4 & S5).
  destruct (PyStr.contains "OK ESTOP" resp); cbn -[append];
    (eexists; eexists; exists (EvTransact "99000" :: d); split; [reflexivity|]);
    cbn -[append]; rewrite T;
    (split; [rewrite <- !app_assoc; reflexivity|]);
    (split; [simpl; rewrite (loop_level_low_level d L); reflexivity|]);
    unfold sticky; simpl; auto.
Qed.

Lemma home_ctrl_op : ctrl_op home Home.
Proof.
  intros w. unfold home. unfold bind at 1. unfold gets at 1.
  destruct (state_eqb (last_state (ctrl w)) STATE_LATCHED).
  - cbn -[append]. eexists. eexists. exists [EvLog "Ignored HOME while LATCHED."].
    split; [reflexivity|]. cbn -[append].
    split; [rewrite <- !app_assoc; reflexivity|].
    split; [reflexivity|]. unfold sticky. simpl. auto.
  - unfold bind at 1.
    destruct (send_raw_returns CMD_HOME 0 MAX_RETRIES w)
      as (resp & w1 & d & k & E & T & L & _ & _ & S & _).
    rewrite E. destruct S as (S1 & S2 & S3 & S4 & S5).
    cbn -[append PyStr.contains].
    eexists. eexists. exists (EvTransact "96000" :: d). split; [reflexivity|].
    cbn -[append PyStr.contains]. rewrite T.
    split; [rewrite <- !app_assoc; reflexivity|].
    split; [simpl; rewrite (loop_level_low_level d L); reflexivity|].
    unfold sticky; simpl; auto.
Qed.

(* ================================================================== *)
(** * Plain actions: logging, sleeping, checking the abort flag *)
(* ================================================================== *)

Lemma background_quiet (d : list Event) :
  forallb background d = true -> forallb quiet d = true.
Proof.
  rewrite !forallb_forall. intros H e He. specialize (H e He).
  destruct e; simpl in *; try congruence; reflexivity.
Qed.

Lemma background_no_pose (d : list Event) :
  forallb background d = true -> pose_view d = [].
Proof.
  induction d as [|e d IH]; [reflexivity|].
  simpl. intros H. apply andb_prop in H. destruct H as [He Hd].
  destruct e; simpl in *; try discriminate; auto.
Qed.

Lemma low_level_background (d : list Event) :
  forallb low_level d = true -> forallb background d = true.
Proof.
  rewrite !forallb_forall. intros H e He. specialize (H e He).
  destruct e; simpl in *; congruence.
Qed.

Lemma tick_delta_background (w : World) : forallb background (tick_delta w) = true.
Proof. unfold tick_delta. destruct (abort_in w) as [[|n]|]; reflexivity. Qed.

Lemma plain_ret {A} (a : A) : plain (ret a).
Proof.
  intros w r w' H. inversion H; subst. split; [apply sticky_refl|].
  exists []. rewrite app_nil_r. eauto.
Qed.

Lemma plain_gets {A} (f : World -> A) : plain (gets f).
Proof.
  intros w r w' H. inversion H; subst. split; [apply sticky_refl|].
  exists []. rewrite app_nil_r. eauto.
Qed.

Lemma plain_log (msg : string) : plain (log msg).
Proof.
  intros w r w' H. inversion H; subst. split; [apply sticky_emit|].
  exists [EvLog msg]. eauto.
Qed.

Lemma plain_sleep (ms : Z) : plain (sleep ms).
Proof.
  intros w r w' H. inversion H; subst. split; [solve_sticky|].
  exists ([EvSleep ms] ++ tick_delta (set_now (now w + ms) (emit (EvSleep ms) w)))%list.
  split; [solve_trace|].
  split; [simpl; apply tick_delta_background | eauto].
Qed.

Lemma plain_stop_live : plain cam_stop_live.
Proof.
  intros w r w' H. inversion H; subst. split; [unfold sticky; simpl; auto|].
  exists [EvStopLive]. eauto.
Qed.

Lemma plain_check_abort : plain _check_abort.
Proof.
  intros w r w' H. unfold _check_abort, bind, gets in H.
  destruct (abort_flag w) eqn:Hflag; inversion H; subst;
    (split; [apply sticky_refl|]); exists []; rewrite app_nil_r; eauto 6.
Qed.

Lemma plain_bind {A B} (m : M A) (k : A -> M B) :
  plain m -> (forall a, plain (k a)) -> plain (bind m k).
Proof.
  intros Hm Hk w r w' H. unfold bind in H.
  destruct (m w) as [r1 w1] eqn:E1.
  destruct (Hm w r1 w1 E1) as (S1 & d1 & T1 & B1 & R1).
  destruct r1 as [a|e|].
  - destruct (Hk a w1 r w' H) as (S2 & d2 & T2 & B2 & R2).
    split; [eapply sticky_trans; eassumption|].
    exists (d1 ++ d2)%list. rewrite T2, T1, <- app_assoc, forallb_app, B1, B2. auto.
  - inversion H; subst. split; [exact S1|]. exists d1.
    destruct R1 as [(a & Ha)|(Hf & _)]; [discriminate | eauto 6].
  - destruct R1 as [(a & Ha)|(_ & e & He)]; discriminate.
Qed.

Lemma plain_when (b : bool) (m : M unit) : plain m -> plain (when b m).
Proof. intros H. destruct b; [exact H | apply plain_ret]. Qed.

(** The settling loop, started with enough fuel for the time left. *)
Lemma plain_settle_loop (fuel : nat) :
  forall (start duration : Z) (w : World) r w',
    duration - (now w - start) <= 50 * Z.of_nat fuel ->
    settle_loop fuel start duration w = (r, w') ->
    sticky w w' /\
    exists d, trace w' = (trace w ++ d)%list /\ forallb background d = true /\
              ((exists a, r = Ok a) \/ (abort_flag w' = true /\ exists e, r = Raise e)).
Proof.
  induction fuel as [|fuel IH]; intros start duration w r w' Hfuel H.
  - cbn [settle_loop] in H.
    destruct (Z.ltb_spec (now w - start) duration) as [Hlt|Hge]; [lia|].
    inversion H; subst. split; [apply sticky_refl|].
    exists []. rewrite app_nil_r. eauto.
  - cbn [settle_loop] in H.
    destruct (Z.ltb_spec (now w - start) duration) as [Hlt|Hge].
    + unfold bind at 1 in H.
      destruct (_check_abort w) as [r1 w1] eqn:E1.
      destruct (plain_check_abort w r1 w1 E1) as (S1 & d1 & T1 & B1 & R1).
      assert (Hnow1 : now w1 = now w).
      { unfold _check_abort, bind, gets in E1.
        destruct (abort_flag w); inversion E1; reflexivity. }
      destruct r1 as [[]|e|].
      * unfold bind at 1 in H. unfold sleep at 1, modify at 1 in H.
        match type of H with settle_loop _ _ _ ?w2 = _ =>
          assert (S2 : sticky w1 w2) by solve_sticky;
          assert (T2 : trace w2 = (trace w1 ++ [EvSleep 50] ++
                          tick_delta (set_now (now w1 + 50) (emit (EvSleep 50) w1)))%list)
            by solve_trace;
          assert (N2 : now w2 = now w1 + 50) by (wsimpl; reflexivity);
          destruct (IH start duration w2 r w') as (S3 & d3 & T3 & B3 & R3);
            [rewrite N2, Hnow1; lia | exact H |]
        end.
        split; [eapply sticky_trans; [exact S1|eapply sticky_trans; eassumption]|].
        eexists. rewrite T3, T2, T1, <- !app_assoc. split; [reflexivity|].
        rewrite !forallb_app, B1, B3, tick_delta_background. auto.
      * inversion H; subst. split; [exact S1|]. exists d1.
        destruct R1 as [(a & Ha)|(Hf & _)]; [discriminate | eauto 6].
      * destruct R1 as [(a & Ha)|(_ & e & He)]; discriminate.
    + inversion H; subst. split; [apply sticky_refl|].
      exists []. rewrite app_nil_r. eauto.
Qed.

Lemma plain_wait_settling (duration : Z) : plain (_wait_settling duration).
Proof.
  intros w r w' H. unfold _wait_settling, bind, gets in H.
  apply (plain_settle_loop (Z.to_nat duration) (now w) duration w r w'); [|exact H].
  destruct (Z.le_gt_cases duration 0); [lia|]. rewrite Z2Nat.id by lia. lia.
Qed.

(* ================================================================== *)
(** * Calm actions and successful runs *)
(* ================================================================== *)

Lemma calm_of_plain {A} (m : M A) : plain m -> calm m.
Proof.
  intros Hm w r w' H. destruct (Hm w r w' H) as (S & d & T & B & R).
  split; [destruct R as [(a & ->)|(_ & e & ->)]; discriminate|].
  split; [exact S|]. exists d. split; [exact T | apply background_quiet; exact B].
Qed.

Lemma calm_ret {A} (a : A) : calm (ret a).
Proof. apply calm_of_plain, plain_ret. Qed.

Lemma calm_raise {A} (e : exn) : calm (@raise A e).
Proof.
  intros w r w' H. inversion H; subst.
  split; [discriminate|]. split; [apply sticky_refl | apply extends_refl].
Qed.

Lemma calm_bind {A B} (m : M A) (k : A -> M B) :
  calm m -> (forall a, calm (k a)) -> calm (bind m k).
Proof.
  intros Hm Hk w r w' H. unfold bind in H.
  destruct (m w) as [r1 w1] eqn:E1.
  destruct (Hm w r1 w1 E1) as (N1 & S1 & X1).
  destruct r1 as [a|e|];
    [|inversion H; subst; split; [discriminate|split; assumption]|contradiction].
  destruct (Hk a w1 r w' H) as (N2 & S2 & X2).
  split; [exact N2|].
  split; [eapply sticky_trans; eassumption | eapply extends_trans; eassumption].
Qed.

Lemma calm_when (b : bool) (m : M unit) : calm m -> calm (when b m).
Proof. intros H. destruct b; [exact H | apply calm_ret]. Qed.

(** What a collaborator call does, whatever the environment decides. *)
Lemma collab_call_cases (c : Collab) (w : World) :
  exists w' fault,
    collab_call c w = (match fault with None => Ok tt | Some e => Raise e end, w') /\
    trace w' = (trace w ++ tick_delta w ++ [EvCollab c fault])%list /\
    sticky w w'.
Proof.
  unfold collab_call.
  destruct (collab (tick w)) as [|[e|] rest] eqn:Ec.
  - eexists. exists None. split; [reflexivity|].
    split; [wsimpl; rewrite <- app_assoc; reflexivity | solve_sticky].
  - eexists. exists (Some e). split; [reflexivity|].
    split; [wsimpl; rewrite <- app_assoc; reflexivity | solve_sticky].
  - eexists. exists None. split; [reflexivity|].
    split; [wsimpl; rewrite <- app_assoc; reflexivity | solve_sticky].
Qed.

Lemma tick_delta_quiet (w : World) : forallb quiet (tick_delta w) = true.
Proof. apply background_quiet, tick_delta_background. Qed.

Lemma calm_collab (c : Collab) : calm (collab_call c).
Proof.
  intros w r w' H.
  destruct (collab_call_cases c w) as (w1 & fault & E & T & S).
  rewrite E in H. inversion H; subst.
  split; [destruct fault; discriminate|]. split; [exact S|].
  eexists. split; [exact T|].
  rewrite forallb_app, tick_delta_quiet. reflexivity.
Qed.

Lemma calm_set_exposure (us : Z) : calm (cam_set_exposure us).
Proof.
  unfold cam_set_exposure. apply calm_bind; [apply calm_collab|].
  intros _ w r w' H. inversion H; subst.
  split; [discriminate|].
  split; [unfold sticky; simpl; auto|].
  exists []. simpl. rewrite app_nil_r. auto.
Qed.

Lemma calm_ctrl_op (m : M bool) (c : CtrlCall) :
  ctrl_op m c -> is_estop (EvCtrl c true) = false -> calm m.
Proof.
  intros Hop Hc w r w' H.
  destruct (Hop w) as (b & w1 & d & E & T & L & S).
  rewrite E in H. inversion H; subst.
  split; [discriminate|]. split; [exact S|].
  eexists. split; [exact T|].
  rewrite forallb_app, (background_quiet d (low_level_background d L)).
  destruct c; simpl in *; try reflexivity; discriminate.
Qed.

Lemma calm_send_command (pp aaa : Z) : calm (send_command pp aaa).
Proof. apply (calm_ctrl_op _ _ (send_command_ctrl_op pp aaa)). reflexivity. Qed.

Lemma calm_reset : calm reset.
Proof. apply (calm_ctrl_op _ _ reset_ctrl_op). reflexivity. Qed.

Lemma calm_home : calm home.
Proof. apply (calm_ctrl_op _ _ home_ctrl_op). reflexivity. Qed.

Ltac plain_step :=
  lazymatch goal with
  | |- plain (ret _) => apply plain_ret
  | |- plain (gets _) => apply plain_gets
  | |- plain (log _) => apply plain_log
  | |- plain (sleep _) => apply plain_sleep
  | |- plain cam_stop_live => apply plain_stop_live
  | |- plain _check_abort => apply plain_check_abort
  | |- plain (_wait_settling _) => apply plain_wait_settling
  | |- plain (when _ _) => apply plain_when
  | |- plain (bind _ _) => apply plain_bind; [|intros ?]
  end.

Ltac solve_plain := repeat plain_step.

Lemma calm_rotate_sample (angle : Z) : calm (rotate_sample angle).
Proof. apply calm_send_command. Qed.

Lemma calm_rotate_polarizer (angle : Z) : calm (rotate_polarizer angle).
Proof. apply calm_send_command. Qed.

Ltac calm_step :=
  lazymatch goal with
  | H : calm ?m |- calm ?m => exact H
  | |- calm (ret _) => apply calm_ret
  | |- calm (raise _) => apply calm_raise
  | |- calm (collab_call _) => apply calm_collab
  | |- calm (cam_set_exposure _) => apply calm_set_exposure
  | |- calm (send_command _ _) => apply calm_send_command
  | |- calm (rotate_sample _) => apply calm_rotate_sample
  | |- calm (rotate_polarizer _) => apply calm_rotate_polarizer
  | |- calm reset => apply calm_reset
  | |- calm home => apply calm_home
  | |- calm (when _ _) => apply calm_when
  | |- calm (if ?b then _ else _) => destruct b
  | |- calm (bind _ _) => apply calm_bind; [|intros ?]
  | |- calm _ => apply calm_of_plain; solve [solve_plain]
  end.

Ltac solve_calm := repeat calm_step.

Lemma calm_crosspol_move_sample (angle : Z) : calm (crosspol_move_sample angle).
Proof. unfold crosspol_move_sample. solve_calm. Qed.

Lemma calm_normal_move_sample (angle : Z) : calm (normal_move_sample angle).
Proof. unfold normal_move_sample. solve_calm. Qed.

Section BodyIsCalm.

Variables (save_dir sample_id : string).
Variables (crosspol_exposure_us normal_exposure_us : Z).

Lemma calm_crosspol_loop (dir : string) (angles : list Z) :
  calm (crosspol_loop save_dir sample_id crosspol_exposure_us dir angles).
Proof.
  induction angles as [|angle rest IH]; cbn [crosspol_loop]; [apply calm_ret|].
  repeat lazymatch goal with
         | |- calm (crosspol_move_sample _) => apply calm_crosspol_move_sample
         | |- _ => calm_step
         end.
Qed.

Lemma calm_normal_loop (dir : string) (angles : list Z) :
  calm (normal_loop save_dir sample_id normal_exposure_us dir angles).
Proof.
  induction angles as [|angle rest IH]; cbn [normal_loop]; [apply calm_ret|].
  repeat lazymatch goal with
         | |- calm (normal_move_sample _) => apply calm_normal_move_sample
         | |- _ => calm_step
         end.
Qed.

Lemma calm_phase_crosspol (dir : string) (angles : list Z) :
  calm (phase_crosspol save_dir sample_id crosspol_exposure_us dir angles).
Proof.
  unfold phase_crosspol.
  repeat lazymatch goal with
         | |- calm (crosspol_loop _ _ _ _ _) => apply calm_crosspol_loop
         | |- _ => calm_step
         end.
Qed.

Lemma calm_phase_normal (dir : string) (angles : list Z) :
  calm (phase_normal save_dir sample_id normal_exposure_us dir angles).
Proof.
  unfold phase_normal.
  repeat lazymatch goal with
         | |- calm (normal_loop _ _ _ _ _) => apply calm_normal_loop
         | |- _ => calm_step
         end.
Qed.

(** The [try] body of a run always ends, and it neither stops the rig in
    emergency nor resumes the live preview. *)
Lemma calm_run_body (angles : list Z) (do_crosspol do_normal : bool) :
  calm (run_body save_dir sample_id crosspol_exposure_us normal_exposure_us
          angles do_crosspol do_normal).
Proof.
  unfold run_body. cbv zeta.
  repeat lazymatch goal with
         | |- calm (phase_crosspol _ _ _ _ _) => apply calm_phase_crosspol
         | |- calm (phase_normal _ _ _ _ _) => apply calm_phase_normal
         | |- _ => calm_step
         end.
Qed.

End BodyIsCalm.

(* ================================================================== *)
(** * SequenceOrchestrator: how a run ends *)
(* ================================================================== *)

Lemma run_finally_spec (w : World) :
  exists w',
    run_finally w = (Ok tt, w') /\
    trace w' = (trace w ++ resume_events w)%list /\
    sticky w w' /\ ctrl w' = ctrl w /\ abort_flag w' = abort_flag w.
Proof.
  unfold run_finally, bind, gets, resume_events.
  destruct (has_resume_live (cam w)) eqn:Hr; cbn.
  - eexists. split; [reflexivity|]. unfold sticky. simpl. repeat split; auto.
  - eexists. split; [reflexivity|]. rewrite app_nil_r.
    split; [reflexivity|]. split; [apply sticky_refl | auto].
Qed.

Section HowARunEnds.

Variables (save_dir sample_id : string).
Variables (crosspol_exposure_us normal_exposure_us : Z).
Variables (sample_angles : option (list Z)) (do_crosspol do_normal : bool).

Hypothesis some_mode : do_crosspol || do_normal = true.

Lemma run_sequence_unfold (w : World) :
  run_sequence save_dir sample_id crosspol_exposure_us normal_exposure_us
    sample_angles do_crosspol do_normal w =
  (let (r, w1) := run_body save_dir sample_id crosspol_exposure_us normal_exposure_us
    (angles_of sample_angles) do_crosspol do_normal (set_abort_flag false w) in
   let (r', w2) := run_handlers r w1 in
   match r' with
   | Diverge => (Diverge, w2)
   | _ => match run_finally w2 with
          | (Ok _, w3) => (r', w3)
          | (r'', w3) => (r'', w3)
          end
   end).
Proof.
  unfold run_sequence, angles_of. rewrite some_mode. reflexivity.
Qed.

(** The body completes: nothing more happens but the resume. *)
Lemma run_sequence_done (w w1 : World) :
  run_body save_dir sample_id crosspol_exposure_us normal_exposure_us
    (angles_of sample_angles) do_crosspol do_normal (set_abort_flag false w) = (Ok tt, w1) ->
  exists w',
    run_sequence save_dir sample_id crosspol_exposure_us normal_exposure_us
    sample_angles do_crosspol do_normal w = (Ok tt, w') /\
    trace w' = (trace w1 ++ resume_events w1)%list /\
    abort_flag w' = abort_flag w1.
Proof.
  intros Hb. rewrite run_sequence_unfold, Hb. cbn [run_handlers ret].
  destruct (run_finally_spec w1) as (w3 & E & T & _ & _ & F).
  rewrite E. exists w3. auto.
Qed.

(** The body raises the abort signal: the run logs it and resumes. *)
Lemma run_sequence_aborted (w w1 : World) (e : exn) :
  run_body save_dir sample_id crosspol_exposure_us normal_exposure_us
    (angles_of sample_angles) do_crosspol do_normal (set_abort_flag false w) = (Raise e, w1) ->
  is_InterruptedError e = true ->
  exists w',
    run_sequence save_dir sample_id crosspol_exposure_us normal_exposure_us
    sample_angles do_crosspol do_normal w = (Ok tt, w') /\
    trace w' = (trace w1 ++ EvLog "Sequence Aborted!" :: resume_events w1)%list /\
    abort_flag w' = abort_flag w1.
Proof.
  intros Hb He. rewrite run_sequence_unfold, Hb. cbn [run_handlers]. rewrite He.
  unfold log, modify.
  destruct (run_finally_spec (emit (EvLog "Sequence Aborted!") w1))
    as (w3 & E & T & _ & _ & F).
  rewrite E. exists w3. split; [reflexivity|]. split; [|exact F].
  rewrite T. cbn. rewrite <- app_assoc. reflexivity.
Qed.

(** The body raises anything else: the run logs it, stops the rig in
    emergency, resumes and raises the same exception. *)
Lemma run_sequence_failed (w w1 : World) (e : exn) :
  run_body save_dir sample_id crosspol_exposure_us normal_exposure_us
    (angles_of sample_angles) do_crosspol do_normal (set_abort_flag false w) = (Raise e, w1) ->
  is_InterruptedError e = false ->
  exists w' d_stop stopped,
    run_sequence save_dir sample_id crosspol_exposure_us normal_exposure_us
    sample_angles do_crosspol do_normal w = (Raise e, w') /\
    trace w' = (trace w1 ++
                [EvLog ("Sequence Error: " ++ exn_msg e);
                 EvLog "Emergency Stop Triggered due to Error."] ++
                d_stop ++ [EvCtrl EmergencyStop stopped] ++ resume_events w1)%list /\
    forallb low_level d_stop = true /\
    (abort_flag w1 = true -> abort_flag w' = true).
Proof.
  intros Hb He. rewrite run_sequence_unfold, Hb. cbn [run_handlers]. rewrite He.
  unfold bind at 1. unfold log at 1, modify at 1.
  unfold bind at 1. unfold log at 1, modify at 1.
  unfold bind at 1.
  set (w2 := emit (EvLog "Emergency Stop Triggered due to Error.")
               (emit (EvLog ("Sequence Error: " ++ exn_msg e)) w1)).
  destruct (emergency_stop_ctrl_op w2) as (b & w3 & d & E & T & L & S).
  rewrite E. cbn [raise].
  destruct (run_finally_spec w3) as (w4 & E4 & T4 & _ & _ & F4).
  rewrite E4. exists w4, d, b. split; [reflexivity|].
  split; [|split; [exact L|]].
  - rewrite T4, T. unfold w2. cbn -[append].
    assert (Hres : resume_events w3 = resume_events w1).
    { unfold resume_events. destruct S as (_ & _ & _ & S4 & _).
      rewrite S4. reflexivity. }
    rewrite Hres, <- !app_assoc. reflexivity.
  - intros Hf. rewrite F4. destruct S as (_ & _ & _ & _ & S5). apply S5. exact Hf.
Qed.

End HowARunEnds.





(* ================================================================== *)
(** * SequenceOrchestrator: checkpoints and the abort signal *)
(* ================================================================== *)


(** The two kinds of checkpoint of a run: the top of an iteration of a
    phase loop, a slice of a settling wait. *)
Lemma observes_settling (duration : Z) (w : World) :
  abort_flag w = true -> 0 < duration -> observes (_wait_settling duration) w.
Proof.
  intros Hf Hd. unfold _wait_settling.
  apply (observes_then (gets now) _ w w (now w)); [reflexivity|].
  destruct (Z.to_nat duration) as [|fuel] eqn:En; [lia|].
  apply observes_slice; [lia|]. apply observes_first, observes_check, Hf.
Qed.

Lemma observes_iteration_crosspol (save_dir sample_id : string) (exposure : Z)
    (dir : string) (angle : Z) (rest : list Z) (w : World) :
  abort_flag w = true ->
  observes (crosspol_loop save_dir sample_id exposure dir (angle :: rest)) w.
Proof. intros Hf. cbn [crosspol_loop]. apply observes_first, observes_check, Hf. Qed.

Lemma observes_iteration_normal (save_dir sample_id : string) (exposure : Z)
    (dir : string) (angle : Z) (rest : list Z) (w : World) :
  abort_flag w = true ->
  observes (normal_loop save_dir sample_id exposure dir (angle :: rest)) w.
Proof. intros Hf. cbn [normal_loop]. apply observes_first, observes_check, Hf. Qed.
















Section WhereAnAbortComesFrom.

Variables (save_dir sample_id : string).
Variables (crosspol_exposure_us normal_exposure_us : Z).




End WhereAnAbortComesFrom.








(* ================================================================== *)
(** * SequenceOrchestrator: a run in which nothing fails *)
(* ================================================================== *)

Lemma pose_view_app (a b : list Event) :
  pose_view (a ++ b)%list = (pose_view a ++ pose_view b)%list.
Proof. apply filter_app. Qed.

Lemma succeeds_weaken {A} (m : M A) (Q Q' : A -> list Event -> Prop) :
  (forall a d, Q a d -> Q' a d) -> succeeds m Q -> succeeds m Q'.
Proof.
  intros HQ Hm w r w' d Hc H T Hok Hf.
  destruct (Hm w r w' d Hc H T Hok Hf) as (a & E & Ha). eauto.
Qed.

Lemma succeeds_bind {A B} (m : M A) (k : A -> M B)
    (Q1 : A -> list Event -> Prop) (Q2 : A -> list Event -> B -> list Event -> Prop) :
  calm m -> (forall a, calm (k a)) ->
  succeeds m Q1 ->
  (forall a d1, Q1 a d1 -> succeeds (k a) (Q2 a d1)) ->
  succeeds (bind m k)
    (fun b d => exists a d1 d2, d = (d1 ++ d2)%list /\ Q1 a d1 /\ Q2 a d1 b d2).
Proof.
  intros Cm Ck Hm Hk w r w' d Hc H T Hok Hf. unfold bind in H.
  destruct (m w) as [r1 w1] eqn:E1.
  destruct (Cm w r1 w1 E1) as (N1 & S1 & d1 & T1 & _).
  destruct r1 as [a|e|]; [| |contradiction].
  - destruct (Ck a w1 r w' H) as (_ & S2 & d2 & T2 & _).
    assert (Hd : d = (d1 ++ d2)%list).
    { rewrite T2, T1, <- app_assoc in T. apply app_inv_head in T. auto. }
    subst d. rewrite forallb_app in Hok. apply andb_prop in Hok.
    destruct Hok as [Hok1 Hok2].
    assert (Hf1 : abort_flag w1 = false).
    { destruct (abort_flag w1) eqn:F; [|reflexivity].
      destruct S2 as (_ & _ & _ & _ & S2). rewrite (S2 F) in Hf. discriminate. }
    assert (Hc1 : is_connected (ctrl w1) = true).
    { destruct S1 as (_ & S1 & _). rewrite S1. exact Hc. }
    destruct (Hm w (Ok a) w1 d1 Hc E1 T1 Hok1 Hf1) as (a' & Ea & Ha).
    inversion Ea; subst a'.
    destruct (Hk a d1 Ha w1 r w' d2 Hc1 H T2 Hok2 Hf) as (b & Eb & Hb).
    exists b. split; [exact Eb|]. exists a, d1, d2. auto.
  - inversion H; subst r w'.
    assert (Hd : d = d1) by (rewrite T1 in T; apply app_inv_head in T; auto).
    subst d.
    destruct (Hm w (Raise e) w1 d1 Hc E1 T1 Hok Hf) as (a' & Ea & _).
    discriminate Ea.
Qed.

Lemma yields_eq {A} (m : M A) (V V' : list Event) :
  V = V' -> yields m V -> yields m V'.
Proof. intros ->. auto. Qed.

Lemma yields_of_plain {A} (m : M A) : plain m -> yields m [].
Proof.
  intros Hm w r w' d Hc H T Hok Hf.
  destruct (Hm w r w' H) as (_ & d0 & T0 & B0 & R0).
  assert (Hd : d = d0) by (rewrite T0 in T; apply app_inv_head in T; auto).
  subst d0.
  destruct R0 as [(a & ->)|(Hflag & _)]; [|congruence].
  exists a. split; [reflexivity | apply background_no_pose; exact B0].
Qed.

Lemma yields_of_acks (m : M bool) (V : list Event) : acks m V -> yields m V.
Proof. apply succeeds_weaken. intros a d [_ H]. exact H. Qed.

Lemma yields_seq {A B} (m : M A) (k : M B) (V1 V2 : list Event) :
  calm m -> calm k -> yields m V1 -> yields k V2 ->
  yields (bind m (fun _ => k)) (V1 ++ V2)%list.
Proof.
  intros Cm Ck Hm Hk.
  eapply succeeds_weaken;
    [|apply (succeeds_bind m (fun _ => k) (fun _ d => pose_view d = V1)
               (fun _ _ _ d => pose_view d = V2) Cm (fun _ => Ck) Hm (fun _ _ _ => Hk))].
  intros b d (a & d1 & d2 & -> & H1 & H2).
  rewrite pose_view_app, H1, H2. reflexivity.
Qed.

(** A controller operation whose failure is fatal, or is retried. *)
Lemma yields_guard (m : M bool) (kf : M unit) (V : list Event) :
  calm m -> calm kf -> acks m V ->
  yields (bind m (fun ok : bool => if ok then ret tt else kf)) V.
Proof.
  intros Cm Ck Hm.
  eapply succeeds_weaken;
    [|apply (succeeds_bind m (fun ok : bool => if ok then ret tt else kf)
               (fun b d => b = true /\ pose_view d = V)
               (fun _ _ _ d => pose_view d = []) Cm)].
  - intros b d (a & d1 & d2 & -> & [_ H1] & H2).
    rewrite pose_view_app, H1, H2. apply app_nil_r.
  - intros [|]; [apply calm_ret | exact Ck].
  - exact Hm.
  - intros a d1 [-> _]. apply yields_of_plain, plain_ret.
Qed.

Lemma yields_guard_then (m : M bool) (kf rest : M unit) (V1 V2 : list Event) :
  calm m -> calm kf -> calm rest -> acks m V1 -> yields rest V2 ->
  yields (bind m (fun ok : bool =>
                    bind (if ok then ret tt else kf) (fun _ => rest)))
         (V1 ++ V2)%list.
Proof.
  intros Cm Ck Cr Hm Hr.
  eapply succeeds_weaken;
    [|apply (succeeds_bind m
               (fun ok : bool => bind (if ok then ret tt else kf) (fun _ => rest))
               (fun b d => b = true /\ pose_view d = V1)
               (fun _ _ _ d => pose_view d = V2) Cm)].
  - intros b d (a & d1 & d2 & -> & [_ H1] & H2).
    rewrite pose_view_app, H1, H2. reflexivity.
  - intros [|]; (apply calm_bind; [|intros _; exact Cr]); [apply calm_ret | exact Ck].
  - exact Hm.
  - intros a d1 [-> _].
    apply (yields_seq (ret tt) rest [] V2);
      [apply calm_ret | exact Cr | apply yields_of_plain, plain_ret | exact Hr].
Qed.

(** The test that the controller is connected, on a connected controller. *)
Lemma yields_connected_then (e : exn) (rest : M unit) (V : list Event) :
  yields rest V ->
  yields (bind (gets (fun w => is_connected (ctrl w)))
            (fun connected : bool =>
               bind (if connected then ret tt else raise e) (fun _ => rest))) V.
Proof.
  intros Hr w r w' d Hc H T Hok Hf.
  unfold bind at 1 in H. unfold gets in H. rewrite Hc in H.
  unfold bind, ret in H. apply (Hr w r w' d Hc H T Hok Hf).
Qed.

Lemma yields_gets_then {A} (f : World -> A) (k : A -> M unit) (V : list Event) :
  (forall a, yields (k a) V) -> yields (bind (gets f) k) V.
Proof.
  intros Hk w r w' d Hc H T Hok Hf.
  unfold bind, gets in H. apply (Hk (f w) w r w' d Hc H T Hok Hf).
Qed.

Lemma tick_delta_no_pose (w : World) : pose_view (tick_delta w) = [].
Proof. apply background_no_pose, tick_delta_background. Qed.

Lemma yields_collab (c : Collab) :
  yields (collab_call c) (pose_view [EvCollab c None]).
Proof.
  intros w r w' d Hc H T Hok Hf.
  destruct (collab_call_cases c w) as (w1 & fault & E & T1 & _).
  rewrite E in H. inversion H; subst r w1.
  assert (Hd : d = (tick_delta w ++ [EvCollab c fault])%list)
    by (rewrite T1 in T; apply app_inv_head in T; auto).
  subst d. rewrite forallb_app in Hok. apply andb_prop in Hok.
  destruct Hok as [_ Hok]. destruct fault as [e|]; [discriminate Hok|].
  exists tt. split; [reflexivity|].
  rewrite pose_view_app, tick_delta_no_pose. reflexivity.
Qed.

Lemma yields_set_exposure (us : Z) : yields (cam_set_exposure us) [].
Proof.
  unfold cam_set_exposure.
  apply (yields_eq _ (pose_view [EvCollab (SetExposure us) None] ++ [])%list);
    [reflexivity|].
  apply yields_seq; [apply calm_collab | | apply yields_collab |].
  - intros w r w' H. inversion H; subst. split; [discriminate|].
    split; [unfold sticky; simpl; auto|]. exists []. simpl. rewrite app_nil_r. auto.
  - intros w r w' d Hc H T Hok Hf. inversion H; subst.
    assert (Hd : d = []).
    { simpl in T. rewrite <- (app_nil_r (trace w)) in T at 1.
      apply app_inv_head in T. auto. }
    subst d. exists tt. auto.
Qed.

Lemma low_level_no_pose (d : list Event) :
  forallb low_level d = true -> pose_view d = [].
Proof. intros H. apply background_no_pose, low_level_background, H. Qed.

Lemma acks_ctrl_op (m : M bool) (c : CtrlCall) :
  ctrl_op m c -> acks m (pose_view [EvCtrl c true]).
Proof.
  intros Hop w r w' d Hc H T Hok Hf.
  destruct (Hop w) as (b & w1 & d0 & E & T0 & L & _).
  rewrite E in H. inversion H; subst r w1.
  assert (Hd : d = (d0 ++ [EvCtrl c b])%list)
    by (rewrite T0 in T; apply app_inv_head in T; auto).
  subst d. rewrite forallb_app in Hok. apply andb_prop in Hok.
  destruct Hok as [_ Hok]. simpl in Hok. rewrite andb_true_r in Hok. subst b.
  exists true. split; [reflexivity|]. split; [reflexivity|].
  rewrite pose_view_app, (low_level_no_pose d0 L). reflexivity.
Qed.

Lemma acks_rotate_sample (angle : Z) : acks (rotate_sample angle) [].
Proof. exact (acks_ctrl_op _ _ (send_command_ctrl_op CMD_SAMPLE angle)). Qed.

Lemma acks_rotate_polarizer (angle : Z) :
  acks (rotate_polarizer angle) [EvCtrl (SendCommand CMD_POLARIZER angle) true].
Proof. exact (acks_ctrl_op _ _ (send_command_ctrl_op CMD_POLARIZER angle)). Qed.

Lemma acks_reset : acks reset [].
Proof. exact (acks_ctrl_op _ _ reset_ctrl_op). Qed.

Lemma yields_home : yields home [].
Proof. apply yields_of_acks. exact (acks_ctrl_op _ _ home_ctrl_op). Qed.

Lemma yields_crosspol_move_sample (angle : Z) : yields (crosspol_move_sample angle) [].
Proof.
  unfold crosspol_move_sample.
  apply yields_guard; [apply calm_rotate_sample | | apply acks_rotate_sample].
  solve_calm.
Qed.

Lemma yields_normal_move_sample (angle : Z) : yields (normal_move_sample angle) [].
Proof.
  unfold normal_move_sample.
  apply yields_guard; [apply calm_rotate_sample | apply calm_raise | apply acks_rotate_sample].
Qed.

Ltac yields_leaf :=
  lazymatch goal with
  | H : yields ?m _ |- yields ?m _ => exact H
  | |- yields (collab_call _) _ => apply yields_collab
  | |- yields (cam_set_exposure _) _ => apply yields_set_exposure
  | |- yields home _ => apply yields_home
  | |- yields (crosspol_move_sample _) _ => apply yields_crosspol_move_sample
  | |- yields (normal_move_sample _) _ => apply yields_normal_move_sample
  | |- yields _ _ => apply yields_of_plain; solve [solve_plain]
  end.

Section PosesOfARun.

Variables (save_dir sample_id : string).
Variables (crosspol_exposure_us normal_exposure_us : Z).

Ltac calm_here :=
  repeat lazymatch goal with
         | |- calm (crosspol_move_sample _) => apply calm_crosspol_move_sample
         | |- calm (normal_move_sample _) => apply calm_normal_move_sample
         | |- calm (crosspol_loop _ _ _ _ _) => apply calm_crosspol_loop
         | |- calm (normal_loop _ _ _ _ _) => apply calm_normal_loop
         | |- calm (phase_crosspol _ _ _ _ _) => apply calm_phase_crosspol
         | |- calm (phase_normal _ _ _ _ _) => apply calm_phase_normal
         | |- _ => calm_step
         end.

Ltac yseq := eapply yields_seq; [solve [calm_here] | solve [calm_here] | yields_leaf |].

Lemma yields_crosspol_loop (angles : list Z) :
  yields (crosspol_loop save_dir sample_id crosspol_exposure_us (path_join (path_join save_dir sample_id) "crosspol") angles)
         (flat_map (crosspol_pose save_dir sample_id crosspol_exposure_us) angles).
Proof.
  induction angles as [|angle rest IH]; cbn [crosspol_loop flat_map].
  - apply yields_of_plain, plain_ret.
  - eapply yields_eq; cycle 1.
    + do 7 yseq. exact IH.
    + reflexivity.
Qed.

Lemma yields_normal_loop (angles : list Z) :
  yields (normal_loop save_dir sample_id normal_exposure_us (path_join (path_join save_dir sample_id) "normal") angles)
         (flat_map (normal_pose save_dir sample_id normal_exposure_us) angles).
Proof.
  induction angles as [|angle rest IH]; cbn [normal_loop flat_map].
  - apply yields_of_plain, plain_ret.
  - eapply yields_eq; cycle 1.
    + do 7 yseq. exact IH.
    + reflexivity.
Qed.

Lemma yields_phase_crosspol (angles : list Z) :
  yields (phase_crosspol save_dir sample_id crosspol_exposure_us (path_join (path_join save_dir sample_id) "crosspol") angles)
         (EvCtrl (SendCommand CMD_POLARIZER 90) true ::
          flat_map (crosspol_pose save_dir sample_id crosspol_exposure_us) angles).
Proof.
  unfold phase_crosspol. eapply yields_eq; cycle 1.
  - do 3 yseq.
    eapply yields_guard_then;
      [apply calm_rotate_polarizer | apply calm_raise | solve [calm_here]
      | apply acks_rotate_polarizer |].
    yseq. apply yields_crosspol_loop.
  - reflexivity.
Qed.

Lemma yields_phase_normal (angles : list Z) :
  yields (phase_normal save_dir sample_id normal_exposure_us (path_join (path_join save_dir sample_id) "normal") angles)
         (EvCtrl (SendCommand CMD_POLARIZER 0) true ::
          flat_map (normal_pose save_dir sample_id normal_exposure_us) angles).
Proof.
  unfold phase_normal. eapply yields_eq; cycle 1.
  - do 3 yseq.
    eapply yields_guard_then;
      [apply calm_rotate_polarizer | apply calm_raise | solve [calm_here]
      | apply acks_rotate_polarizer |].
    yseq. apply yields_normal_loop.
  - reflexivity.
Qed.

End PosesOfARun.

Section PosesOfTheBody.

Variables (save_dir sample_id : string).
Variables (crosspol_exposure_us normal_exposure_us : Z).

Ltac calm_body :=
  repeat lazymatch goal with
         | |- calm (phase_crosspol _ _ _ _ _) => apply calm_phase_crosspol
         | |- calm (phase_normal _ _ _ _ _) => apply calm_phase_normal
         | |- _ => calm_step
         end.

Ltac yields_body_leaf :=
  lazymatch goal with
  | |- yields (when true (phase_crosspol _ _ _ _ _)) _ => apply yields_phase_crosspol
  | |- yields (when true (phase_normal _ _ _ _ _)) _ => apply yields_phase_normal
  | |- yields (when true (collab_call _)) _ => apply yields_collab
  | |- _ => yields_leaf
  end.

Ltac ybody :=
  eapply yields_seq; [solve [calm_body] | solve [calm_body] | yields_body_leaf |].

(** The pose events of the [try] body with both phases enabled. *)
Lemma yields_run_body (angles : list Z) :
  yields (run_body save_dir sample_id crosspol_exposure_us normal_exposure_us
            angles true true)
         (expected_poses save_dir sample_id crosspol_exposure_us normal_exposure_us
            angles).
Proof.
  unfold run_body. cbv zeta. eapply yields_eq; cycle 1.
  - ybody. apply yields_connected_then.
    ybody. ybody.
    apply yields_gets_then. intros can_stop.
    ybody. ybody.
    eapply yields_guard_then;
      [apply calm_reset | apply calm_raise | solve [calm_body] | apply acks_reset |].
    ybody. ybody. ybody. ybody.
    apply yields_of_plain, plain_ret.
  - unfold expected_poses. simpl. rewrite ?app_nil_r. reflexivity.
Qed.

End PosesOfTheBody.

Lemma filter_capture_pose_view (d : list Event) :
  filter is_capture (pose_view d) = filter is_capture d.
Proof.
  induction d as [|e d IH]; [reflexivity|].
  unfold pose_view in *. simpl.
  destruct e as [| | | |[] ?|[] ?| |]; simpl; rewrite ?IH; try reflexivity;
    destruct (pp =? CMD_POLARIZER); simpl; rewrite ?IH; reflexivity.
Qed.

Lemma filter_log_record_pose_view (d : list Event) :
  filter is_log_record (pose_view d) = filter is_log_record d.
Proof.
  induction d as [|e d IH]; [reflexivity|].
  unfold pose_view in *. simpl.
  destruct e as [| | | |[] ?|[] ?| |]; simpl; rewrite ?IH; try reflexivity;
    destruct (pp =? CMD_POLARIZER); simpl; rewrite ?IH; reflexivity.
Qed.

Lemma flat_map_count (p : Event -> bool) (f : Z -> list Event) (l : list Z) :
  (forall a, List.length (filter p (f a)) = 1%nat) ->
  List.length (filter p (flat_map f l)) = List.length l.
Proof.
  intros Hf. induction l as [|a l IH]; [reflexivity|].
  simpl. rewrite filter_app, length_app, Hf, IH. reflexivity.
Qed.

Lemma expected_poses_counts (save_dir sample_id : string)
    (crosspol_exposure_us normal_exposure_us : Z) (angles : list Z) :
  let V := expected_poses save_dir sample_id crosspol_exposure_us normal_exposure_us
             angles in
  List.length (filter is_capture V) = (2 * List.length angles)%nat /\
  List.length (filter is_log_record V) = (2 * List.length angles)%nat.
Proof.
  unfold expected_poses. split;
    rewrite !filter_app, !length_app, !flat_map_count by reflexivity; simpl; lia.
Qed.

Lemma resume_events_no_pose (w : World) : pose_view (resume_events w) = [].
Proof. unfold resume_events. destruct (has_resume_live (cam w)); reflexivity. Qed.

(** C7.  For every run of a connected controller with both phases enabled in
    which every controller operation returns [True], no collaborator call
    (directory, exposure, capture, save, log) raises and nobody requests an
    abort: the run completes, and its polarizer moves, captures and log
    records are exactly: polarizer to 90, then for each configured angle in
    order one capture and one Crosspol log record, then polarizer to 0, then
    for each configured angle in order one capture and one Normal log
    record; that is [2N] captures and [2N] log records for [N] angles. *)
Theorem two_phase_run_poses
    (save_dir sample_id : string) (crosspol_exposure_us normal_exposure_us : Z)
    (angles : list Z) (w : World) (r : Outcome unit) (w' : World) :
  is_connected (ctrl w) = true ->
  run_sequence save_dir sample_id crosspol_exposure_us normal_exposure_us
    (Some angles) true true w = (r, w') ->
  forallb ev_ok (events_since w w') = true ->
  abort_flag w' = false ->
  r = Ok tt /\
  pose_view (events_since w w') =
    expected_poses save_dir sample_id crosspol_exposure_us normal_exposure_us angles /\
  List.length (filter is_capture (events_since w w')) = (2 * List.length angles)%nat /\
  List.length (filter is_log_record (events_since w w')) = (2 * List.length angles)%nat.
Proof.
  intros Hc Hrun Hok Hf.
  assert (Hmode : true || true = true) by reflexivity.
  destruct (run_body save_dir sample_id crosspol_exposure_us normal_exposure_us
              (angles_of (Some angles)) true true (set_abort_flag false w))
    as [rb w1] eqn:Hb.
  destruct (calm_run_body save_dir sample_id crosspol_exposure_us normal_exposure_us
              (angles_of (Some angles)) true true _ _ _ Hb)
    as (Hnd & S & d_body & Tb & Qb).
  simpl in Tb.
  assert (Hbody : forall d_rest,
             events_since w w' = (d_body ++ d_rest)%list ->
             (abort_flag w1 = true -> abort_flag w' = true) ->
             rb = Ok tt /\
             pose_view d_body =
               expected_poses save_dir sample_id crosspol_exposure_us
                 normal_exposure_us angles).
  { intros d_rest Hd Hmono.
    rewrite Hd, forallb_app in Hok. apply andb_prop in Hok. destruct Hok as [Hok1 _].
    assert (Hf1 : abort_flag w1 = false).
    { destruct (abort_flag w1); [|reflexivity].
      rewrite (Hmono eq_refl) in Hf. discriminate. }
    destruct (yields_run_body save_dir sample_id crosspol_exposure_us normal_exposure_us
                angles (set_abort_flag false w) rb w1 d_body Hc Hb Tb Hok1 Hf1)
      as ([] & E & V).
    auto. }
  assert (Hres : resume_events w1 = resume_events w).
  { unfold resume_events. destruct S as (_ & _ & _ & S4 & _). rewrite S4. reflexivity. }
  destruct rb as [[]|e0|]; [| |contradiction].
  - destruct (run_sequence_done save_dir sample_id crosspol_exposure_us
                normal_exposure_us (Some angles) true true Hmode w w1 Hb)
      as (w'' & E & T & F).
    rewrite E in Hrun. inversion Hrun; subst r w''.
    assert (Hd : events_since w w' = (d_body ++ resume_events w)%list).
    { apply events_since_app. rewrite T, Tb, Hres, <- app_assoc. reflexivity. }
    destruct (Hbody _ Hd) as (_ & V); [rewrite F; auto|].
    assert (HV : pose_view (events_since w w') =
                 expected_poses save_dir sample_id crosspol_exposure_us
                   normal_exposure_us angles).
    { rewrite Hd, pose_view_app, resume_events_no_pose, app_nil_r. exact V. }
    split; [reflexivity|]. split; [exact HV|].
    rewrite <- filter_capture_pose_view, <- filter_log_record_pose_view, HV.
    apply expected_poses_counts.
  - exfalso. destruct (is_InterruptedError e0) eqn:He0.
    + destruct (run_sequence_aborted save_dir sample_id crosspol_exposure_us
                  normal_exposure_us (Some angles) true true Hmode w w1 e0 Hb He0)
        as (w'' & E & T & F).
      rewrite E in Hrun. inversion Hrun; subst r w''.
      destruct (Hbody (EvLog "Sequence Aborted!" :: resume_events w)) as (Habs & _);
        [apply events_since_app; rewrite T, Tb, Hres, <- app_assoc; reflexivity
        | rewrite F; auto | discriminate Habs].
    + destruct (run_sequence_failed save_dir sample_id crosspol_exposure_us
                  normal_exposure_us (Some angles) true true Hmode w w1 e0 Hb He0)
        as (w'' & d_stop & stopped & E & T & L & F).
      rewrite E in Hrun. inversion Hrun; subst r w''.
      destruct (Hbody ([EvLog ("Sequence Error: " ++ exn_msg e0);
                        EvLog "Emergency Stop Triggered due to Error."] ++
                       d_stop ++ [EvCtrl EmergencyStop stopped] ++ resume_events w)%list)
        as (Habs & _);
        [apply events_since_app; rewrite T, Tb, Hres, <- !app_assoc; reflexivity
        | exact F | discriminate Habs].
Qed.

Lemma two_phase_run_poses_witness :
  let w := ex_world STATE_LATCHED (ex_acks 8 []) in
  let r := run_sequence "data" "s1" 100 200 (Some [45; 0]) true true w in
  is_connected (ctrl w) = true /\
  forallb ev_ok (events_since w (snd r)) = true /\
  abort_flag (snd r) = false /\
  fst r = Ok tt /\
  pose_view (events_since w (snd r)) = expected_poses "data" "s1" 100 200 [45; 0] /\
  List.length (filter is_capture (events_since w (snd r))) = 4%nat.
Proof.
  intros w r.
  assert (Hok : forallb ev_ok (events_since w (snd r)) = true) by (vm_compute; reflexivity).
  assert (Hf : abort_flag (snd r) = false) by (vm_compute; reflexivity).
  split; [reflexivity|]. split; [exact Hok|]. split; [exact Hf|].
  destruct (two_phase_run_poses "data" "s1" 100 200 [45; 0] w (fst r) (snd r)
              eq_refl (surjective_pairing r) Hok Hf) as (E & V & C & _).
  split; [exact E|]. split; [exact V | exact C].
Defined.

(* ================================================================== *)
(** * SequenceOrchestrator: the sample move and its retry *)
(* ================================================================== *)

(** In the Crosspol loop a sample move that fails is retried once, and the
    result of the second attempt decides. *)
Lemma crosspol_move_sample_retries_once (angle : Z) (w w1 w2 : World) (ok2 : bool) :
  rotate_sample angle w = (Ok false, w1) ->
  rotate_sample angle
    (emit (EvLog ("Error moving sample to " ++ PyStr.str angle ++ ". Retrying once..."))
       w1) = (Ok ok2, w2) ->
  crosspol_move_sample angle w =
    ((if ok2 then Ok tt
      else Raise (Exn RuntimeError ("Failed moving sample to " ++ PyStr.str angle))), w2).
Proof.
  intros H1 H2. unfold crosspol_move_sample. unfold bind at 1. rewrite H1.
  unfold bind at 1. unfold log at 1, modify at 1. unfold bind at 1. rewrite H2.
  destruct ok2; reflexivity.
Qed.

(** In the Normal loop a sample move that fails is fatal at once. *)
Lemma normal_move_sample_fails_at_once (angle : Z) (w w1 : World) :
  rotate_sample angle w = (Ok false, w1) ->
  normal_move_sample angle w =
    (Raise (Exn RuntimeError ("Failed moving sample to " ++ PyStr.str angle)), w1).
Proof.
  intros H1. unfold normal_move_sample. unfold bind at 1. rewrite H1. reflexivity.
Qed.

(** C8 at the failing input: the device rejects the first sample move and
    would accept the second.  With the Crosspol phase alone the move is
    retried once and the run completes with its capture; with the Normal
    phase alone the same single rejection is fatal: the move is sent once,
    the run stops the rig in emergency and raises, no capture is taken. *)
Theorem normal_phase_sample_move_not_retried :
  (let r := run_sequence "data" "s1" 100 200 (Some [45]) true false
              (ex_world STATE_LATCHED ex_one_rejection) in
   fst r = Ok tt /\
   ctrl_calls (trace (snd r)) =
     [(Reset, true); (SendCommand 10 90, true); (SendCommand 11 45, false);
      (SendCommand 11 45, true); (Home, false)] /\
   List.length (filter is_capture (trace (snd r))) = 1%nat) /\
  (let r := run_sequence "data" "s1" 100 200 (Some [45]) false true
              (ex_world STATE_LATCHED ex_one_rejection) in
   fst r = Raise (Exn RuntimeError "Failed moving sample to 45") /\
   ctrl_calls (trace (snd r)) =
     [(Reset, true); (SendCommand 10 0, true); (SendCommand 11 45, false);
      (EmergencyStop, false)] /\
   List.length (filter is_capture (trace (snd r))) = 0%nat).
Proof. split; vm_compute; repeat split; reflexivity. Qed.

(* ================================================================== *)
(** * CommandChannel: what every transaction does *)
(* ================================================================== *)

Lemma ctrl_eq (c c' : Controller) :
  ser c' = ser c -> is_connected c' = is_connected c -> last_state c' = last_state c ->
  c' = c.
Proof. destruct c, c'; simpl; intros; subst; reflexivity. Qed.

Lemma sticky_ctrl (w w' : World) :
  sticky w w' -> last_state (ctrl w') = last_state (ctrl w) -> ctrl w' = ctrl w.
Proof. intros (S1 & S2 & _) L. apply ctrl_eq; assumption. Qed.

(** X1.  A transaction always returns a response string, whatever the
    device, the line and the retry budget: an I/O error is caught, the loop
    ends.  It starts one transaction, of its own token; what it writes is its
    own command line, at most [retry_count] times (never, if the budget is
    not positive); and it leaves the controller object as it was. *)
Theorem send_raw_command_always_returns (pp aaa retry_count : Z) (w : World) :
  exists resp w' k,
    _send_raw_command pp aaa retry_count w = (Ok resp, w') /\
    transactions_of (events_since w w') =
      [(PyStr.format_0d 2 pp ++ PyStr.format_0d 3 aaa)%string] /\
    writes_of (events_since w w') =
      repeat ((PyStr.format_0d 2 pp ++ PyStr.format_0d 3 aaa) ++ LF)%string k /\
    (k <= Z.to_nat retry_count)%nat /\
    ctrl w' = ctrl w.
Proof.
  destruct (send_raw_returns pp aaa retry_count w)
    as (resp & w' & d & k & E & T & L & W & K & S & St).
  exists resp, w', k. split; [exact E|].
  rewrite (events_since_app w w' _ T). cbn [transactions_of writes_of].
  rewrite (loop_level_no_transactions d L), W.
  split; [reflexivity|]. split; [reflexivity|].
  split; [exact K | apply sticky_ctrl; assumption].
Qed.

(** An attempt whose read raises: the error is caught and reported as the
    response. *)
Lemma send_loop_read_fault (fuel a : nat) (R : Z) (cmd : string) (e : exn)
    (rest : list RxItem) (w : World) :
  Z.of_nat a < R ->
  tx_faults (dev w) = [] ->
  rx (dev w) = RxFault e :: rest ->
  exists w' d,
    send_loop (S fuel) (Z.of_nat a) R cmd w = (Ok ("ERR EXCEPTION " ++ exn_msg e), w') /\
    trace w' = (trace w ++ d)%list /\
    io_view d = [EvWrite (cmd ++ LF)] /\
    forallb loop_level d = true /\
    rx (dev w') = rest /\
    ctrl w' = ctrl w.
Proof.
  intros Ha Htx Hrx.
  assert (Hlt : (Z.of_nat a <? R) = true) by (apply Z.ltb_lt; exact Ha).
  cbn [send_loop]. rewrite Hlt.
  unfold bind at 1. unfold send_attempt, try_except. unfold bind at 1.
  unfold ser_write at 1. rewrite Htx.
  unfold bind at 1. unfold ser_readline at 1.
  set (w1 := emit (EvWrite (cmd ++ LF)) w).
  assert (Hrx1 : rx (dev (tick w1)) = RxFault e :: rest)
    by (rewrite tick_dev; exact Hrx).
  rewrite Hrx1.
  cbn -[tick append].
  eexists. eexists. split; [reflexivity|].
  unfold w1. wsimpl. rewrite <- !app_assoc.
  split; [reflexivity|]. iosimpl. repeat split; auto.
Qed.

(** An attempt whose write raises: nothing is written, nothing is read. *)
Lemma send_loop_write_fault (fuel : nat) (a R : Z) (cmd : string) (e : exn)
    (txs : list (option exn)) (w : World) :
  a < R ->
  tx_faults (dev w) = Some e :: txs ->
  exists w',
    send_loop (S fuel) a R cmd w = (Ok ("ERR EXCEPTION " ++ exn_msg e), w') /\
    trace w' = (trace w ++ [EvLog ("Serial I/O Error: " ++ exn_msg e)])%list /\
    rx (dev w') = rx (dev w) /\
    ctrl w' = ctrl w.
Proof.
  intros Ha Htx.
  assert (Hlt : (a <? R) = true) by (apply Z.ltb_lt; exact Ha).
  cbn [send_loop]. rewrite Hlt.
  unfold bind at 1. unfold send_attempt, try_except. unfold bind at 1.
  unfold ser_write at 1. rewrite Htx.
  cbn -[append].
  eexists. split; [reflexivity|]. cbn -[append]. auto.
Qed.

(** X2.  An I/O error is not retried.  On an open line, (1) if the read of
    attempt [N+1] raises after [N] timeouts, the transaction returns
    "ERR EXCEPTION <message>" at once: the command has been written [N+1]
    times and no back-off sleep follows the failed attempt; (2) if the first
    write raises, the transaction returns "ERR EXCEPTION <message>" without
    having written or read anything. *)
Theorem io_fault_ends_transaction (pp aaa : Z) (max_attempts : nat) (w : World) :
  ser_is_open (ctrl w) = true ->
  (0 < max_attempts)%nat ->
  (forall (N : nat) (pre rest : list RxItem) (e : exn),
      tx_faults (dev w) = [] ->
      (N < max_attempts)%nat ->
      List.length pre = N ->
      Forall is_timeout pre ->
      rx (dev w) = (pre ++ RxFault e :: rest)%list ->
      exists w',
        _send_raw_command pp aaa (Z.of_nat max_attempts) w =
          (Ok ("ERR EXCEPTION " ++ exn_msg e), w') /\
        io_view (events_since w w') =
          (backoff_io (PyStr.format_0d 2 pp ++ PyStr.format_0d 3 aaa) 0 N ++
           [EvWrite ((PyStr.format_0d 2 pp ++ PyStr.format_0d 3 aaa) ++ LF)])%list /\
        rx (dev w') = rest /\
        ctrl w' = ctrl w) /\
  (forall (e : exn) (txs : list (option exn)),
      tx_faults (dev w) = Some e :: txs ->
      exists w',
        _send_raw_command pp aaa (Z.of_nat max_attempts) w =
          (Ok ("ERR EXCEPTION " ++ exn_msg e), w') /\
        io_view (events_since w w') = [] /\
        rx (dev w') = rx (dev w) /\
        ctrl w' = ctrl w).
Proof.
  intros Hopen Hpos.
  set (cmd := (PyStr.format_0d 2 pp ++ PyStr.format_0d 3 aaa)%string).
  rewrite (send_raw_open pp aaa (Z.of_nat max_attempts) w Hopen), Nat2Z.id.
  fold cmd. set (w0 := emit (EvTransact cmd) w).
  assert (T0 : trace w0 = (trace w ++ [EvTransact cmd])%list) by reflexivity.
  split.
  - intros N pre rest e Htx HN Hlen Hpre Hrx.
    assert (X0 : tx_faults (dev w0) = []) by exact Htx.
    destruct (send_loop_timeouts N (max_attempts - N) 0 (Z.of_nat max_attempts) cmd w0)
      as (w1 & d1 & E1 & T1 & V1 & L1 & R1 & X1 & C1); [lia | exact X0 | |].
    { intros k Hk. change (rx (dev w0)) with (rx (dev w)). rewrite Hrx.
      rewrite app_nth1 by lia.
      rewrite Forall_forall in Hpre. apply Hpre, nth_In. lia. }
    replace (N + (max_attempts - N))%nat with max_attempts in E1 by lia.
    change (Z.of_nat 0) with 0 in E1. rewrite E1. simpl Nat.add.
    destruct (max_attempts - N)%nat as [|f] eqn:Ef; [lia|].
    destruct (send_loop_read_fault f N (Z.of_nat max_attempts) cmd e rest w1)
      as (w2 & d2 & E2 & T2 & V2 & L2 & R2 & C2); [lia | exact X1 | |].
    { rewrite R1. change (rx (dev w0)) with (rx (dev w)). rewrite Hrx.
      rewrite skipn_app, <- Hlen, skipn_all, Nat.sub_diag. reflexivity. }
    exists w2. split; [exact E2|].
    assert (T : trace w2 = (trace w ++ [EvTransact cmd] ++ d1 ++ d2)%list)
      by (rewrite T2, T1, T0, <- !app_assoc; reflexivity).
    rewrite (events_since_app w w2 _ T).
    split; [rewrite !io_view_app, V1, V2; reflexivity|].
    split; [exact R2 | rewrite C2, C1; reflexivity].
  - intros e txs Htx.
    destruct max_attempts as [|m]; [lia|].
    destruct (send_loop_write_fault m 0 (Z.of_nat (S m)) cmd e txs w0)
      as (w1 & E1 & T1 & R1 & C1); [lia | exact Htx |].
    exists w1. split; [exact E1|].
    assert (T : trace w1 = (trace w ++ [EvTransact cmd;
                                        EvLog ("Serial I/O Error: " ++ exn_msg e)])%list)
      by (rewrite T1, T0, <- !app_assoc; reflexivity).
    rewrite (events_since_app w w1 _ T).
    split; [reflexivity|]. split; [exact R1 | exact C1].
Qed.

Lemma io_fault_ends_transaction_witness :
  let w := ex_world STATE_ARMED
             [RxLine EmptyString; RxFault (Exn SerialException "device unplugged");
              RxLine ("OK 11 045" ++ LF)] in
  ser_is_open (ctrl w) = true /\ (0 < 3)%nat /\
  exists w',
    _send_raw_command 11 45 3 w = (Ok "ERR EXCEPTION device unplugged", w') /\
    io_view (events_since w w') =
      [EvWrite ("11045" ++ LF); EvSleep 200; EvWrite ("11045" ++ LF)] /\
    rx (dev w') = [RxLine ("OK 11 045" ++ LF)].
Proof.
  intros w. split; [reflexivity|]. split; [lia|].
  destruct (proj1 (io_fault_ends_transaction 11 45 3 w eq_refl ltac:(lia))
              1%nat [RxLine EmptyString] [RxLine ("OK 11 045" ++ LF)]
              (Exn SerialException "device unplugged"))
    as (w' & E & V & R & _);
    [reflexivity | lia | reflexivity | repeat constructor | reflexivity |].
  exists w'. split; [exact E|]. split; [exact V | exact R].
Defined.

Lemma slept_app (a b : list Event) : slept (a ++ b)%list = slept a + slept b.
Proof.
  induction a as [|e a IH]; [reflexivity|].
  destruct e; simpl; rewrite ?IH; lia.
Qed.

Lemma slept_io_view (d : list Event) : slept (io_view d) = slept d.
Proof.
  induction d as [|e d IH]; [reflexivity|].
  destruct e; simpl; rewrite ?IH; reflexivity.
Qed.

Lemma slept_backoff_io (cmd : string) (n : nat) :
  forall a, slept (backoff_io cmd a n) = 200 * 2 ^ Z.of_nat a * (2 ^ Z.of_nat n - 1).
Proof.
  induction n as [|n IH]; intros a.
  - simpl. lia.
  - rewrite backoff_io_cons. cbn [slept]. rewrite IH.
    rewrite !Nat2Z.inj_succ, !Z.pow_succ_r by lia. lia.
Qed.

(** X3.  The time a transaction spends in back-off.  On an open line whose
    writes do not fail, a transaction that meets [N] timeouts before a
    response has slept [200 * (2^N - 1)] ms in all; one whose [max_attempts]
    reads all time out has slept [200 * (2^max_attempts - 1)] ms, which is
    1400 ms for the three attempts of [MAX_RETRIES]. *)
Theorem backoff_total_sleep (pp aaa : Z) (max_attempts : nat) (w : World) :
  ser_is_open (ctrl w) = true ->
  tx_faults (dev w) = [] ->
  (forall (N : nat) (pre rest : list RxItem) (l : string),
      (N < max_attempts)%nat ->
      List.length pre = N ->
      Forall is_timeout pre ->
      PyStr.strip l <> EmptyString ->
      rx (dev w) = (pre ++ RxLine l :: rest)%list ->
      exists w',
        _send_raw_command pp aaa (Z.of_nat max_attempts) w = (Ok (PyStr.strip l), w') /\
        slept (events_since w w') = 200 * (2 ^ Z.of_nat N - 1)) /\
  ((forall k, (k < max_attempts)%nat ->
              is_timeout (nth k (rx (dev w)) (RxLine EmptyString))) ->
   exists w',
     _send_raw_command pp aaa (Z.of_nat max_attempts) w = (Ok "ERR TIMEOUT", w') /\
     slept (events_since w w') = 200 * (2 ^ Z.of_nat max_attempts - 1)) /\
  200 * (2 ^ MAX_RETRIES - 1) = 1400.
Proof.
  intros Hopen Htx. split; [|split; [|reflexivity]].
  - intros N pre rest l HN Hlen Hpre Hl Hrx.
    destruct (transact_response pp aaa max_attempts N w pre rest l
                Hopen Htx HN Hlen Hpre Hl Hrx)
      as (w' & d & E & T & _ & V & _).
    exists w'. split; [exact E|].
    rewrite (events_since_app w w' d T), <- slept_io_view, V, slept_app, slept_backoff_io.
    simpl slept. change (Z.of_nat 0) with 0. lia.
  - intros Hto.
    destruct (transact_timeout pp aaa max_attempts w Hopen Htx Hto)
      as (w' & d & E & T & _ & V & _).
    exists w'. split; [exact E|].
    rewrite (events_since_app w w' d T), <- slept_io_view, V, slept_backoff_io.
    change (Z.of_nat 0) with 0. lia.
Qed.

Lemma backoff_total_sleep_witness :
  let w := ex_world STATE_ARMED [] in
  ser_is_open (ctrl w) = true /\ tx_faults (dev w) = [] /\
  exists w',
    _send_raw_command 11 45 3 w = (Ok "ERR TIMEOUT", w') /\
    slept (events_since w w') = 1400.
Proof.
  intros w. split; [reflexivity|]. split; [reflexivity|].
  destruct (proj1 (proj2 (backoff_total_sleep 11 45 3 w eq_refl eq_refl)))
    as (w' & E & S).
  - intros k Hk. simpl. destruct k; exact eq_refl.
  - exists w'. split; [exact E | exact S].
Defined.

(* ================================================================== *)
(** * DeviceController: the typed commands, one by one *)
(* ================================================================== *)

(** What a typed command does around its transaction: unless it is refused
    locally, it runs one transaction with its own code and argument, applies
    its test to the response, and adds log lines and its record to the
    history. *)
Lemma run_typed_shape (c : TypedCommand) (w : World) :
  if refused_locally c (last_state (ctrl w)) then
    run_typed c w =
      (Ok false,
       emit (EvCtrl Home false) (emit (EvLog "Ignored HOME while LATCHED.") w))
  else
    forall resp w1,
      _send_raw_command (fst (code_of c)) (snd (code_of c)) MAX_RETRIES w = (Ok resp, w1) ->
      exists w' d,
        run_typed c w = (Ok (accepts c resp), w') /\
        trace w' = (trace w1 ++ d)%list /\
        writes_of d = [] /\ transactions_of d = [] /\
        dev w' = dev w1 /\
        ser (ctrl w') = ser (ctrl w1) /\
        is_connected (ctrl w') = is_connected (ctrl w1) /\
        last_state (ctrl w') = state_after c (accepts c resp) (last_state (ctrl w1)).
Proof.
  assert (Hsend : forall pp aaa resp w1,
             _send_raw_command pp aaa MAX_RETRIES w = (Ok resp, w1) ->
             exists w' d,
               send_command pp aaa w = (Ok (PyStr.startswith "OK" resp), w') /\
               trace w' = (trace w1 ++ d)%list /\
               writes_of d = [] /\ transactions_of d = [] /\
               dev w' = dev w1 /\
               ser (ctrl w') = ser (ctrl w1) /\
               is_connected (ctrl w') = is_connected (ctrl w1) /\
               last_state (ctrl w') = last_state (ctrl w1)).
  { intros pp aaa resp w1 E. unfold send_command. unfold bind at 1. rewrite E.
    cbn -[append PyStr.format_0d PyStr.startswith].
    eexists. eexists. split; [reflexivity|].
    cbn -[append PyStr.format_0d PyStr.startswith].
    split; [rewrite <- !app_assoc; reflexivity|]. repeat split. }
  destruct c as [a|a|pp aaa| | |]; cbn [refused_locally code_of fst snd accepts state_after run_typed].
  - intros resp w1 E. apply (Hsend _ _ _ _ E).
  - intros resp w1 E. apply (Hsend _ _ _ _ E).
  - intros resp w1 E. apply (Hsend _ _ _ _ E).
  - destruct (state_eqb (last_state (ctrl w)) STATE_LATCHED) eqn:Est.
    { unfold home. unfold bind at 1. unfold gets at 1. rewrite Est. reflexivity. }
    intros resp w1 E. unfold home. unfold bind at 1. unfold gets at 1. rewrite Est.
    unfold bind at 1. rewrite E.
    cbn -[append PyStr.contains].
    eexists. eexists. split; [reflexivity|].
    cbn -[append PyStr.contains]. split; [reflexivity|].
    destruct (PyStr.contains "OK" resp); repeat split.
  - intros resp w1 E. unfold reset. unfold bind at 1. rewrite E.
    destruct (PyStr.contains "OK RESET" resp); cbn -[append];
      (eexists; eexists; split; [reflexivity|]); cbn -[append];
      (split; [reflexivity|]); repeat split.
  - intros resp w1 E. unfold emergency_stop. unfold bind at 1. rewrite E.
    destruct (PyStr.contains "OK ESTOP" resp); cbn -[append];
      (eexists; eexists; split; [reflexivity|]); cbn -[append];
      (split; [reflexivity|]); repeat split.
Qed.

Lemma state_eqb_latched (st : SafetyState) :
  state_eqb st STATE_LATCHED = true <-> st = STATE_LATCHED.
Proof. destruct st; simpl; split; congruence. Qed.

(** X4.  The discipline of the typed commands, in every world.  A typed
    command always returns a boolean.  It never touches the line or the
    connection flag.  The safety state changes in two cases only: [reset()]
    that returned [True] makes it Armed, [emergency_stop()] that returned
    [True] makes it Latched; a command that returned [False] and every
    move or home command leave it as it was.  Unless [home()] is refused
    locally (state Latched), the command starts exactly one transaction, of
    its own token, and what reaches the wire is that token's line, at most
    [MAX_RETRIES] times. *)
Theorem typed_command_discipline (c : TypedCommand) (w : World) :
  exists b w' k,
    run_typed c w = (Ok b, w') /\
    ser (ctrl w') = ser (ctrl w) /\
    is_connected (ctrl w') = is_connected (ctrl w) /\
    last_state (ctrl w') = state_after c b (last_state (ctrl w)) /\
    fst (get_state w') = Ok (state_after c b (last_state (ctrl w))) /\
    transactions_of (events_since w w') =
      (if refused_locally c (last_state (ctrl w)) then [] else [token_of c]) /\
    writes_of (events_since w w') = repeat (token_of c ++ LF)%string k /\
    (k <= Z.to_nat MAX_RETRIES)%nat.
Proof.
  pose proof (run_typed_shape c w) as Hshape.
  destruct (refused_locally c (last_state (ctrl w))) eqn:Hloc.
  - exists false, (emit (EvCtrl Home false) (emit (EvLog "Ignored HOME while LATCHED.") w)),
           0%nat.
    split; [exact Hshape|].
    assert (Hst : state_after c false (last_state (ctrl w)) = last_state (ctrl w))
      by (destruct c; reflexivity).
    rewrite Hst.
    rewrite (events_since_app w _ [EvLog "Ignored HOME while LATCHED."; EvCtrl Home false])
      by (simpl; rewrite <- app_assoc; reflexivity).
    repeat split. apply Nat.le_0_l.
  - destruct (send_raw_returns (fst (code_of c)) (snd (code_of c)) MAX_RETRIES w)
      as (resp & w1 & d & k & E & T & L & W & K & S & St).
    destruct (Hshape resp w1 E) as (w' & d' & E' & T' & W' & X' & _ & S1 & S2 & S3).
    destruct S as (Sa & Sb & _).
    exists (accepts c resp), w', k. split; [exact E'|].
    split; [congruence|]. split; [congruence|].
    rewrite S3, St. split; [reflexivity|].
    split; [unfold get_state, gets; simpl; rewrite S3, St; reflexivity|].
    assert (Tall : trace w' = (trace w ++ (EvTransact (token_of c) :: d) ++ d')%list)
      by (rewrite T', T, <- app_assoc; reflexivity).
    rewrite (events_since_app w w' _ Tall).
    rewrite transactions_of_app, writes_of_app. cbn [transactions_of writes_of].
    rewrite (loop_level_no_transactions d L), W, W', X', !app_nil_r.
    split; [reflexivity|]. split; [reflexivity | exact K].
Qed.

Lemma prefix_contains (p s : string) :
  PyStr.startswith p s = true -> PyStr.contains p s = true.
Proof.
  unfold PyStr.startswith. intros H.
  destruct s; cbn [PyStr.contains]; rewrite H; reflexivity.
Qed.

(** X5.  [home()] while the state is Armed: it runs one transaction, of the
    token "96000", and returns whether the response contains "OK"; so it
    returns [True] for every Ack (a response that starts with "OK").  The
    state stays Armed whatever the response. *)
Theorem home_armed_sends_home (w : World) :
  last_state (ctrl w) = STATE_ARMED ->
  exists resp w1 w',
    _send_raw_command CMD_HOME 0 MAX_RETRIES w = (Ok resp, w1) /\
    home w = (Ok (PyStr.contains "OK" resp), w') /\
    trace w' = (trace w1 ++ [EvCtrl Home (PyStr.contains "OK" resp)])%list /\
    transactions_of (events_since w w') = ["96000"] /\
    last_state (ctrl w') = STATE_ARMED /\
    (PyStr.startswith "OK" resp = true -> home w = (Ok true, w')).
Proof.
  intros Hst.
  destruct (send_raw_returns CMD_HOME 0 MAX_RETRIES w)
    as (resp & w1 & d & k & E & T & L & W & K & S & St).
  exists resp, w1.
  assert (Eh : home w = (Ok (PyStr.contains "OK" resp),
                         emit (EvCtrl Home (PyStr.contains "OK" resp)) w1)).
  { unfold home. unfold bind at 1. unfold gets at 1. rewrite Hst.
    cbn [state_eqb]. unfold bind at 1. rewrite E. reflexivity. }
  eexists. split; [exact E|]. split; [exact Eh|].
  split; [reflexivity|].
  rewrite (events_since_app w _ ((EvTransact "96000" :: d) ++
                                 [EvCtrl Home (PyStr.contains "OK" resp)]))
    by (cbn [trace emit]; rewrite T, <- app_assoc; reflexivity).
  rewrite transactions_of_app. cbn [transactions_of].
  rewrite (loop_level_no_transactions d L).
  split; [reflexivity|].
  split; [cbn; rewrite St; exact Hst|].
  intros Hok. rewrite Eh, (prefix_contains _ _ Hok). reflexivity.
Qed.

Lemma home_armed_sends_home_witness :
  let w := ex_world STATE_ARMED [RxLine ("OK 96 000" ++ LF)] in
  last_state (ctrl w) = STATE_ARMED /\
  exists w', home w = (Ok true, w') /\
             transactions_of (events_since w w') = ["96000"].
Proof.
  intros w. split; [reflexivity|].
  destruct (home_armed_sends_home w eq_refl) as (resp & w1 & w' & E & Eh & _ & X & _ & Hok).
  exists w'. split; [|exact X].
  apply Hok.
  assert (Er : resp = "OK 96 000") by (vm_compute in E; congruence).
  rewrite Er. reflexivity.
Defined.

(** The safety state after a typed command. *)
Lemma run_typed_state (c : TypedCommand) (w : World) (b : bool) (w' : World) :
  run_typed c w = (Ok b, w') ->
  last_state (ctrl w') = state_after c b (last_state (ctrl w)).
Proof.
  intros E. pose proof (run_typed_shape c w) as Hshape.
  destruct (refused_locally c (last_state (ctrl w))) eqn:Hloc.
  - rewrite Hshape in E. inversion E; subst. destruct c; reflexivity.
  - destruct (send_raw_returns (fst (code_of c)) (snd (code_of c)) MAX_RETRIES w)
      as (resp & w1 & d & k & E1 & _ & _ & _ & _ & _ & St).
    destruct (Hshape resp w1 E1) as (w2 & d' & E' & _ & _ & _ & _ & _ & _ & S3).
    rewrite E' in E. inversion E; subst. rewrite S3, St. reflexivity.
Qed.

(** X6.  The latch gates [home()] across operations.  After an
    [emergency_stop()] that returned [True], [home()] is refused locally:
    it returns [False] and neither starts a transaction nor writes; after a
    [reset()] that returned [True], [home()] goes to the device: it starts
    the transaction "96000". *)
Theorem latch_gates_home (w : World) :
  (forall w1,
      emergency_stop w = (Ok true, w1) ->
      exists w2,
        home w1 = (Ok false, w2) /\
        transactions_of (events_since w1 w2) = [] /\
        writes_of (events_since w1 w2) = [] /\
        dev w2 = dev w1) /\
  (forall w1,
      reset w = (Ok true, w1) ->
      exists b w2,
        home w1 = (Ok b, w2) /\
        transactions_of (events_since w1 w2) = ["96000"]).
Proof.
  split; intros w1 E.
  - pose proof (run_typed_state TEmergencyStop w true w1 E) as Hst.
    cbn [state_after] in Hst.
    pose proof (run_typed_shape THome w1) as Hshape.
    cbn [refused_locally run_typed] in Hshape. rewrite Hst in Hshape.
    cbn [state_eqb] in Hshape.
    eexists. split; [exact Hshape|].
    rewrite (events_since_app w1 _ [EvLog "Ignored HOME while LATCHED."; EvCtrl Home false])
      by (simpl; rewrite <- app_assoc; reflexivity).
    repeat split.
  - pose proof (run_typed_state TReset w true w1 E) as Hst.
    cbn [state_after] in Hst.
    destruct (send_raw_returns CMD_HOME 0 MAX_RETRIES w1)
      as (resp & w2 & d & k & E2 & T2 & L2 & _).
    pose proof (run_typed_shape THome w1) as Hshape.
    cbn [refused_locally run_typed] in Hshape. rewrite Hst in Hshape.
    cbn [state_eqb code_of fst snd] in Hshape.
    destruct (Hshape resp w2 E2) as (w3 & d' & E3 & T3 & _ & X3 & _).
    exists (accepts THome resp), w3. split; [exact E3|].
    rewrite (events_since_app w1 w3 ((EvTransact "96000" :: d) ++ d'))
      by (rewrite T3, T2, <- app_assoc; reflexivity).
    rewrite transactions_of_app. cbn [transactions_of].
    rewrite (loop_level_no_transactions d L2), X3. reflexivity.
Qed.

Lemma latch_gates_home_witness :
  let w := ex_world STATE_ARMED [RxLine ("OK ESTOP" ++ LF); RxLine ("OK HOME" ++ LF)] in
  exists w1 w2,
    emergency_stop w = (Ok true, w1) /\
    home w1 = (Ok false, w2) /\
    writes_of (events_since w1 w2) = [] /\
    rx (dev w2) = [RxLine ("OK HOME" ++ LF)].
Proof.
  intros w.
  exists (snd (emergency_stop w)).
  destruct (proj1 (latch_gates_home w) (snd (emergency_stop w)) eq_refl)
    as (w2 & E & _ & W & D).
  exists w2. split; [reflexivity|]. split; [exact E|]. split; [exact W|].
  rewrite D. reflexivity.
Defined.

(* ================================================================== *)
(** * DeviceController: disconnect *)
(* ================================================================== *)

Lemma accepts_no_connection (c : TypedCommand) : accepts c "ERR NO_CONNECTION" = false.
Proof. destruct c; reflexivity. Qed.

(** X7.  [disconnect()] never raises, whatever the state of the line
    ([self.ser] unset, closed or open); calling it again changes nothing;
    it keeps the safety state.  Every typed command issued after it returns
    [False] and writes nothing. *)
Theorem disconnect_then_typed_command (c : TypedCommand) (w : World) :
  exists w1 w',
    disconnect w = (Ok tt, w1) /\
    disconnect w1 = (Ok tt, w1) /\
    is_connected (ctrl w1) = false /\
    last_state (ctrl w1) = last_state (ctrl w) /\
    trace w1 = trace w /\
    run_typed c w1 = (Ok false, w') /\
    writes_of (events_since w w') = [] /\
    is_connected (ctrl w') = false.
Proof.
  assert (Hd : exists w1,
             disconnect w = (Ok tt, w1) /\ disconnect w1 = (Ok tt, w1) /\
             ser_is_open (ctrl w1) = false /\ is_connected (ctrl w1) = false /\
             last_state (ctrl w1) = last_state (ctrl w) /\ trace w1 = trace w).
  { unfold disconnect, bind, modify, ser_is_open.
    destruct w as [[s conn st] cm dv co fl ai nw tr].
    destruct s as [[|]|]; eexists; (split; [reflexivity|]); cbn; auto. }
  destruct Hd as (w1 & E1 & E1' & O1 & C1 & St1 & T1).
  exists w1.
  pose proof (run_typed_shape c w1) as Hshape.
  destruct (refused_locally c (last_state (ctrl w1))) eqn:Hloc.
  - eexists. split; [exact E1|]. split; [exact E1'|]. split; [exact C1|].
    split; [exact St1|]. split; [exact T1|]. split; [exact Hshape|].
    rewrite (events_since_app w _ [EvLog "Ignored HOME while LATCHED."; EvCtrl Home false])
      by (simpl; rewrite T1, <- app_assoc; reflexivity).
    split; [reflexivity | exact C1].
  - pose proof (send_raw_not_open (fst (code_of c)) (snd (code_of c)) MAX_RETRIES w1 O1) as E2.
    destruct (Hshape _ _ E2) as (w' & d' & E' & T' & W' & _ & _ & _ & S2 & _).
    rewrite accepts_no_connection in E'.
    exists w'. split; [exact E1|]. split; [exact E1'|]. split; [exact C1|].
    split; [exact St1|]. split; [exact T1|]. split; [exact E'|].
    rewrite (events_since_app w w' ([EvTransact (token_of c)] ++ d'))
      by (rewrite T'; cbn [trace emit]; rewrite T1, <- app_assoc; reflexivity).
    rewrite writes_of_app, W'. split; [reflexivity|].
    rewrite S2. exact C1.
Qed.

(* ================================================================== *)
(** * DeviceController: connect, in every world *)
(* ================================================================== *)

(** A poll whose read raises. *)
Lemma boot_poll_fault (fuel : nat) (start : Z) (w : World) (ws : list bool)
    (e : exn) (rest : list RxItem) :
  now w - start < CONNECTION_WAIT_MS ->
  waiting (dev w) = true :: ws ->
  rx (dev w) = RxFault e :: rest ->
  exists w1 d,
    boot_loop (S fuel) start w = (Raise e, w1) /\
    trace w1 = (trace w ++ d)%list /\
    forallb loop_level d = true /\
    writes_of d = [] /\
    ctrl w1 = ctrl w.
Proof.
  intros Hnow Ews Erx. rewrite (boot_loop_unfold fuel start w Hnow).
  unfold bind at 1. unfold ser_in_waiting. rewrite Ews.
  unfold bind at 1. unfold bind at 1. unfold ser_readline.
  set (w0 := set_dev (set_waiting ws (dev w)) w).
  assert (Hrx : rx (dev (tick w0)) = RxFault e :: rest) by (rewrite tick_dev; exact Erx).
  rewrite Hrx. cbn -[tick]. eexists. eexists. split; [reflexivity|].
  unfold w0. split; [solve_trace|].
  split; [iosimpl; reflexivity|].
  split; [solve_writes|].
  wsimpl. reflexivity.
Qed.

(** The boot wait always ends: it returns whether the boot message was seen,
    or raises the I/O error of a read; it writes nothing and leaves the
    controller object alone. *)
Lemma boot_loop_returns (fuel : nat) :
  forall (start : Z) (w : World),
    CONNECTION_WAIT_MS - (now w - start) <= 100 * Z.of_nat fuel ->
    exists r w' d,
      boot_loop fuel start w = (r, w') /\
      r <> Diverge /\
      trace w' = (trace w ++ d)%list /\
      forallb loop_level d = true /\
      writes_of d = [] /\
      ctrl w' = ctrl w.
Proof.
  induction fuel as [|fuel IH]; intros start w Hfuel.
  - rewrite boot_loop_done by lia.
    exists (Ok false), w, []. rewrite app_nil_r. repeat split; auto. discriminate.
  - destruct (Z.lt_ge_cases (now w - start) CONNECTION_WAIT_MS) as [Hnow|Hnow].
    2:{ rewrite boot_loop_done by lia.
        exists (Ok false), w, []. rewrite app_nil_r. repeat split; auto. discriminate. }
    assert (Hnext : forall w1 d1,
               boot_loop (S fuel) start w = boot_loop fuel start w1 ->
               trace w1 = (trace w ++ d1)%list ->
               forallb loop_level d1 = true ->
               writes_of d1 = [] ->
               now w1 = now w + 100 ->
               ctrl w1 = ctrl w ->
               exists r w' d,
                 boot_loop (S fuel) start w = (r, w') /\
                 r <> Diverge /\
                 trace w' = (trace w ++ d)%list /\
                 forallb loop_level d = true /\
                 writes_of d = [] /\
                 ctrl w' = ctrl w).
    { intros w1 d1 E1 T1 L1 W1 N1 C1.
      destruct (IH start w1) as (r & w' & d & E & ND & T & L & W & C); [lia|].
      exists r, w', (d1 ++ d)%list. rewrite E1, E.
      split; [reflexivity|]. split; [exact ND|].
      split; [rewrite T, T1, <- app_assoc; reflexivity|].
      rewrite forallb_app, L1, L, writes_of_app, W1, W, C, C1. auto. }
    destruct (waiting (dev w)) as [|[|] ws] eqn:Ews.
    + destruct (boot_poll_idle fuel start w Hnow) as (w1 & d1 & E1 & T1 & L1 & W1 & N1 & _ & _ & _ & C1);
        [rewrite Ews; reflexivity|].
      eapply Hnext; eassumption.
    + destruct (rx (dev w)) as [|[l|e] rest] eqn:Erx.
      * destruct (boot_poll_other fuel start w ws Hnow Ews)
          as (w1 & d1 & E1 & T1 & L1 & W1 & N1 & _ & _ & _ & C1);
          [rewrite Erx; exact not_ready_timeout|].
        eapply Hnext; eassumption.
      * destruct (String.eqb_spec (PyStr.strip l) "READY") as [Hl|Hl].
        -- destruct (boot_poll_ready fuel start w ws l rest Hnow Ews Erx Hl)
             as (w1 & d1 & E1 & T1 & L1 & W1 & _ & C1).
           exists (Ok true), w1, d1. repeat split; auto. discriminate.
        -- destruct (boot_poll_other fuel start w ws Hnow Ews)
             as (w1 & d1 & E1 & T1 & L1 & W1 & N1 & _ & _ & _ & C1);
             [rewrite Erx; exact Hl|].
           eapply Hnext; eassumption.
      * destruct (boot_poll_fault fuel start w ws e rest Hnow Ews Erx)
          as (w1 & d1 & E1 & T1 & L1 & W1 & C1).
        exists (Raise e), w1, d1. repeat split; auto. discriminate.
    + destruct (boot_poll_idle fuel start w Hnow) as (w1 & d1 & E1 & T1 & L1 & W1 & N1 & _ & _ & _ & C1);
        [rewrite Ews; reflexivity|].
      eapply Hnext; eassumption.
Qed.

(** What the [except] block of [connect] leaves: not connected, the line
    closed, the error logged and raised again. *)
Lemma connect_except_spec (e : exn) (w : World) :
  exists w',
    connect_except e w = (Raise e, w') /\
    trace w' = (trace w ++ [EvLog ("Connection failed: " ++ exn_msg e)])%list /\
    is_connected (ctrl w') = false /\
    ser_is_open (ctrl w') = false /\
    last_state (ctrl w') = last_state (ctrl w).
Proof.
  unfold connect_except, bind, modify, log, raise, ser_is_open.
  cbn -[append].
  destruct (ser (ctrl w)) as [[|]|] eqn:E; cbn -[append];
    (eexists; split; [reflexivity|]); cbn -[append]; rewrite ?E; auto.
Qed.

(** X8.  [connect], in every world (whatever the port, the device and the
    faults): it ends, and either returns [True] with the connection flag set
    and the line open, or raises with the connection flag clear and the line
    closed, the safety state being as before; it never returns [False].
    All it ever writes is the RESET line, at most [MAX_RETRIES] times. *)
Theorem connect_outcome (port : string) (baud : Z) (w : World) :
  exists r w' k,
    connect port baud w = (r, w') /\
    writes_of (events_since w w') = repeat ("98000" ++ LF)%string k /\
    (k <= Z.to_nat MAX_RETRIES)%nat /\
    match r with
    | Ok b =>
        b = true /\ is_connected (ctrl w') = true /\ ser_is_open (ctrl w') = true
    | Raise e =>
        is_connected (ctrl w') = false /\ ser_is_open (ctrl w') = false /\
        last_state (ctrl w') = last_state (ctrl w)
    | Diverge => False
    end.
Proof.
  unfold connect. unfold bind at 1. unfold log at 1, modify at 1.
  set (m0 := EvLog ("Connecting to " ++ port ++ " at " ++ PyStr.str baud ++ "...")).
  set (wa := emit m0 w).
  assert (Ta : trace wa = (trace w ++ [m0])%list) by reflexivity.
  unfold try_except.
  destruct (open_fault (dev wa)) as [e|] eqn:Hopen.
  - (* the port cannot be opened *)
    assert (E0 : connect_try wa = (Raise e, wa)).
    { unfold connect_try. unfold bind at 1. unfold serial_open. rewrite Hopen.
      reflexivity. }
    rewrite E0.
    destruct (connect_except_spec e wa) as (w' & E & T & C & O & St).
    exists (Raise e), w', 0%nat. split; [exact E|].
    rewrite (events_since_app w w' [m0; EvLog ("Connection failed: " ++ exn_msg e)])
      by (rewrite T, Ta, <- app_assoc; reflexivity).
    split; [reflexivity|]. split; [apply Nat.le_0_l|]. auto.
  - destruct (connect_try_listen wa Hopen) as (w0 & d0 & E0 & T0 & L0 & W0 & D0 & C0).
    rewrite E0. unfold bind at 1.
    destruct (boot_loop_returns (Z.to_nat CONNECTION_WAIT_MS) (now w0) w0)
      as (r1 & w1 & d1 & E1 & ND1 & T1 & L1 & W1 & C1);
      [rewrite Z.sub_diag; vm_compute; discriminate|].
    rewrite E1.
    assert (T1a : trace w1 = (trace w ++ [m0] ++ d0 ++ d1)%list)
      by (rewrite T1, T0, Ta, <- !app_assoc; reflexivity).
    destruct r1 as [[|]|e|].
    + (* the boot message was seen *)
      cbn -[append].
      eexists. eexists. exists 0%nat. split; [reflexivity|].
      rewrite (events_since_app w _ ([m0] ++ d0 ++ d1 ++
                 [EvLog "Arduino BOOT detected (READY). State is LATCHED."]))
        by (cbn -[append]; rewrite T1a, <- !app_assoc; reflexivity).
      rewrite !writes_of_app, W0, W1.
      split; [reflexivity|]. split; [apply Nat.le_0_l|].
      cbn. rewrite C1, C0. unfold ser_is_open. cbn. auto.
    + (* no boot message: the forced RESET *)
      unfold bind at 1. unfold log at 1, modify at 1.
      set (m1 := EvLog "No READY received. Sending FORCE RESET...").
      set (w1' := emit m1 w1).
      destruct (send_raw_returns CMD_RESET 0 MAX_RETRIES w1')
        as (resp & w2 & d2 & k & E2 & T2 & L2 & W2 & K2 & S2 & St2).
      destruct S2 as (Sser & Sconn & _).
      unfold bind at 1. rewrite E2.
      assert (T2a : trace w2 = (trace w ++ [m0] ++ d0 ++ d1 ++ [m1] ++
                                 EvTransact "98000" :: d2)%list).
      { rewrite T2. unfold w1'. cbn -[append]. rewrite T1a, <- !app_assoc. reflexivity. }
      assert (W2a : writes_of ([m0] ++ d0 ++ d1 ++ [m1] ++ EvTransact "98000" :: d2)%list
                    = repeat ("98000" ++ LF)%string k).
      { rewrite !writes_of_app, W0, W1. cbn [writes_of app]. exact W2. }
      destruct (PyStr.contains "OK RESET" resp) eqn:Hack.
      * cbn -[append].
        eexists. eexists. exists k. split; [reflexivity|].
        rewrite (events_since_app w _
                   (([m0] ++ d0 ++ d1 ++ [m1] ++ EvTransact "98000" :: d2) ++
                    [EvLog "Force RESET successful. Connected & ARMED."]))
          by (cbn -[append]; rewrite T2a, <- !app_assoc; reflexivity).
        rewrite writes_of_app, W2a, app_nil_r.
        split; [reflexivity|]. split; [exact K2|].
        cbn. unfold ser_is_open. cbn. rewrite Sser. unfold w1'. cbn.
        rewrite C1, C0. cbn. auto.
      * unfold raise at 1.
        destruct (connect_except_spec
                    (Exn ConnectionError ("Failed to connect. Response to RESET: " ++ resp))
                    w2) as (w' & E & T & C & O & St).
        eexists. exists w', k. split; [exact E|].
        rewrite (events_since_app w w'
                   (([m0] ++ d0 ++ d1 ++ [m1] ++ EvTransact "98000" :: d2) ++
                    [EvLog ("Connection failed: " ++
                            exn_msg (Exn ConnectionError
                                       ("Failed to connect. Response to RESET: " ++ resp)))]))
          by (rewrite T, T2a, <- !app_assoc; reflexivity).
        rewrite writes_of_app, W2a, app_nil_r.
        split; [reflexivity|]. split; [exact K2|].
        split; [exact C|]. split; [exact O|].
        rewrite St, St2. unfold w1'. cbn. rewrite C1, C0. reflexivity.
    + (* a read of the boot wait raised *)
      destruct (connect_except_spec e w1) as (w' & E & T & C & O & St).
      exists (Raise e), w', 0%nat. split; [exact E|].
      rewrite (events_since_app w w'
                 (([m0] ++ d0 ++ d1) ++ [EvLog ("Connection failed: " ++ exn_msg e)]))
        by (rewrite T, T1a, <- !app_assoc; reflexivity).
      rewrite !writes_of_app, W0, W1.
      split; [reflexivity|]. split; [apply Nat.le_0_l|].
      split; [exact C|]. split; [exact O|]. rewrite St, C1, C0. reflexivity.
    + congruence.
Qed.

(* ================================================================== *)
(** * utils: file names and command tokens *)
(* ================================================================== *)

Lemma is_forbidden_underscore : is_forbidden "_"%char = false.
Proof. reflexivity. Qed.

Lemma sanitize_filename_app (a b : string) :
  sanitize_filename (a ++ b) = (sanitize_filename a ++ sanitize_filename b)%string.
Proof.
  induction a as [|c a IH]; [reflexivity|]. simpl. rewrite IH. reflexivity.
Qed.

(** X9.  [sanitize_filename]: the result has the length of the name and
    holds none of the nine characters of the class; a character outside the
    class stays where it is, so a name without such characters is returned
    unchanged and sanitizing twice is sanitizing once; and the function
    works character by character: the result for [a ++ b] is the result for
    [a] followed by the result for [b]. *)
Theorem sanitize_filename_spec (name : string) :
  String.length (sanitize_filename name) = String.length name /\
  has_forbidden (sanitize_filename name) = false /\
  (has_forbidden name = false -> sanitize_filename name = name) /\
  sanitize_filename (sanitize_filename name) = sanitize_filename name /\
  (forall rest, sanitize_filename (name ++ rest) =
                (sanitize_filename name ++ sanitize_filename rest)%string).
Proof.
  assert (Hclean : forall s, has_forbidden (sanitize_filename s) = false).
  { induction s as [|c s IH]; [reflexivity|]. simpl.
    destruct (is_forbidden c) eqn:Ec; rewrite ?is_forbidden_underscore, ?Ec; exact IH. }
  assert (Hfix : forall s, has_forbidden s = false -> sanitize_filename s = s).
  { induction s as [|c s IH]; [reflexivity|]. simpl. intros H.
    apply orb_false_iff in H. destruct H as [Hc Hs].
    rewrite Hc, (IH Hs). reflexivity. }
  split; [|split; [apply Hclean | split; [apply Hfix | split]]].
  - induction name as [|c s IH]; [reflexivity|]. simpl. rewrite IH. reflexivity.
  - apply Hfix, Hclean.
  - intros rest. apply sanitize_filename_app.
Qed.

Lemma digit_char_inj (d d' : Z) :
  0 <= d <= 9 -> 0 <= d' <= 9 -> PyStr.digit_char d = PyStr.digit_char d' -> d = d'.
Proof.
  intros Hd Hd' H. unfold PyStr.digit_char in H.
  apply (f_equal nat_of_ascii) in H.
  rewrite !nat_ascii_embedding in H by lia. lia.
Qed.

(** X10.  On its domain [format_command] is injective: two different
    commands whose codes are in 0..99 and whose arguments are in 0..999 have
    different tokens. *)
Theorem format_command_injective (pp aaa pp' aaa' : Z) :
  0 <= pp <= 99 -> 0 <= aaa <= 999 ->
  0 <= pp' <= 99 -> 0 <= aaa' <= 999 ->
  (pp, aaa) <> (pp', aaa') ->
  utils.format_command pp aaa <> utils.format_command pp' aaa'.
Proof.
  intros Hp Ha Hp' Ha' Hne H. apply Hne. clear Hne.
  unfold utils.format_command in H.
  rewrite !format_02d_in_range, !format_03d_in_range in H by assumption.
  cbn [append] in H. inversion H as [[H1 H2 H3 H4 H5]]. clear H.
  assert (Q1 : 0 <= pp / 10 < 10)
    by (split; [apply Z.div_pos | apply Z.div_lt_upper_bound]; lia).
  assert (Q1' : 0 <= pp' / 10 < 10)
    by (split; [apply Z.div_pos | apply Z.div_lt_upper_bound]; lia).
  assert (Q2 : 0 <= aaa / 100 < 10)
    by (split; [apply Z.div_pos | apply Z.div_lt_upper_bound]; lia).
  assert (Q2' : 0 <= aaa' / 100 < 10)
    by (split; [apply Z.div_pos | apply Z.div_lt_upper_bound]; lia).
  pose proof (Z.mod_pos_bound pp 10 ltac:(lia)) as M1.
  pose proof (Z.mod_pos_bound pp' 10 ltac:(lia)) as M1'.
  pose proof (Z.mod_pos_bound aaa 10 ltac:(lia)) as M2.
  pose proof (Z.mod_pos_bound aaa' 10 ltac:(lia)) as M2'.
  pose proof (Z.mod_pos_bound (aaa / 10) 10 ltac:(lia)) as M3.
  pose proof (Z.mod_pos_bound (aaa' / 10) 10 ltac:(lia)) as M3'.
  apply digit_char_inj in H1; [|lia|lia].
  apply digit_char_inj in H2; [|lia|lia].
  apply digit_char_inj in H3; [|lia|lia].
  apply digit_char_inj in H4; [|lia|lia].
  apply digit_char_inj in H5; [|lia|lia].
  pose proof (Z.div_mod pp 10 ltac:(lia)) as D1.
  pose proof (Z.div_mod pp' 10 ltac:(lia)) as D1'.
  pose proof (Z.div_mod aaa 10 ltac:(lia)) as D2.
  pose proof (Z.div_mod aaa' 10 ltac:(lia)) as D2'.
  pose proof (Z.div_mod (aaa / 10) 10 ltac:(lia)) as D3.
  pose proof (Z.div_mod (aaa' / 10) 10 ltac:(lia)) as D3'.
  rewrite Z.div_div in D3, D3' by lia. change (10 * 10) with 100 in D3, D3'.
  f_equal; lia.
Qed.

Lemma format_command_injective_witness :
  0 <= 10 <= 99 /\ 0 <= 90 <= 999 /\ 0 <= 11 <= 99 /\ 0 <= 90 <= 999 /\
  (10, 90) <> (11, 90) /\
  utils.format_command 10 90 <> utils.format_command 11 90.
Proof.
  repeat (split; [lia|]).
  split; [discriminate|].
  apply format_command_injective; try lia. discriminate.
Defined.

(* ================================================================== *)
(** * io: the log file and the image files *)
(* ================================================================== *)

Lemma read_write_same (l : list (string * list io.Chunk)) (p : string) (c : list io.Chunk) :
  io.read_file (io.write_file l p c) p = Some c.
Proof.
  induction l as [|[q d] l IH]; simpl.
  - rewrite String.eqb_refl. reflexivity.
  - destruct (String.eqb_spec q p) as [E|E]; simpl.
    + subst. rewrite String.eqb_refl. reflexivity.
    + apply String.eqb_neq in E. rewrite E. exact IH.
Qed.

Lemma read_write_other (l : list (string * list io.Chunk)) (p p' : string)
    (c : list io.Chunk) :
  p' <> p -> io.read_file (io.write_file l p c) p' = io.read_file l p'.
Proof.
  intros Hne. induction l as [|[q d] l IH]; simpl.
  - destruct (String.eqb_spec p p'); [congruence | reflexivity].
  - destruct (String.eqb_spec q p) as [E|E]; simpl.
    + subst. destruct (String.eqb_spec p p'); [congruence | reflexivity].
    + destruct (String.eqb_spec q p'); [reflexivity | exact IH].
Qed.

(** [ensure_dir] on a host that refuses nothing: it returns, the files are
    as before, and it is the identity if the directory was there. *)
Lemma ensure_dir_ok (directory : string) (h : io.Host) :
  directory <> EmptyString ->
  io.os_faults h = [] ->
  exists h',
    io.ensure_dir directory h = (Ok tt, h') /\
    io.files h' = io.files h /\ io.os_faults h' = [] /\
    io.imwrite_script h' = io.imwrite_script h /\
    io.HAS_OPENCV h' = io.HAS_OPENCV h /\
    io.exists_ h' directory = true.
Proof.
  intros Hne Hf. unfold io.ensure_dir.
  destruct (io.exists_ h directory) eqn:Hex; cbn [negb].
  - exists h. repeat split; auto.
  - unfold io.makedirs. apply String.eqb_neq in Hne. rewrite Hne.
    unfold io.os_call. rewrite Hf.
    eexists. split; [reflexivity|]. cbn. repeat split; auto.
    unfold io.exists_. rewrite Hne. cbn.
    rewrite !existsb_app. cbn. rewrite String.eqb_refl.
    rewrite !orb_true_r. reflexivity.
Qed.

(** One call of [append_to_log] that meets no refusal. *)
Lemma append_to_log_ok (log_path : string) (data : list (string * io.PyVal)) (h : io.Host) :
  PyPath.dirname log_path <> EmptyString ->
  io.os_faults h = [] ->
  exists h',
    io.append_to_log log_path data h = (Ok true, h') /\
    io.read_file (io.files h') log_path =
      Some (match io.read_file (io.files h) log_path with
            | None => [io.Row io.fieldnames; io.Row (io.csv_row data)]
            | Some old => (old ++ [io.Row (io.csv_row data)])%list
            end) /\
    (forall p, p <> log_path ->
               io.read_file (io.files h') p = io.read_file (io.files h) p) /\
    io.os_faults h' = [].
Proof.
  intros Hdir Hf. unfold io.append_to_log.
  destruct (ensure_dir_ok (PyPath.dirname log_path) h Hdir Hf)
    as (h1 & E1 & F1 & O1 & _).
  rewrite E1. unfold io.os_call. rewrite O1. unfold io.isfile. rewrite F1.
  eexists. split; [reflexivity|]. cbn [io.files io.set_files io.os_faults].
  split; [|split; [|exact O1]].
  - rewrite read_write_same.
    destruct (io.read_file (io.files h) log_path); reflexivity.
  - intros p Hp. apply read_write_other. exact Hp.
Qed.

Lemma append_rows_existing (log_path : string) (rows : list (list (string * io.PyVal))) :
  forall (h : io.Host) (old : list io.Chunk),
    PyPath.dirname log_path <> EmptyString ->
    io.os_faults h = [] ->
    io.read_file (io.files h) log_path = Some old ->
    io.read_file (io.files (io.append_rows log_path rows h)) log_path =
      Some (old ++ map (fun d => io.Row (io.csv_row d)) rows)%list.
Proof.
  induction rows as [|d rows IH]; intros h old Hdir Hf Hold.
  - simpl. rewrite app_nil_r. exact Hold.
  - destruct (append_to_log_ok log_path d h Hdir Hf) as (h1 & E1 & R1 & _ & O1).
    cbn [io.append_rows]. rewrite E1. cbn [snd]. rewrite Hold in R1.
    rewrite (IH h1 _ Hdir O1 R1), <- app_assoc. reflexivity.
Qed.

Lemma csv_row_length (data : list (string * io.PyVal)) :
  List.length (io.csv_row data) = List.length io.fieldnames.
Proof. unfold io.csv_row. apply length_map. Qed.

(** X11.  The log file [append_to_log] keeps, on a host that refuses
    nothing and for a path with a directory part.  Successive calls on a
    path that names no file leave a file that holds the header once, first,
    and then one row per call, in the order of the calls; every line has
    nine fields.  Calls on a file that is already there, even an empty one,
    add their rows and no header. *)
Theorem log_file_header_once (log_path : string)
    (rows : list (list (string * io.PyVal))) (h : io.Host) :
  PyPath.dirname log_path <> EmptyString ->
  io.os_faults h = [] ->
  (io.read_file (io.files h) log_path = None ->
   rows <> [] ->
   io.read_file (io.files (io.append_rows log_path rows h)) log_path =
     Some (io.Row io.fieldnames :: map (fun d => io.Row (io.csv_row d)) rows) /\
   forallb io.is_full_row
     (io.Row io.fieldnames :: map (fun d => io.Row (io.csv_row d)) rows) = true) /\
  (forall old,
      io.read_file (io.files h) log_path = Some old ->
      io.read_file (io.files (io.append_rows log_path rows h)) log_path =
        Some (old ++ map (fun d => io.Row (io.csv_row d)) rows)%list).
Proof.
  intros Hdir Hf. split.
  - intros Hnone Hrows. destruct rows as [|d rows]; [congruence|]. split.
    + destruct (append_to_log_ok log_path d h Hdir Hf) as (h1 & E1 & R1 & _ & O1).
      cbn [io.append_rows]. rewrite E1. cbn [snd]. rewrite Hnone in R1.
      rewrite (append_rows_existing log_path rows h1 _ Hdir O1 R1). reflexivity.
    + cbn [forallb io.is_full_row]. rewrite Nat.eqb_refl. cbn [andb].
      apply forallb_forall. intros c Hc. apply in_map_iff in Hc.
      destruct Hc as (x & <- & _). cbn [io.is_full_row].
      rewrite csv_row_length. apply Nat.eqb_refl.
  - intros old Hold. apply append_rows_existing; assumption.
Qed.

Lemma log_file_header_once_witness :
  let h := io.mkHost [] [] true [] [] [] [] in
  let d1 := io.dict_of_row "t1" (mkLogRow Crosspol 100 90 45 "data/s1/crosspol/a.tif" "OK") in
  let d2 := [("mode", io.VStr "snapshot"); ("note", io.VStr "dropped")] in
  PyPath.dirname "data/s1/s1_log.csv" <> EmptyString /\
  io.os_faults h = [] /\
  io.read_file (io.files (io.append_rows "data/s1/s1_log.csv" [d1; d2] h))
    "data/s1/s1_log.csv" =
  Some [io.Row io.fieldnames;
        io.Row ["t1"; "crosspol"; "100"; EmptyString; "90"; "45";
                "data/s1/crosspol/a.tif"; "OK"; EmptyString];
        io.Row [EmptyString; "snapshot"; EmptyString; EmptyString; EmptyString;
                EmptyString; EmptyString; EmptyString; EmptyString]].
Proof.
  intros h d1 d2.
  split; [vm_compute; discriminate|]. split; [reflexivity|].
  apply (proj1 (log_file_header_once "data/s1/s1_log.csv" [d1; d2] h
                  ltac:(vm_compute; discriminate) eq_refl));
    [reflexivity | discriminate].
Defined.

(** X12.  The line [append_to_log] writes, whatever the host.  (1) The call
    depends on the dictionary only through the texts of its values for the
    nine field names: two dictionaries that agree on them, whatever other
    keys they hold and an absent key counting as the empty text, give the
    same result and leave the same host.  (2) After a call that returned
    [True], the last line of the log file has nine fields, field [i] being
    the text of the value the dictionary has for the [i]-th field name.
    (3) For the dictionaries [run_sequence] builds, that last line holds the
    timestamp, the mode, the exposure, the two angles, the path and the
    response, and its columns "gain" and "attempt_count" are empty. *)
Theorem log_row_columns (log_path : string) (data : list (string * io.PyVal))
    (h : io.Host) :
  (forall data',
      (forall k, In k io.fieldnames ->
                 io.csv_text (io.dict_get data' k) = io.csv_text (io.dict_get data k)) ->
      io.append_to_log log_path data' h = io.append_to_log log_path data h) /\
  (forall h',
      io.append_to_log log_path data h = (Ok true, h') ->
      exists before line,
        io.read_file (io.files h') log_path = Some (before ++ [io.Row line])%list /\
        List.length line = 9%nat /\
        forall i k, nth_error io.fieldnames i = Some k ->
                    nth_error line i = Some (io.csv_text (io.dict_get data k))) /\
  (forall timestamp r h',
      io.append_to_log log_path (io.dict_of_row timestamp r) h = (Ok true, h') ->
      exists before,
        io.read_file (io.files h') log_path =
          Some (before ++
                [io.Row [timestamp; io.mode_name (row_mode r);
                         PyStr.str (row_exposure_us r); EmptyString;
                         PyStr.str (row_polarizer_angle r);
                         PyStr.str (row_sample_angle r);
                         row_filepath r; row_arduino_response r; EmptyString]])%list).
Proof.
  assert (Hlast : forall d h',
             io.append_to_log log_path d h = (Ok true, h') ->
             exists before,
               io.read_file (io.files h') log_path =
                 Some (before ++ [io.Row (io.csv_row d)])%list).
  { intros d h' H. unfold io.append_to_log in H.
    destruct (io.ensure_dir (PyPath.dirname log_path) h) as [[[]|e|] h1];
      try discriminate H.
    destruct (io.os_call h1) as [[e|] h2]; [discriminate H|].
    inversion H; subst h'. cbn [io.files io.set_files].
    rewrite read_write_same, app_assoc. eexists. reflexivity. }
  split; [|split].
  - intros data' Hsame.
    assert (Hrow : io.csv_row data' = io.csv_row data)
      by (unfold io.csv_row; apply map_ext_in; exact Hsame).
    unfold io.append_to_log. rewrite Hrow. reflexivity.
  - intros h' H. destruct (Hlast data h' H) as (before & R).
    exists before, (io.csv_row data). split; [exact R|].
    split; [rewrite csv_row_length; reflexivity|].
    intros i k Hk. unfold io.csv_row. rewrite nth_error_map, Hk. reflexivity.
  - intros timestamp r h' H. destruct (Hlast _ h' H) as (before & R).
    exists before. exact R.
Qed.

(** X13.  How [append_to_log] fails.  (1) A log path without a directory
    part makes it raise: [ensure_dir] is called on the empty path, outside
    the [try].  (2) When the directory is missing and cannot be created,
    the error of [os.makedirs] is raised as well.  (3) When the directory is
    there and the file cannot be opened, the error is caught: the function
    logs it and returns [False].  In the three cases no file changes. *)
Theorem append_to_log_failures (log_path : string) (data : list (string * io.PyVal))
    (h : io.Host) :
  (PyPath.dirname log_path = EmptyString ->
   io.append_to_log log_path data h =
     (Raise (Exn OSError "[Errno 2] No such file or directory: ''"), h)) /\
  (forall e rest,
      PyPath.dirname log_path <> EmptyString ->
      io.exists_ h (PyPath.dirname log_path) = false ->
      io.os_faults h = Some e :: rest ->
      exists h',
        io.append_to_log log_path data h = (Raise e, h') /\
        io.files h' = io.files h /\ io.logged h' = io.logged h) /\
  (forall e rest,
      io.exists_ h (PyPath.dirname log_path) = true ->
      io.os_faults h = Some e :: rest ->
      exists h',
        io.append_to_log log_path data h = (Ok false, h') /\
        io.files h' = io.files h /\
        io.logged h' =
          (io.logged h ++
           [("Failed to write log " ++ log_path ++ ": " ++ exn_msg e)%string])%list).
Proof.
  split; [|split].
  - intros Hdir. unfold io.append_to_log, io.ensure_dir, io.exists_, io.makedirs.
    rewrite Hdir. reflexivity.
  - intros e rest Hdir Hex Hf.
    unfold io.append_to_log, io.ensure_dir, io.makedirs, io.os_call.
    rewrite Hex. apply String.eqb_neq in Hdir. rewrite Hdir, Hf.
    eexists. split; [reflexivity|]. split; reflexivity.
  - intros e rest Hex Hf.
    unfold io.append_to_log, io.ensure_dir, io.os_call.
    rewrite Hex. cbn [negb]. rewrite Hf.
    eexists. split; [reflexivity|]. split; reflexivity.
Qed.

Lemma append_to_log_failures_witness :
  let h := io.mkHost ["data"] [] true [Some (Exn OSError "Permission denied")] [] [] [] in
  (exists e, io.append_to_log "log.csv" [] h = (Raise e, h)) /\
  (exists h', io.append_to_log "data/log.csv" [] h = (Ok false, h') /\
              io.files h' = io.files h).
Proof.
  intros h. split.
  - eexists. apply (proj1 (append_to_log_failures "log.csv" [] h)). reflexivity.
  - destruct (proj2 (proj2 (append_to_log_failures "data/log.csv" [] h))
                (Exn OSError "Permission denied") [] eq_refl eq_refl)
      as (h' & E & F & _).
    exists h'. split; [exact E | exact F].
Defined.

Lemma string_length_app (a b : string) :
  String.length (a ++ b) = (String.length a + String.length b)%nat.
Proof. induction a as [|c a IH]; [reflexivity|]. simpl. rewrite IH. reflexivity. Qed.

Lemma substring_all (b : string) : substring 0 (String.length b) b = b.
Proof. induction b as [|c b IH]; [reflexivity|]. simpl. rewrite IH. reflexivity. Qed.

Lemma substring_app_suffix (a b : string) :
  substring (String.length a) (String.length b) (a ++ b) = b.
Proof. induction a as [|c a IH]; [apply substring_all | exact IH]. Qed.

Lemma endswith_app (a suffix : string) : PyPath.endswith suffix (a ++ suffix) = true.
Proof.
  unfold PyPath.endswith. rewrite string_length_app.
  replace (String.length a + String.length suffix - String.length suffix)%nat
    with (String.length a) by lia.
  rewrite substring_app_suffix, String.eqb_refl, andb_true_r.
  apply Nat.leb_le. lia.
Qed.

Lemma lower_app (a b : string) :
  PyPath.lower (a ++ b) = (PyPath.lower a ++ PyPath.lower b)%string.
Proof. induction a as [|c a IH]; [reflexivity|]. simpl. rewrite IH. reflexivity. Qed.

Lemma tiff_path_is_tiff (filepath : string) :
  io.is_tiff_name (io.tiff_path filepath) = true.
Proof.
  unfold io.tiff_path. destruct (io.is_tiff_name filepath) eqn:E; cbn [negb].
  - exact E.
  - unfold io.is_tiff_name. rewrite lower_app.
    change (PyPath.lower ".tif") with ".tif".
    rewrite endswith_app. reflexivity.
Qed.

(** X14.  The outcomes of [save_image].  It always ends.  (1) It raises in
    three cases only: OpenCV was not imported; the directory of the path was
    missing and could not be created; or [cv2.cvtColor], which is called
    outside the [try] statement and only for [color_mode] "rgb" and an image
    that is there, not empty and of three channels, raised.  In the three
    cases [cv2.imwrite] has not been called and no file has changed.  A
    failure of [cv2.imwrite], returned or raised, never comes out as an
    exception: the function returns [False].  (2) It returns [True] only for
    an image that is there and not empty and for which [cv2.imwrite]
    reported success; the file is then the one [cv2.imwrite] made from the
    array (its channels swapped first if the conversion applies), under a
    name that ends in ".tif" or ".tiff", letter case apart: the path given
    if it ends so, else the path with ".tif" added.  (3) For an image that
    is missing or empty it returns [False] without calling [cv2.imwrite] and
    without changing a file. *)
Theorem save_image_outcome (filepath : string) (image_data : option io.Image)
    (color_mode : option string) (h : io.Host) :
  exists r h',
    io.save_image filepath image_data color_mode h = (r, h') /\
    match r with
    | Ok true =>
        exists img,
          image_data = Some img /\ io.size img <> 0%nat /\
          (io.imwrite_script h = [] \/
           exists rest, io.imwrite_script h = io.Written :: rest) /\
          io.read_file (io.files h') (io.tiff_path filepath) =
            Some [io.Tiff (if io.needs_cvt color_mode img
                           then io.cvtColor_RGB2BGR img else img)] /\
          io.is_tiff_name (io.tiff_path filepath) = true /\
          (io.is_tiff_name filepath = true -> io.tiff_path filepath = filepath)
    | Ok false =>
        ((image_data = None \/
          exists img, image_data = Some img /\ io.size img = 0%nat) /\
         io.files h' = io.files h /\
         io.imwrite_script h' = io.imwrite_script h) \/
        (exists img rest,
            image_data = Some img /\ io.size img <> 0%nat /\
            (io.imwrite_script h = io.NotWritten :: rest \/
             exists e, io.imwrite_script h = io.WriteError e :: rest))
    | Raise e =>
        io.files h' = io.files h /\
        io.imwrite_script h' = io.imwrite_script h /\
        (io.HAS_OPENCV h = false \/
         (io.exists_ h (PyPath.dirname filepath) = false /\
          exists rest, io.os_faults h = Some e :: rest) \/
         (exists img rest,
             image_data = Some img /\ io.size img <> 0%nat /\
             io.needs_cvt color_mode img = true /\
             io.cvt_faults h = Some e :: rest))
    | Diverge => False
    end.
Proof.
  unfold io.save_image.
  destruct (io.HAS_OPENCV h) eqn:Hcv; cbn [negb].
  2:{ eexists. eexists. split; [reflexivity|]. cbn. auto. }
  (* what follows the directory check, in a host [h1] that differs from [h]
     by its directories and by the script of the [os] calls only *)
  assert (Hwrite : forall h1,
             io.files h1 = io.files h ->
             io.imwrite_script h1 = io.imwrite_script h ->
             io.cvt_faults h1 = io.cvt_faults h ->
             exists r h',
               match image_data with
               | Some img =>
                   if (io.size img =? 0)%nat
                   then (Ok false,
                         io.logging ("Cannot save image: Data is None or empty. File: "
                                     ++ filepath) h1)
                   else
                     match io.to_bgr color_mode img h1 with
                     | (Ok bgr, h2) => io.try_imwrite (io.tiff_path filepath) bgr h2
                     | (Raise e, h2) => (Raise e, h2)
                     | (Diverge, h2) => (Diverge, h2)
                     end
               | None =>
                   (Ok false,
                    io.logging ("Cannot save image: Data is None or empty. File: "
                                ++ filepath) h1)
               end = (r, h') /\
               match r with
               | Ok true =>
                   exists img,
                     image_data = Some img /\ io.size img <> 0%nat /\
                     (io.imwrite_script h = [] \/
                      exists rest, io.imwrite_script h = io.Written :: rest) /\
                     io.read_file (io.files h') (io.tiff_path filepath) =
                       Some [io.Tiff (if io.needs_cvt color_mode img
                                      then io.cvtColor_RGB2BGR img else img)] /\
                     io.is_tiff_name (io.tiff_path filepath) = true /\
                     (io.is_tiff_name filepath = true -> io.tiff_path filepath = filepath)
               | Ok false =>
                   ((image_data = None \/
                     exists img, image_data = Some img /\ io.size img = 0%nat) /\
                    io.files h' = io.files h /\
                    io.imwrite_script h' = io.imwrite_script h) \/
                   (exists img rest,
                       image_data = Some img /\ io.size img <> 0%nat /\
                       (io.imwrite_script h = io.NotWritten :: rest \/
                        exists e, io.imwrite_script h = io.WriteError e :: rest))
               | Raise e =>
                   io.files h' = io.files h /\
                   io.imwrite_script h' = io.imwrite_script h /\
                   exists img rest,
                     image_data = Some img /\ io.size img <> 0%nat /\
                     io.needs_cvt color_mode img = true /\
                     io.cvt_faults h = Some e :: rest
               | Diverge => False
               end).
  { intros h1 F1 I1 C1. destruct image_data as [img|].
    2:{ eexists. eexists. split; [reflexivity|]. left. cbn. auto. }
    destruct (Nat.eqb_spec (io.size img) 0) as [Hz|Hnz].
    { eexists. eexists. split; [reflexivity|]. left. cbn.
      split; [right; exists img; auto | auto]. }
    assert (Hp : io.is_tiff_name filepath = true -> io.tiff_path filepath = filepath).
    { intros E. unfold io.tiff_path. rewrite E. reflexivity. }
    assert (Hsave : forall h2,
               io.files h2 = io.files h ->
               io.imwrite_script h2 = io.imwrite_script h ->
               exists r h',
                 io.try_imwrite (io.tiff_path filepath)
                   (if io.needs_cvt color_mode img
                    then io.cvtColor_RGB2BGR img else img) h2 = (r, h') /\
                 match r with
                 | Ok true =>
                     (io.imwrite_script h = [] \/
                      exists rest, io.imwrite_script h = io.Written :: rest) /\
                     io.read_file (io.files h') (io.tiff_path filepath) =
                       Some [io.Tiff (if io.needs_cvt color_mode img
                                      then io.cvtColor_RGB2BGR img else img)]
                 | Ok false =>
                     exists rest,
                       io.imwrite_script h = io.NotWritten :: rest \/
                       exists e, io.imwrite_script h = io.WriteError e :: rest
                 | _ => False
                 end).
    { intros h2 F2 I2. unfold io.try_imwrite. rewrite I2.
      destruct (io.imwrite_script h) as [|[| |e] rest];
        (eexists; eexists; split; [reflexivity|]);
        cbn [io.files io.logging io.set_files io.set_imwrite_script].
      - split; [left; reflexivity | apply read_write_same].
      - split; [right; exists rest; reflexivity | apply read_write_same].
      - exists rest. left. reflexivity.
      - exists rest. right. exists e. reflexivity. }
    unfold io.to_bgr.
    destruct (io.needs_cvt color_mode img) eqn:Hneed.
    - unfold io.cvt_call. rewrite C1.
      destruct (io.cvt_faults h) as [|[e|] rest] eqn:Hc.
      + destruct (Hsave h1 F1 I1) as (r & h' & E & P).
        exists r, h'. split; [exact E|].
        destruct r as [[|]|e|]; try contradiction.
        * destruct P as (P1 & P2). exists img. rewrite Hneed.
          repeat split; auto using tiff_path_is_tiff.
        * destruct P as (rest & P). right. exists img, rest. auto.
      + eexists. eexists. split; [reflexivity|].
        cbn [io.files io.imwrite_script io.set_cvt_faults].
        split; [exact F1|]. split; [exact I1|]. exists img, rest. auto.
      + destruct (Hsave (io.set_cvt_faults rest h1) F1 I1) as (r & h' & E & P).
        exists r, h'. split; [exact E|].
        destruct r as [[|]|e|]; try contradiction.
        * destruct P as (P1 & P2). exists img. rewrite Hneed.
          repeat split; auto using tiff_path_is_tiff.
        * destruct P as (rest' & P). right. exists img, rest'. auto.
    - destruct (Hsave h1 F1 I1) as (r & h' & E & P).
      exists r, h'. split; [exact E|].
      destruct r as [[|]|e|]; try contradiction.
      + destruct P as (P1 & P2). exists img. rewrite Hneed.
        repeat split; auto using tiff_path_is_tiff.
      + destruct P as (rest & P). right. exists img, rest. auto. }
  assert (Hfin : forall h1,
             io.files h1 = io.files h ->
             io.imwrite_script h1 = io.imwrite_script h ->
             io.cvt_faults h1 = io.cvt_faults h ->
             exists r h',
               match image_data with
               | Some img =>
                   if (io.size img =? 0)%nat
                   then (Ok false,
                         io.logging ("Cannot save image: Data is None or empty. File: "
                                     ++ filepath) h1)
                   else
                     match io.to_bgr color_mode img h1 with
                     | (Ok bgr, h2) => io.try_imwrite (io.tiff_path filepath) bgr h2
                     | (Raise e, h2) => (Raise e, h2)
                     | (Diverge, h2) => (Diverge, h2)
                     end
               | None =>
                   (Ok false,
                    io.logging ("Cannot save image: Data is None or empty. File: "
                                ++ filepath) h1)
               end = (r, h') /\
               match r with
               | Ok true =>
                   exists img,
                     image_data = Some img /\ io.size img <> 0%nat /\
                     (io.imwrite_script h = [] \/
                      exists rest, io.imwrite_script h = io.Written :: rest) /\
                     io.read_file (io.files h') (io.tiff_path filepath) =
                       Some [io.Tiff (if io.needs_cvt color_mode img
                                      then io.cvtColor_RGB2BGR img else img)] /\
                     io.is_tiff_name (io.tiff_path filepath) = true /\
                     (io.is_tiff_name filepath = true -> io.tiff_path filepath = filepath)
               | Ok false =>
                   ((image_data = None \/
                     exists img, image_data = Some img /\ io.size img = 0%nat) /\
                    io.files h' = io.files h /\
                    io.imwrite_script h' = io.imwrite_script h) \/
                   (exists img rest,
                       image_data = Some img /\ io.size img <> 0%nat /\
                       (io.imwrite_script h = io.NotWritten :: rest \/
                        exists e, io.imwrite_script h = io.WriteError e :: rest))
               | Raise e =>
                   io.files h' = io.files h /\
                   io.imwrite_script h' = io.imwrite_script h /\
                   (io.HAS_OPENCV h = false \/
                    (io.exists_ h (PyPath.dirname filepath) = false /\
                     exists rest, io.os_faults h = Some e :: rest) \/
                    (exists img rest,
                        image_data = Some img /\ io.size img <> 0%nat /\
                        io.needs_cvt color_mode img = true /\
                        io.cvt_faults h = Some e :: rest))
               | Diverge => False
               end).
  { intros h1 F1 I1 C1. destruct (Hwrite h1 F1 I1 C1) as (r & h' & E & P).
    exists r, h'. split; [exact E|].
    destruct r as [[|]|e|]; auto.
    destruct P as (P1 & P2 & P3). auto. }
  cbv zeta.
  destruct (String.eqb_spec (PyPath.dirname filepath) EmptyString) as [Hd|Hd]; cbn [negb].
  - destruct (Hfin h eq_refl eq_refl eq_refl) as (r & h' & E & P).
    exists r, h'. split; [exact E|]. rewrite ?Hcv in P. exact P.
  - unfold io.ensure_dir.
    destruct (io.exists_ h (PyPath.dirname filepath)) eqn:Hex; cbn [negb].
    + destruct (Hfin h eq_refl eq_refl eq_refl) as (r & h' & E & P).
      exists r, h'. split; [exact E|]. rewrite ?Hcv, ?Hex in P. exact P.
    + unfold io.makedirs. apply String.eqb_neq in Hd. rewrite Hd.
      unfold io.os_call.
      destruct (io.os_faults h) as [|[e|] rest] eqn:Hf.
      * destruct (Hfin (io.set_dirs
                          (io.dirs h ++ io.ancestors EmptyString (PyPath.dirname filepath)
                           ++ [PyPath.dirname filepath]) h) eq_refl eq_refl eq_refl)
          as (r & h' & E & P).
        exists r, h'. split; [exact E|]. rewrite ?Hcv, ?Hex, ?Hf in P. exact P.
      * eexists. eexists. split; [reflexivity|]. cbn.
        split; [reflexivity|]. split; [reflexivity|].
        right. left. split; [reflexivity|]. exists rest. reflexivity.
      * destruct (Hfin (io.set_dirs
                          (io.dirs (io.set_os_faults rest h) ++
                           io.ancestors EmptyString (PyPath.dirname filepath)
                           ++ [PyPath.dirname filepath]) (io.set_os_faults rest h))
                       eq_refl eq_refl eq_refl)
          as (r & h' & E & P).
        exists r, h'. split; [exact E|]. rewrite ?Hcv, ?Hex, ?Hf in P. exact P.
Qed.

(* ================================================================== *)
(** * SequenceOrchestrator: the settling wait *)
(* ================================================================== *)

(** One slice of the wait, taken while the abort flag is clear. *)
Lemma settle_loop_slice (fuel : nat) (start duration : Z) (w : World) :
  now w - start < duration ->
  abort_flag w = false ->
  settle_loop (S fuel) start duration w =
  settle_loop fuel start duration (tick (set_now (now w + 50) (emit (EvSleep 50) w))).
Proof.
  intros Hnow Hflag. apply Z.ltb_lt in Hnow.
  cbn [settle_loop]. rewrite Hnow.
  unfold bind at 1. unfold _check_abort. unfold bind at 1. unfold gets at 1.
  rewrite Hflag. cbn [ret]. unfold bind at 1. unfold sleep, modify. reflexivity.
Qed.

(** The wait stops at once when the time is over. *)
Lemma settle_loop_over (fuel : nat) (start duration : Z) (w : World) :
  duration <= now w - start -> settle_loop fuel start duration w = (Ok tt, w).
Proof.
  intros H. apply Z.ltb_ge in H. destruct fuel; cbn [settle_loop]; rewrite H; reflexivity.
Qed.

(** A check that finds the flag set. *)
Lemma settle_loop_aborted (fuel : nat) (start duration : Z) (w : World) :
  now w - start < duration ->
  abort_flag w = true ->
  settle_loop (S fuel) start duration w =
  (Raise (Exn InterruptedError "Sequence aborted by user."), w).
Proof.
  intros Hnow Hflag. apply Z.ltb_lt in Hnow.
  cbn [settle_loop]. rewrite Hnow.
  unfold bind at 1. unfold _check_abort. unfold bind at 1. unfold gets at 1.
  rewrite Hflag. reflexivity.
Qed.

Lemma settle_loop_slices (k : nat) :
  forall (fuel : nat) (start duration : Z) (w : World),
    abort_flag w = false ->
    match abort_in w with None => True | Some j => (k <= j)%nat end ->
    (k = 0%nat \/ now w + 50 * (Z.of_nat k - 1) - start < duration) ->
    exists w',
      settle_loop (k + fuel) start duration w = settle_loop fuel start duration w' /\
      trace w' = (trace w ++ repeat (EvSleep 50) k)%list /\
      now w' = now w + 50 * Z.of_nat k /\
      abort_flag w' = false /\
      abort_in w' = pending_after k (abort_in w) /\
      ctrl w' = ctrl w /\ dev w' = dev w /\ cam w' = cam w /\ collab w' = collab w.
Proof.
  induction k as [|k IH]; intros fuel start duration w Hflag Hin Hnow.
  - exists w. rewrite app_nil_r. simpl.
    assert (Hp : pending_after 0 (abort_in w) = abort_in w)
      by (destruct (abort_in w); cbn [pending_after]; rewrite ?Nat.sub_0_r; reflexivity).
    rewrite Hp. repeat split; try lia; assumption.
  - change (S k + fuel)%nat with (S (k + fuel)).
    rewrite settle_loop_slice by (try assumption; lia).
    set (w1 := tick (set_now (now w + 50) (emit (EvSleep 50) w))).
    assert (Hw1 : trace w1 = (trace w ++ [EvSleep 50])%list /\ now w1 = now w + 50 /\
                  abort_flag w1 = false /\ abort_in w1 = pending_after 1 (abort_in w) /\
                  ctrl w1 = ctrl w /\ dev w1 = dev w /\ cam w1 = cam w /\
                  collab w1 = collab w).
    { unfold w1, tick. cbn [abort_in set_now emit].
      destruct (abort_in w) as [[|j]|] eqn:Ein; [lia| |];
        cbn; rewrite ?Nat.sub_0_r; repeat split; auto. }
    destruct Hw1 as (T1 & N1 & F1 & A1 & C1 & D1 & M1 & L1).
    destruct (IH fuel start duration w1) as (w' & E & T & N & F & A & C & D & M & L).
    + exact F1.
    + rewrite A1. destruct (abort_in w) as [j|]; simpl; [lia | exact I].
    + rewrite N1. lia.
    + exists w'. split; [exact E|].
      split; [rewrite T, T1, <- app_assoc; reflexivity|].
      split; [rewrite N, N1; lia|]. split; [exact F|].
      split; [rewrite A, A1; destruct (abort_in w); simpl; [f_equal; lia | reflexivity]|].
      repeat split; congruence.
Qed.

Lemma slices_bounds (duration : Z) :
  let n := Z.to_nat ((duration + 49) / 50) in
  duration <= 50 * Z.of_nat n /\
  50 * (Z.of_nat n - 1) < Z.max duration 0 /\
  (n <= Z.to_nat duration)%nat.
Proof.
  intros n. unfold n.
  pose proof (Z.div_mod (duration + 49) 50 ltac:(lia)) as D.
  pose proof (Z.mod_pos_bound (duration + 49) 50 ltac:(lia)) as M.
  repeat split; lia.
Qed.

(** X15.  The settling wait when nobody aborts: [_wait_settling(duration)]
    returns after [ceil(duration / 50)] slices of 50 ms and nothing else
    (no slice at all when the duration is not positive); the time waited is
    at least the duration and exceeds it by less than one slice; for the
    1500 ms of [SETTLING_TIME_S] that is 30 slices. *)
Theorem wait_settling_slices (duration : Z) (w : World) :
  abort_flag w = false ->
  abort_in w = None ->
  exists w',
    _wait_settling duration w = (Ok tt, w') /\
    events_since w w' = repeat (EvSleep 50) (Z.to_nat ((duration + 49) / 50)) /\
    now w' = now w + 50 * Z.of_nat (Z.to_nat ((duration + 49) / 50)) /\
    duration <= now w' - now w < Z.max duration 0 + 50 /\
    abort_flag w' = false /\
    Z.to_nat ((SETTLING_TIME_MS + 49) / 50) = 30%nat.
Proof.
  intros Hflag Hin.
  destruct (slices_bounds duration) as (B1 & B2 & B3).
  set (n := Z.to_nat ((duration + 49) / 50)) in *.
  unfold _wait_settling. unfold bind at 1. unfold gets at 1.
  destruct (settle_loop_slices n (Z.to_nat duration - n) (now w) duration w)
    as (w' & E & T & N & F & _); [exact Hflag | rewrite Hin; exact I | lia |].
  replace (n + (Z.to_nat duration - n))%nat with (Z.to_nat duration) in E by lia.
  rewrite E, settle_loop_over by lia.
  exists w'. split; [reflexivity|].
  split; [apply events_since_app; exact T|].
  split; [exact N|]. split; [lia|]. split; [exact F | reflexivity].
Qed.

Lemma wait_settling_slices_witness :
  let w := ex_world STATE_ARMED [] in
  abort_flag w = false /\ abort_in w = None /\
  exists w',
    _wait_settling 120 w = (Ok tt, w') /\
    events_since w w' = [EvSleep 50; EvSleep 50; EvSleep 50] /\
    now w' = 150.
Proof.
  intros w. split; [reflexivity|]. split; [reflexivity|].
  destruct (wait_settling_slices 120 w eq_refl eq_refl) as (w' & E & V & N & _).
  exists w'. split; [exact E|]. split; [exact V | exact N].
Defined.

(** X16.  The settling wait and [abort()].  (1) If the flag is set when a
    wait of positive duration starts, the wait raises [InterruptedError] at
    once, without sleeping.  (2) A wait whose duration is not positive
    returns at once and does not look at the flag.  (3) If [abort()] is
    called during slice [j+1] and the wait is longer than [j+1] slices, the
    wait raises [InterruptedError] right after that slice: no sleep follows
    the request.  (4) If [abort()] is called during the last slice, the wait
    returns normally with the flag set. *)
Theorem wait_settling_abort (duration : Z) (w : World) :
  (abort_flag w = true -> 0 < duration ->
   _wait_settling duration w =
     (Raise (Exn InterruptedError "Sequence aborted by user."), w)) /\
  (duration <= 0 -> _wait_settling duration w = (Ok tt, w)) /\
  (forall j : nat,
      abort_flag w = false -> abort_in w = Some j ->
      50 * (Z.of_nat j + 1) < duration ->
      exists w',
        _wait_settling duration w =
          (Raise (Exn InterruptedError "Sequence aborted by user."), w') /\
        events_since w w' =
          (repeat (EvSleep 50) (j + 1) ++ [EvLog "Abort requested!"])%list /\
        now w' = now w + 50 * (Z.of_nat j + 1)) /\
  (forall j : nat,
      abort_flag w = false -> abort_in w = Some j ->
      50 * Z.of_nat j < duration <= 50 * (Z.of_nat j + 1) ->
      exists w',
        _wait_settling duration w = (Ok tt, w') /\
        abort_flag w' = true /\
        events_since w w' =
          (repeat (EvSleep 50) (j + 1) ++ [EvLog "Abort requested!"])%list).
Proof.
  unfold _wait_settling. unfold bind at 1 2 3 4. unfold gets at 1 2 3 4.
  split; [|split; [|split]].
  - intros Hflag Hd.
    destruct (Z.to_nat duration) as [|f] eqn:Ef; [lia|].
    apply settle_loop_aborted; [lia | exact Hflag].
  - intros Hd. apply settle_loop_over. lia.
  - intros j Hflag Hin Hd.
    destruct (settle_loop_slices j (Z.to_nat duration - j) (now w) duration w)
      as (w1 & E1 & T1 & N1 & F1 & A1 & _); [exact Hflag | rewrite Hin; lia | lia |].
    replace (j + (Z.to_nat duration - j))%nat with (Z.to_nat duration) in E1 by lia.
    rewrite E1. rewrite Hin in A1. cbn [pending_after] in A1. rewrite Nat.sub_diag in A1.
    destruct (Z.to_nat duration - j)%nat as [|f] eqn:Ef; [lia|].
    rewrite settle_loop_slice by (try assumption; lia).
    set (w2 := tick (set_now (now w1 + 50) (emit (EvSleep 50) w1))).
    assert (Hw2 : trace w2 = (trace w1 ++ [EvSleep 50; EvLog "Abort requested!"])%list /\
                  now w2 = now w1 + 50 /\ abort_flag w2 = true).
    { unfold w2, tick. cbn [abort_in set_now emit]. rewrite A1. cbn.
      rewrite <- app_assoc. auto. }
    destruct Hw2 as (T2 & N2 & F2).
    destruct f as [|f]; [lia|].
    rewrite settle_loop_aborted by (try assumption; lia).
    exists w2. split; [reflexivity|].
    split; [|rewrite N2, N1; lia].
    apply events_since_app. rewrite T2, T1, <- app_assoc.
    rewrite repeat_app. cbn [repeat]. rewrite <- !app_assoc. reflexivity.
  - intros j Hflag Hin Hd.
    destruct (settle_loop_slices j (Z.to_nat duration - j) (now w) duration w)
      as (w1 & E1 & T1 & N1 & F1 & A1 & _); [exact Hflag | rewrite Hin; lia | lia |].
    replace (j + (Z.to_nat duration - j))%nat with (Z.to_nat duration) in E1 by lia.
    rewrite E1. rewrite Hin in A1. cbn [pending_after] in A1. rewrite Nat.sub_diag in A1.
    destruct (Z.to_nat duration - j)%nat as [|f] eqn:Ef; [lia|].
    rewrite settle_loop_slice by (try assumption; lia).
    set (w2 := tick (set_now (now w1 + 50) (emit (EvSleep 50) w1))).
    assert (Hw2 : trace w2 = (trace w1 ++ [EvSleep 50; EvLog "Abort requested!"])%list /\
                  now w2 = now w1 + 50 /\ abort_flag w2 = true).
    { unfold w2, tick. cbn [abort_in set_now emit]. rewrite A1. cbn.
      rewrite <- app_assoc. auto. }
    destruct Hw2 as (T2 & N2 & F2).
    rewrite settle_loop_over by lia.
    exists w2. split; [reflexivity|]. split; [exact F2|].
    apply events_since_app. rewrite T2, T1, <- app_assoc.
    rewrite repeat_app. cbn [repeat]. rewrite <- !app_assoc. reflexivity.
Qed.

Lemma wait_settling_abort_witness :
  let w := set_abort_in (Some 1%nat) (ex_world STATE_ARMED []) in
  abort_flag w = false /\ abort_in w = Some 1%nat /\ 50 * (1 + 1) < SETTLING_TIME_MS /\
  exists w',
    _wait_settling SETTLING_TIME_MS w =
      (Raise (Exn InterruptedError "Sequence aborted by user."), w') /\
    events_since w w' = [EvSleep 50; EvSleep 50; EvLog "Abort requested!"] /\
    now w' = 100.
Proof.
  intros w. split; [reflexivity|]. split; [reflexivity|]. split; [reflexivity|].
  destruct (proj1 (proj2 (proj2 (wait_settling_abort SETTLING_TIME_MS w)))
              1%nat eq_refl eq_refl eq_refl) as (w' & E & V & N).
  exists w'. split; [exact E|]. split; [exact V | exact N].
Defined.

(* ================================================================== *)
(** * Inert actions *)
(* ================================================================== *)

Lemma ctrl_calls_app (a b : list Event) :
  ctrl_calls (a ++ b)%list = (ctrl_calls a ++ ctrl_calls b)%list.
Proof.
  induction a as [|e a IH]; [reflexivity|].
  destruct e; simpl; rewrite ?IH; reflexivity.
Qed.

Lemma replay_app (a b : list (CtrlCall * bool)) (st : SafetyState) :
  replay (a ++ b) st = replay b (replay a st).
Proof. unfold replay. apply fold_left_app. Qed.

Lemma passive_no_calls (d : list Event) :
  forallb passive d = true -> ctrl_calls d = [].
Proof.
  induction d as [|e d IH]; [reflexivity|].
  simpl. intros H. apply andb_prop in H. destruct H as [He Hd].
  destruct e; simpl in *; try discriminate; auto.
Qed.

Lemma tick_delta_passive (w : World) : forallb passive (tick_delta w) = true.
Proof. unfold tick_delta. destruct (abort_in w) as [[|n]|]; reflexivity. Qed.

Lemma inert_ret {A} (a : A) : inert (ret a).
Proof.
  intros w r w' H. inversion H; subst.
  split; [discriminate|]. split; [reflexivity | apply extends_refl].
Qed.

Lemma inert_gets {A} (f : World -> A) : inert (gets f).
Proof.
  intros w r w' H. inversion H; subst.
  split; [discriminate|]. split; [reflexivity | apply extends_refl].
Qed.

Lemma inert_raise {A} (e : exn) : inert (@raise A e).
Proof.
  intros w r w' H. inversion H; subst.
  split; [discriminate|]. split; [reflexivity | apply extends_refl].
Qed.

Lemma inert_log (msg : string) : inert (log msg).
Proof.
  intros w r w' H. inversion H; subst.
  split; [discriminate|]. split; [reflexivity|]. exists [EvLog msg]. auto.
Qed.

Lemma inert_sleep (ms : Z) : inert (sleep ms).
Proof.
  intros w r w' H. inversion H; subst.
  split; [discriminate|]. split; [wsimpl; reflexivity|].
  exists (EvSleep ms :: tick_delta (set_now (now w + ms) (emit (EvSleep ms) w))).
  split; [solve_trace|]. simpl. apply tick_delta_passive.
Qed.

Lemma inert_stop_live : inert cam_stop_live.
Proof.
  intros w r w' H. inversion H; subst.
  split; [discriminate|]. split; [reflexivity|]. exists [EvStopLive]. auto.
Qed.

Lemma inert_check_abort : inert _check_abort.
Proof.
  intros w r w' H. unfold _check_abort, bind, gets in H.
  destruct (abort_flag w); inversion H; subst;
    (split; [discriminate|]); (split; [reflexivity | apply extends_refl]).
Qed.

Lemma inert_bind {A B} (m : M A) (k : A -> M B) :
  inert m -> (forall a, inert (k a)) -> inert (bind m k).
Proof.
  intros Hm Hk w r w' H. unfold bind in H.
  destruct (m w) as [r1 w1] eqn:E1.
  destruct (Hm w r1 w1 E1) as (N1 & C1 & X1).
  destruct r1 as [a|e|];
    [|inversion H; subst; split; [discriminate | split; assumption]|contradiction].
  destruct (Hk a w1 r w' H) as (N2 & C2 & X2).
  split; [exact N2|]. split; [congruence | eapply extends_trans; eassumption].
Qed.

Lemma inert_when (b : bool) (m : M unit) : inert m -> inert (when b m).
Proof. intros H. destruct b; [exact H | apply inert_ret]. Qed.

(** The settling loop, started with enough fuel for the time left. *)
Lemma inert_settle_loop (fuel : nat) :
  forall (start duration : Z) (w : World) r w',
    duration - (now w - start) <= 50 * Z.of_nat fuel ->
    settle_loop fuel start duration w = (r, w') ->
    r <> Diverge /\ ctrl w' = ctrl w /\ extends passive w w'.
Proof.
  induction fuel as [|fuel IH]; intros start duration w r w' Hfuel H.
  - rewrite settle_loop_over in H by lia. inversion H; subst.
    split; [discriminate|]. split; [reflexivity | apply extends_refl].
  - destruct (Z.lt_ge_cases (now w - start) duration) as [Hlt|Hge].
    2:{ rewrite settle_loop_over in H by lia. inversion H; subst.
        split; [discriminate|]. split; [reflexivity | apply extends_refl]. }
    destruct (abort_flag w) eqn:Hflag.
    + rewrite settle_loop_aborted in H by assumption. inversion H; subst.
      split; [discriminate|]. split; [reflexivity | apply extends_refl].
    + rewrite settle_loop_slice in H by assumption.
      destruct (inert_sleep 50 w (Ok tt) _ eq_refl) as (_ & C1 & X1).
      unfold sleep, modify in C1, X1.
      destruct (IH start duration
                  (tick (set_now (now w + 50) (emit (EvSleep 50) w))) r w')
        as (N2 & C2 & X2); [wsimpl; lia | exact H |].
      split; [exact N2|]. split; [congruence | eapply extends_trans; eassumption].
Qed.

Lemma inert_wait_settling (duration : Z) : inert (_wait_settling duration).
Proof.
  intros w r w' H. unfold _wait_settling, bind, gets in H.
  apply (inert_settle_loop (Z.to_nat duration) (now w) duration w r w'); [|exact H].
  destruct (Z.le_gt_cases duration 0); [lia|]. rewrite Z2Nat.id by lia. lia.
Qed.

Ltac inert_step :=
  lazymatch goal with
  | |- inert (ret _) => apply inert_ret
  | |- inert (gets _) => apply inert_gets
  | |- inert (raise _) => apply inert_raise
  | |- inert (log _) => apply inert_log
  | |- inert (sleep _) => apply inert_sleep
  | |- inert cam_stop_live => apply inert_stop_live
  | |- inert _check_abort => apply inert_check_abort
  | |- inert (_wait_settling _) => apply inert_wait_settling
  | |- inert (when _ _) => apply inert_when
  | |- inert (if ?b then _ else _) => destruct b
  | |- inert (bind _ _) => apply inert_bind; [|intros ?]
  end.

Ltac solve_inert := repeat inert_step.

(* ================================================================== *)
(** * Tame actions: what a run adds to the history, and the safety state *)
(* ================================================================== *)



Lemma low_level_no_calls (d : list Event) :
  forallb low_level d = true -> ctrl_calls d = [].
Proof.
  induction d as [|e d IH]; [reflexivity|].
  simpl. intros H. apply andb_prop in H. destruct H as [He Hd].
  destruct e; simpl in *; try discriminate; auto.
Qed.

Lemma resume_events_no_calls (w : World) : ctrl_calls (resume_events w) = [].
Proof. unfold resume_events. destruct (has_resume_live (cam w)); reflexivity. Qed.

Lemma in_writes_of (p : string) (d : list Event) :
  In (EvWrite p) d -> In p (writes_of d).
Proof.
  induction d as [|e d IH]; [contradiction|].
  intros [H|H].
  - subst. left. reflexivity.
  - destruct e; simpl; auto.
Qed.

Lemma run_typed_ctrl_op (c : TypedCommand) : ctrl_op (run_typed c) (call_of c).
Proof.
  destruct c; cbn [run_typed call_of].
  - apply send_command_ctrl_op.
  - apply send_command_ctrl_op.
  - apply send_command_ctrl_op.
  - apply home_ctrl_op.
  - apply reset_ctrl_op.
  - apply emergency_stop_ctrl_op.
Qed.

Lemma replay_call_of (c : TypedCommand) (b : bool) (st : SafetyState) :
  replay [(call_of c, b)] st = state_after c b st.
Proof. destruct c, b; reflexivity. Qed.

(** The history a typed command adds: low-level events, among which the
    writes are lines of its own token, and then its record. *)
Lemma run_typed_record (c : TypedCommand) (w : World) :
  exists b w' d,
    run_typed c w = (Ok b, w') /\
    trace w' = (trace w ++ d ++ [EvCtrl (call_of c) b])%list /\
    forallb low_level d = true /\
    (forall p, In p (writes_of d) -> p = (token_of c ++ LF)%string) /\
    last_state (ctrl w') = state_after c b (last_state (ctrl w)).
Proof.
  destruct (run_typed_ctrl_op c w) as (b & w' & d & E & T & L & _).
  exists b, w', d. split; [exact E|]. split; [exact T|]. split; [exact L|].
  split; [|apply (run_typed_state c w b w' E)].
  pose proof (run_typed_shape c w) as Hshape.
  destruct (refused_locally c (last_state (ctrl w))) eqn:Hloc.
  - rewrite Hshape in E. inversion E; subst b w'. cbn [trace emit] in T.
    rewrite <- !app_assoc in T. apply app_inv_head in T.
    assert (W : writes_of (d ++ [EvCtrl (call_of c) false]) = [])
      by (rewrite <- T; reflexivity).
    rewrite writes_of_app, app_nil_r in W. rewrite W. intros p [].
  - destruct (send_raw_returns (fst (code_of c)) (snd (code_of c)) MAX_RETRIES w)
      as (resp & w1 & d1 & k & E1 & T1 & L1 & W1 & _).
    destruct (Hshape resp w1 E1) as (w2 & d2 & E2 & T2 & W2 & _).
    rewrite E2 in E. inversion E; subst b w2.
    rewrite T2, T1, <- !app_assoc in T. apply app_inv_head in T.
    assert (W : writes_of (d ++ [EvCtrl (call_of c) (accepts c resp)]) =
                repeat (token_of c ++ LF)%string k).
    { rewrite <- T. cbn [app writes_of]. rewrite writes_of_app, W1, W2, app_nil_r.
      reflexivity. }
    rewrite writes_of_app, app_nil_r in W. rewrite W.
    intros p Hp. apply repeat_spec in Hp. exact Hp.
Qed.

Section Tame.

Variable P : Event -> bool.
Hypothesis P_passive : forall e, passive e = true -> P e = true.
Hypothesis P_collab : forall c f, P (EvCollab c f) = true.

Lemma tame_passive (d : list Event) :
  forallb passive d = true -> forallb P d = true.
Proof.
  rewrite !forallb_forall. intros H e He. apply P_passive, H, He.
Qed.

Lemma tame_of_inert {A} (m : M A) : inert m -> tame P m.
Proof.
  intros Hm w r w' H. destruct (Hm w r w' H) as (N & C & d & T & Q).
  split; [exact N|]. exists d. split; [exact T|].
  split; [apply tame_passive; exact Q|].
  rewrite (passive_no_calls d Q), C. reflexivity.
Qed.

Lemma tame_bind {A B} (m : M A) (k : A -> M B) :
  tame P m -> (forall a, tame P (k a)) -> tame P (bind m k).
Proof.
  intros Hm Hk w r w' H. unfold bind in H.
  destruct (m w) as [r1 w1] eqn:E1.
  destruct (Hm w r1 w1 E1) as (N1 & d1 & T1 & P1 & S1).
  destruct r1 as [a|e|];
    [|inversion H; subst; split; [discriminate | eauto]|contradiction].
  destruct (Hk a w1 r w' H) as (N2 & d2 & T2 & P2 & S2).
  split; [exact N2|]. exists (d1 ++ d2)%list.
  split; [rewrite T2, T1, <- app_assoc; reflexivity|].
  split; [rewrite forallb_app, P1, P2; reflexivity|].
  rewrite ctrl_calls_app, replay_app, S2, S1. reflexivity.
Qed.

Lemma tame_when (b : bool) (m : M unit) : tame P m -> tame P (when b m).
Proof. intros H. destruct b; [exact H | apply tame_of_inert, inert_ret]. Qed.

Lemma tame_collab (c : Collab) : tame P (collab_call c).
Proof.
  intros w r w' H.
  assert (Hc : ctrl w' = ctrl w).
  { unfold collab_call in H.
    destruct (collab (tick w)) as [|[e|] rest]; inversion H; subst; wsimpl; reflexivity. }
  destruct (collab_call_cases c w) as (w1 & fault & E & T & _).
  rewrite E in H. inversion H; subst.
  split; [destruct fault; discriminate|].
  eexists. split; [exact T|].
  rewrite forallb_app, (tame_passive _ (tick_delta_passive w)).
  cbn [forallb]. rewrite P_collab. split; [reflexivity|].
  rewrite ctrl_calls_app, (passive_no_calls _ (tick_delta_passive w)), Hc. reflexivity.
Qed.

Lemma tame_set_exposure (us : Z) : tame P (cam_set_exposure us).
Proof.
  unfold cam_set_exposure. apply tame_bind; [apply tame_collab|].
  intros _ w r w' H. inversion H; subst.
  split; [discriminate|]. exists []. simpl. rewrite app_nil_r. auto.
Qed.

(** A typed command is tame for [P] as soon as [P] holds of a transaction
    start, of the line of the command, and of its record. *)
Lemma tame_typed (c : TypedCommand) :
  (forall t, P (EvTransact t) = true) ->
  P (EvWrite (token_of c ++ LF)) = true ->
  (forall b, P (EvCtrl (call_of c) b) = true) ->
  tame P (run_typed c).
Proof.
  intros Pt Pw Pc w r w' H.
  destruct (run_typed_record c w) as (b & w1 & d & E & T & L & W & S).
  rewrite E in H. inversion H; subst r w1.
  split; [discriminate|].
  exists (d ++ [EvCtrl (call_of c) b])%list. split; [exact T|].
  split.
  - rewrite forallb_app. cbn [forallb]. rewrite Pc, andb_true_r.
    apply forallb_forall. intros e He.
    rewrite forallb_forall in L. specialize (L e He).
    destruct e; simpl in L; try discriminate.
    + apply P_passive. reflexivity.
    + apply Pt.
    + rewrite (W _ (in_writes_of _ _ He)). exact Pw.
    + apply P_passive. reflexivity.
  - rewrite ctrl_calls_app, (low_level_no_calls d L). cbn [ctrl_calls app].
    rewrite replay_call_of. exact S.
Qed.


Ltac tame_here :=
  lazymatch goal with
  | H : tame P ?m |- tame P ?m => exact H
  | |- tame P (collab_call _) => apply tame_collab
  | |- tame P (cam_set_exposure _) => apply tame_set_exposure
  | |- tame P (when _ _) => apply tame_when
  | |- tame P (if ?b then _ else _) => destruct b
  | |- tame P (bind _ _) => apply tame_bind; [|intros ?]
  | |- tame P _ => apply tame_of_inert; solve [solve_inert]
  end.

Section Phases.

Variables (save_dir sample_id : string).
Variables (crosspol_exposure_us normal_exposure_us : Z).

Lemma tame_crosspol_loop (dir : string) (angles : list Z) :
  (forall a, In a angles -> tame P (rotate_sample a)) ->
  tame P (crosspol_loop save_dir sample_id crosspol_exposure_us dir angles).
Proof.
  induction angles as [|angle rest IH]; intros Hs; cbn [crosspol_loop].
  - apply tame_of_inert, inert_ret.
  - pose proof (Hs angle (or_introl eq_refl)) as Ha.
    pose proof (IH (fun a Hin => Hs a (or_intror Hin))) as Hrest.
    unfold crosspol_move_sample. repeat tame_here.
Qed.

Lemma tame_normal_loop (dir : string) (angles : list Z) :
  (forall a, In a angles -> tame P (rotate_sample a)) ->
  tame P (normal_loop save_dir sample_id normal_exposure_us dir angles).
Proof.
  induction angles as [|angle rest IH]; intros Hs; cbn [normal_loop].
  - apply tame_of_inert, inert_ret.
  - pose proof (Hs angle (or_introl eq_refl)) as Ha.
    pose proof (IH (fun a Hin => Hs a (or_intror Hin))) as Hrest.
    unfold normal_move_sample. repeat tame_here.
Qed.

Lemma tame_phase_crosspol (dir : string) (angles : list Z) :
  tame P (rotate_polarizer 90) ->
  (forall a, In a angles -> tame P (rotate_sample a)) ->
  tame P (phase_crosspol save_dir sample_id crosspol_exposure_us dir angles).
Proof.
  intros Hp Hs. pose proof (tame_crosspol_loop dir angles Hs) as Hloop.
  unfold phase_crosspol. repeat tame_here.
Qed.

Lemma tame_phase_normal (dir : string) (angles : list Z) :
  tame P (rotate_polarizer 0) ->
  (forall a, In a angles -> tame P (rotate_sample a)) ->
  tame P (phase_normal save_dir sample_id normal_exposure_us dir angles).
Proof.
  intros Hp Hs. pose proof (tame_normal_loop dir angles Hs) as Hloop.
  unfold phase_normal. repeat tame_here.
Qed.

(** The [try] body of a run. *)
Lemma tame_run_body (angles : list Z) (do_crosspol do_normal : bool) :
  tame P reset -> tame P home ->
  tame P (rotate_polarizer 90) -> tame P (rotate_polarizer 0) ->
  (forall a, In a angles -> tame P (rotate_sample a)) ->
  tame P (run_body save_dir sample_id crosspol_exposure_us normal_exposure_us
            angles do_crosspol do_normal).
Proof.
  intros Hreset Hhome Hp90 Hp0 Hs.
  pose proof (tame_phase_crosspol
                (path_join (path_join save_dir sample_id) "crosspol") angles Hp90 Hs) as H1.
  pose proof (tame_phase_normal
                (path_join (path_join save_dir sample_id) "normal") angles Hp0 Hs) as H2.
  unfold run_body. cbv zeta. repeat tame_here.
Qed.

(** The whole run: the body, the error handler with its emergency stop, and
    the resume of the live preview. *)
Lemma tame_run_sequence (sample_angles : option (list Z)) (do_crosspol do_normal : bool) :
  P EvResumeLive = true ->
  tame P reset -> tame P home -> tame P emergency_stop ->
  tame P (rotate_polarizer 90) -> tame P (rotate_polarizer 0) ->
  (forall a, In a (angles_of sample_angles) -> tame P (rotate_sample a)) ->
  tame P (run_sequence save_dir sample_id crosspol_exposure_us normal_exposure_us
            sample_angles do_crosspol do_normal).
Proof.
  intros Pr Hreset Hhome Hstop Hp90 Hp0 Hs w r w' Hrun.
  destruct (do_crosspol || do_normal) eqn:Hmode.
  2:{ unfold run_sequence in Hrun. rewrite Hmode in Hrun. cbn [negb] in Hrun.
      inversion Hrun; subst. split; [discriminate|].
      exists []. cbn. rewrite app_nil_r. auto. }
  rewrite run_sequence_unfold in Hrun by exact Hmode.
  destruct (run_body save_dir sample_id crosspol_exposure_us normal_exposure_us
              (angles_of sample_angles) do_crosspol do_normal (set_abort_flag false w))
    as [rb w1] eqn:Hb.
  destruct (tame_run_body (angles_of sample_angles) do_crosspol do_normal
              Hreset Hhome Hp90 Hp0 Hs _ _ _ Hb) as (N1 & d1 & T1 & P1 & S1).
  cbn [trace ctrl set_abort_flag] in T1, S1.
  assert (Hh : tame P (run_handlers rb)).
  { destruct rb as [[]|e|]; [apply tame_of_inert, inert_ret | | contradiction].
    unfold run_handlers. destruct (is_InterruptedError e); repeat tame_here. }
  destruct (run_handlers rb w1) as [r2 w2] eqn:Hh2.
  destruct (Hh w1 r2 w2 Hh2) as (N2 & d2 & T2 & P2 & S2).
  assert (Hf : tame P run_finally).
  { unfold run_finally. apply tame_bind; [apply tame_of_inert, inert_gets|].
    intros [|]; cbn [when]; [|apply tame_of_inert, inert_ret].
    intros v rv v' Hv. inversion Hv; subst. split; [discriminate|].
    exists [EvResumeLive]. cbn. rewrite Pr. auto. }
  destruct (run_finally w2) as [r3 w3] eqn:Hf3.
  destruct (Hf w2 r3 w3 Hf3) as (N3 & d3 & T3 & P3 & S3).
  assert (Hres : r = match r3 with Ok _ => r2 | _ => r3 end /\ w' = w3).
  { destruct r2 as [[]|e2|]; [| |contradiction];
      destruct r3 as [[]|e3|]; inversion Hrun; subst; auto. }
  destruct Hres as [Hr Hw]. subst w'.
  split.
  - rewrite Hr. destruct r3 as [[]|e3|]; [exact N2 | discriminate | contradiction].
  - exists (d1 ++ d2 ++ d3)%list.
    split; [rewrite T3, T2, T1, <- !app_assoc; reflexivity|].
    split; [rewrite !forallb_app, P1, P2, P3; reflexivity|].
    rewrite !ctrl_calls_app, !replay_app, S3, S2, S1. reflexivity.
Qed.

End Phases.

End Tame.











Section CallsOfTheBody.

Variables (save_dir sample_id : string).
Variables (crosspol_exposure_us normal_exposure_us : Z).






End CallsOfTheBody.



(* ================================================================== *)
(** * SequenceOrchestrator: the poses of a run, by the phases enabled *)
(* ================================================================== *)

Section PosesByMode.

Variables (save_dir sample_id : string).
Variables (crosspol_exposure_us normal_exposure_us : Z).

Ltac calm_mode :=
  repeat lazymatch goal with
         | |- calm (phase_crosspol _ _ _ _ _) => apply calm_phase_crosspol
         | |- calm (phase_normal _ _ _ _ _) => apply calm_phase_normal
         | |- _ => calm_step
         end.

Ltac yields_mode_leaf :=
  lazymatch goal with
  | |- yields (phase_crosspol _ _ _ _ _) _ => apply yields_phase_crosspol
  | |- yields (phase_normal _ _ _ _ _) _ => apply yields_phase_normal
  | |- _ => yields_leaf
  end.

Ltac ymode :=
  eapply yields_seq; [solve [calm_mode] | solve [calm_mode] | yields_mode_leaf |].

(** The pose events of the [try] body, whatever phases are enabled. *)
Lemma yields_run_body_of (angles : list Z) (do_crosspol do_normal : bool) :
  yields (run_body save_dir sample_id crosspol_exposure_us normal_exposure_us
            angles do_crosspol do_normal)
         (expected_poses_of save_dir sample_id crosspol_exposure_us normal_exposure_us
            angles do_crosspol do_normal).
Proof.
  unfold run_body. cbv zeta.
  destruct do_crosspol, do_normal; cbn [when];
    (eapply yields_eq; cycle 1;
     [ ymode; apply yields_connected_then;
       ymode; ymode;
       apply yields_gets_then; intros can_stop;
       ymode; ymode;
       eapply yields_guard_then;
         [apply calm_reset | apply calm_raise | solve [calm_mode] | apply acks_reset |];
       ymode; ymode; ymode; ymode;
       apply yields_of_plain, plain_ret
     | unfold expected_poses_of; simpl; rewrite ?app_nil_r; reflexivity ]).
Qed.

End PosesByMode.

Lemma expected_poses_of_counts (save_dir sample_id : string)
    (crosspol_exposure_us normal_exposure_us : Z) (angles : list Z)
    (do_crosspol do_normal : bool) :
  let V := expected_poses_of save_dir sample_id crosspol_exposure_us normal_exposure_us
             angles do_crosspol do_normal in
  let phases := ((if do_crosspol then 1 else 0) + (if do_normal then 1 else 0))%nat in
  List.length (filter is_capture V) = (phases * List.length angles)%nat /\
  List.length (filter is_log_record V) = (phases * List.length angles)%nat.
Proof.
  unfold expected_poses_of.
  destruct do_crosspol, do_normal; cbn zeta; split;
    rewrite ?filter_app, ?length_app; cbn [filter is_capture is_log_record List.length];
    rewrite ?flat_map_count by reflexivity; simpl; lia.
Qed.

(** X18.  The poses of a run, by the phases enabled.  For every run of a
    connected controller with at least one phase enabled, with the given
    angles or, when none are given, the default ones (90, 60, 45, 30, 0), in
    which every controller operation returns [True], no collaborator call
    raises and nobody requests an abort: the run completes, and its
    polarizer moves, captures and log records are those of the enabled
    phases only, Crosspol before Normal: a phase that is not enabled moves
    nothing and captures nothing.  With [N] angles that is [N] captures per
    enabled phase. *)
Theorem run_poses_by_mode
    (save_dir sample_id : string) (crosspol_exposure_us normal_exposure_us : Z)
    (sample_angles : option (list Z)) (do_crosspol do_normal : bool)
    (w : World) (r : Outcome unit) (w' : World) :
  do_crosspol || do_normal = true ->
  is_connected (ctrl w) = true ->
  run_sequence save_dir sample_id crosspol_exposure_us normal_exposure_us
    sample_angles do_crosspol do_normal w = (r, w') ->
  forallb ev_ok (events_since w w') = true ->
  abort_flag w' = false ->
  r = Ok tt /\
  pose_view (events_since w w') =
    expected_poses_of save_dir sample_id crosspol_exposure_us normal_exposure_us
      (angles_of sample_angles)
      do_crosspol do_normal /\
  List.length (filter is_capture (events_since w w')) =
    (((if do_crosspol then 1 else 0) + (if do_normal then 1 else 0)) *
     List.length (angles_of sample_angles))%nat.
Proof.
  intros Hmode Hc Hrun Hok Hf.
  destruct (run_body save_dir sample_id crosspol_exposure_us normal_exposure_us
              (angles_of sample_angles) do_crosspol do_normal (set_abort_flag false w))
    as [rb w1] eqn:Hb.
  destruct (calm_run_body save_dir sample_id crosspol_exposure_us normal_exposure_us
              (angles_of sample_angles) do_crosspol do_normal _ _ _ Hb)
    as (Hnd & S & d_body & Tb & Qb).
  simpl in Tb.
  assert (Hbody : forall d_rest,
             events_since w w' = (d_body ++ d_rest)%list ->
             (abort_flag w1 = true -> abort_flag w' = true) ->
             rb = Ok tt /\
             pose_view d_body =
               expected_poses_of save_dir sample_id crosspol_exposure_us
                 normal_exposure_us (angles_of sample_angles) do_crosspol do_normal).
  { intros d_rest Hd Hmono.
    rewrite Hd, forallb_app in Hok. apply andb_prop in Hok. destruct Hok as [Hok1 _].
    assert (Hf1 : abort_flag w1 = false).
    { destruct (abort_flag w1); [|reflexivity].
      rewrite (Hmono eq_refl) in Hf. discriminate. }
    destruct (yields_run_body_of save_dir sample_id crosspol_exposure_us normal_exposure_us
                (angles_of sample_angles) do_crosspol do_normal
                (set_abort_flag false w) rb w1 d_body Hc Hb Tb Hok1 Hf1)
      as ([] & E & V).
    auto. }
  assert (Hres : resume_events w1 = resume_events w).
  { unfold resume_events. destruct S as (_ & _ & _ & S4 & _). rewrite S4. reflexivity. }
  destruct rb as [[]|e0|]; [| |contradiction].
  - destruct (run_sequence_done save_dir sample_id crosspol_exposure_us
                normal_exposure_us sample_angles do_crosspol do_normal Hmode w w1 Hb)
      as (w'' & E & T & F).
    rewrite E in Hrun. inversion Hrun; subst r w''.
    assert (Hd : events_since w w' = (d_body ++ resume_events w)%list).
    { apply events_since_app. rewrite T, Tb, Hres, <- app_assoc. reflexivity. }
    destruct (Hbody _ Hd) as (_ & V); [rewrite F; auto|].
    assert (HV : pose_view (events_since w w') =
                 expected_poses_of save_dir sample_id crosspol_exposure_us
                   normal_exposure_us (angles_of sample_angles) do_crosspol do_normal).
    { rewrite Hd, pose_view_app, resume_events_no_pose, app_nil_r. exact V. }
    split; [reflexivity|]. split; [exact HV|].
    rewrite <- filter_capture_pose_view, HV.
    apply expected_poses_of_counts.
  - exfalso. destruct (is_InterruptedError e0) eqn:He0.
    + destruct (run_sequence_aborted save_dir sample_id crosspol_exposure_us
                  normal_exposure_us sample_angles do_crosspol do_normal Hmode w w1 e0 Hb He0)
        as (w'' & E & T & F).
      rewrite E in Hrun. inversion Hrun; subst r w''.
      destruct (Hbody (EvLog "Sequence Aborted!" :: resume_events w)) as (Habs & _);
        [apply events_since_app; rewrite T, Tb, Hres, <- app_assoc; reflexivity
        | rewrite F; auto | discriminate Habs].
    + destruct (run_sequence_failed save_dir sample_id crosspol_exposure_us
                  normal_exposure_us sample_angles do_crosspol do_normal Hmode w w1 e0 Hb He0)
        as (w'' & d_stop & stopped & E & T & L & F).
      rewrite E in Hrun. inversion Hrun; subst r w''.
      destruct (Hbody ([EvLog ("Sequence Error: " ++ exn_msg e0);
                        EvLog "Emergency Stop Triggered due to Error."] ++
                       d_stop ++ [EvCtrl EmergencyStop stopped] ++ resume_events w)%list)
        as (Habs & _);
        [apply events_since_app; rewrite T, Tb, Hres, <- !app_assoc; reflexivity
        | exact F | discriminate Habs].
Qed.

Lemma run_poses_by_mode_witness :
  let w := ex_world STATE_LATCHED (ex_acks 8 []) in
  let r := run_sequence "data" "s1" 100 200 None false true w in
  false || true = true /\
  is_connected (ctrl w) = true /\
  forallb ev_ok (events_since w (snd r)) = true /\
  abort_flag (snd r) = false /\
  fst r = Ok tt /\
  pose_view (events_since w (snd r)) =
    (EvCtrl (SendCommand CMD_POLARIZER 0) true ::
     flat_map (normal_pose "data" "s1" 200) [90; 60; 45; 30; 0]) /\
  List.length (filter is_capture (events_since w (snd r))) = 5%nat.
Proof.
  intros w r.
  assert (Hok : forallb ev_ok (events_since w (snd r)) = true) by (vm_compute; reflexivity).
  assert (Hf : abort_flag (snd r) = false) by (vm_compute; reflexivity).
  split; [reflexivity|]. split; [reflexivity|]. split; [exact Hok|]. split; [exact Hf|].
  destruct (run_poses_by_mode "data" "s1" 100 200 None false true w (fst r) (snd r)
              eq_refl eq_refl (surjective_pairing r) Hok Hf) as (E & V & C).
  split; [exact E|]. split; [exact V | exact C].
Defined.

(* ================================================================== *)
(** * SequenceOrchestrator: runs that do not start *)
(* ================================================================== *)

Section RunsThatDoNotStart.

Variables (save_dir sample_id : string).
Variables (crosspol_exposure_us normal_exposure_us : Z).

(** The [try] body when the controller is not connected. *)
Lemma run_body_not_connected (angles : list Z) (do_crosspol do_normal : bool) (w : World) :
  is_connected (ctrl w) = false ->
  run_body save_dir sample_id crosspol_exposure_us normal_exposure_us
    angles do_crosspol do_normal w =
  (Raise (Exn RuntimeError "Controller not connected."),
   emit (EvLog "Starting Sequence...") w).
Proof.
  intros H. unfold run_body. cbv zeta.
  unfold bind at 1. unfold log at 1, modify at 1.
  unfold bind at 1. unfold gets at 1. cbn [ctrl emit]. rewrite H.
  reflexivity.
Qed.

End RunsThatDoNotStart.

Lemma emergency_stop_closed (w : World) :
  ser_is_open (ctrl w) = false ->
  emergency_stop w =
  (Ok false, emit (EvCtrl EmergencyStop false) (emit (EvTransact "99000") w)).
Proof.
  intros H. unfold emergency_stop. unfold bind at 1.
  rewrite (send_raw_not_open CMD_ESTOP 0 MAX_RETRIES w H). reflexivity.
Qed.

(** X19.  The two refusals of [run_sequence].  (1) With no phase enabled it
    raises [RuntimeError] before the [try] statement: the abort flag has
    been cleared and nothing else has happened, neither an emergency stop
    nor a resume of the live preview.  (2) With a phase enabled and the
    controller not connected it raises [RuntimeError] from inside the [try]
    statement: no directory is made and no operation other than the
    emergency stop of the error handler is called, and the live preview is
    resumed.  (3) If moreover the line is not open, that emergency stop
    returns [False] and nothing is written. *)
Theorem run_refused
    (save_dir sample_id : string) (crosspol_exposure_us normal_exposure_us : Z)
    (sample_angles : option (list Z)) (w : World) :
  run_sequence save_dir sample_id crosspol_exposure_us normal_exposure_us
    sample_angles false false w =
    (Raise (Exn RuntimeError "No modes enabled for sequence."), set_abort_flag false w) /\
  (forall do_crosspol do_normal,
      do_crosspol || do_normal = true ->
      is_connected (ctrl w) = false ->
      exists w' d_stop stopped,
        run_sequence save_dir sample_id crosspol_exposure_us normal_exposure_us
          sample_angles do_crosspol do_normal w =
          (Raise (Exn RuntimeError "Controller not connected."), w') /\
        events_since w w' =
          ([EvLog "Starting Sequence...";
            EvLog "Sequence Error: Controller not connected.";
            EvLog "Emergency Stop Triggered due to Error."] ++
           d_stop ++ [EvCtrl EmergencyStop stopped] ++ resume_events w)%list /\
        forallb low_level d_stop = true) /\
  (forall do_crosspol do_normal,
      do_crosspol || do_normal = true ->
      is_connected (ctrl w) = false ->
      ser_is_open (ctrl w) = false ->
      exists w',
        run_sequence save_dir sample_id crosspol_exposure_us normal_exposure_us
          sample_angles do_crosspol do_normal w =
          (Raise (Exn RuntimeError "Controller not connected."), w') /\
        events_since w w' =
          ([EvLog "Starting Sequence...";
            EvLog "Sequence Error: Controller not connected.";
            EvLog "Emergency Stop Triggered due to Error.";
            EvTransact "99000";
            EvCtrl EmergencyStop false] ++ resume_events w)%list /\
        writes_of (events_since w w') = []).
Proof.
  split; [reflexivity|]. split.
  - intros do_crosspol do_normal Hmode Hc.
    pose proof (run_body_not_connected save_dir sample_id crosspol_exposure_us
                  normal_exposure_us (angles_of sample_angles) do_crosspol do_normal
                  (set_abort_flag false w) Hc) as Hb.
    destruct (run_sequence_failed save_dir sample_id crosspol_exposure_us
                normal_exposure_us sample_angles do_crosspol do_normal Hmode w _ _ Hb eq_refl)
      as (w' & d_stop & stopped & E & T & L & _).
    cbn [trace emit set_abort_flag exn_msg] in T.
    change (resume_events (emit (EvLog "Starting Sequence...") (set_abort_flag false w)))
      with (resume_events w) in T.
    exists w', d_stop, stopped.
    split; [exact E|]. split; [|exact L].
    apply events_since_app. rewrite T, <- !app_assoc. reflexivity.
  - intros do_crosspol do_normal Hmode Hc Hopen.
    pose proof (run_body_not_connected save_dir sample_id crosspol_exposure_us
                  normal_exposure_us (angles_of sample_angles) do_crosspol do_normal
                  (set_abort_flag false w) Hc) as Hb.
    rewrite run_sequence_unfold by exact Hmode. rewrite Hb.
    unfold run_handlers. cbn [is_InterruptedError exn_class exn_msg].
    unfold bind at 1. unfold log at 1, modify at 1.
    unfold bind at 1. unfold log at 1, modify at 1.
    unfold bind at 1. rewrite emergency_stop_closed by exact Hopen.
    unfold raise.
    match goal with
    | |- context [run_finally ?x] =>
        destruct (run_finally_spec x) as (w3 & E3 & T3 & _); rewrite E3
    end.
    exists w3. split; [reflexivity|].
    assert (Ev : events_since w w3 =
                 ([EvLog "Starting Sequence...";
                   EvLog "Sequence Error: Controller not connected.";
                   EvLog "Emergency Stop Triggered due to Error.";
                   EvTransact "99000";
                   EvCtrl EmergencyStop false] ++ resume_events w)%list).
    { apply events_since_app. rewrite T3. cbn -[append].
      rewrite <- !app_assoc. reflexivity. }
    split; [exact Ev|]. rewrite Ev, writes_of_app. unfold resume_events.
    destruct (has_resume_live (cam w)); reflexivity.
Qed.

Lemma run_refused_witness :
  let w := ex_world_unconnected STATE_LATCHED in
  true || true = true /\ is_connected (ctrl w) = false /\ ser_is_open (ctrl w) = false /\
  exists w',
    run_sequence "data" "s1" 100 200 None true true w =
      (Raise (Exn RuntimeError "Controller not connected."), w') /\
    writes_of (events_since w w') = [].
Proof.
  intros w. split; [reflexivity|]. split; [reflexivity|]. split; [reflexivity|].
  destruct (proj2 (proj2 (run_refused "data" "s1" 100 200 None w))
              true true eq_refl eq_refl eq_refl) as (w' & E & _ & W).
  exists w'. split; [exact E | exact W].
Defined.

(* ================================================================== *)
(** * SequenceOrchestrator: abort() before a run, and the retry of a move *)
(* ================================================================== *)

(** X20.  A call of [abort()] that comes before the run starts is lost:
    [run_sequence] clears the flag first, so the run that follows is the
    run of the same world with the flag clear (and the log line of the
    request in its history); the next check of the flag passes. *)
Theorem abort_before_run_is_lost
    (save_dir sample_id : string) (crosspol_exposure_us normal_exposure_us : Z)
    (sample_angles : option (list Z)) (do_crosspol do_normal : bool) (w : World) :
  (exists w1, abort w = (Ok tt, w1) /\ abort_flag w1 = true /\
              exists e, _check_abort w1 = (Raise e, w1) /\ is_InterruptedError e = true) /\
  bind abort (fun _ =>
    run_sequence save_dir sample_id crosspol_exposure_us normal_exposure_us
      sample_angles do_crosspol do_normal) w =
  run_sequence save_dir sample_id crosspol_exposure_us normal_exposure_us
    sample_angles do_crosspol do_normal (emit (EvLog "Abort requested!") w).
Proof.
  split.
  - eexists. split; [reflexivity|]. split; [reflexivity|].
    eexists. split; reflexivity.
  - reflexivity.
Qed.

(** X21.  The retry of a sample move, in every world.  When [rotate_sample]
    returns [False], the Normal loop raises at once, in the world the failed
    move left; the Crosspol loop logs the error and calls [rotate_sample]
    once more, and that second result decides: [True] lets the loop go on,
    [False] raises the same error.  The Crosspol move therefore runs two
    transactions of the sample token where the Normal move runs one. *)
Theorem sample_move_retry (angle : Z) (w w1 : World) :
  rotate_sample angle w = (Ok false, w1) ->
  normal_move_sample angle w =
    (Raise (Exn RuntimeError ("Failed moving sample to " ++ PyStr.str angle)), w1) /\
  transactions_of (events_since w w1) = [token_of (TRotateSample angle)] /\
  exists ok2 w2,
    rotate_sample angle
      (emit (EvLog ("Error moving sample to " ++ PyStr.str angle ++ ". Retrying once..."))
         w1) = (Ok ok2, w2) /\
    crosspol_move_sample angle w =
      ((if ok2 then Ok tt
        else Raise (Exn RuntimeError ("Failed moving sample to " ++ PyStr.str angle))),
       w2) /\
    transactions_of (events_since w w2) =
      [token_of (TRotateSample angle); token_of (TRotateSample angle)].
Proof.
  intros H1.
  split; [apply normal_move_sample_fails_at_once; exact H1|].
  set (w1' := emit (EvLog ("Error moving sample to " ++ PyStr.str angle
                           ++ ". Retrying once...")) w1).
  assert (Hx : forall v v' b, rotate_sample angle v = (Ok b, v') ->
                 exists d, trace v' = (trace v ++ d)%list /\
                           transactions_of d = [token_of (TRotateSample angle)]).
  { intros v v' b Hv.
    destruct (send_raw_returns CMD_SAMPLE angle MAX_RETRIES v)
      as (resp & v1 & d & k & E & T & L & _).
    pose proof (run_typed_shape (TRotateSample angle) v) as Hshape.
    cbn [refused_locally code_of fst snd run_typed] in Hshape.
    destruct (Hshape resp v1 E) as (v2 & d' & E' & T' & _ & X' & _).
    rewrite E' in Hv. inversion Hv; subst v2.
    exists ((EvTransact (token_of (TRotateSample angle)) :: d) ++ d')%list.
    split; [rewrite T', T, <- app_assoc; reflexivity|].
    rewrite transactions_of_app. cbn [transactions_of].
    rewrite (loop_level_no_transactions d L), X'. reflexivity. }
  destruct (Hx w w1 false H1) as (d1 & T1 & X1).
  split; [rewrite (events_since_app w w1 d1 T1); exact X1|].
  destruct (send_command_ctrl_op CMD_SAMPLE angle w1') as (ok2 & w2 & d & E2 & _).
  change (send_command CMD_SAMPLE angle) with (rotate_sample angle) in E2.
  exists ok2, w2. split; [exact E2|].
  split; [apply (crosspol_move_sample_retries_once angle w w1 w2 ok2 H1 E2)|].
  destruct (Hx w1' w2 ok2 E2) as (d2 & T2 & X2).
  rewrite (events_since_app w w2
             (d1 ++ [EvLog ("Error moving sample to " ++ PyStr.str angle
                             ++ ". Retrying once...")] ++ d2)).
  - rewrite !transactions_of_app, X1, X2. reflexivity.
  - rewrite T2. unfold w1'. cbn [trace emit]. rewrite T1, <- !app_assoc. reflexivity.
Qed.

Lemma sample_move_retry_witness :
  let w := ex_world STATE_ARMED [RxLine "ERR BUSY"; RxLine ("OK 11 045" ++ LF)] in
  exists w1,
    rotate_sample 45 w = (Ok false, w1) /\
    fst (normal_move_sample 45 w) = Raise (Exn RuntimeError "Failed moving sample to 45") /\
    fst (crosspol_move_sample 45 w) = Ok tt.
Proof.
  intros w. exists (snd (rotate_sample 45 w)).
  destruct (sample_move_retry 45 w (snd (rotate_sample 45 w)) eq_refl)
    as (En & _ & ok2 & w2 & E2 & Ec & _).
  split; [reflexivity|]. split; [rewrite En; reflexivity|].
  rewrite Ec.
  assert (Hok : ok2 = true) by (vm_compute in E2; congruence).
  rewrite Hok. reflexivity.
Defined.

(* ================================================================== *)
(** * SequenceOrchestrator: the safety state after a run, the lines on the wire *)
(* ================================================================== *)

Lemma everything_passive (e : Event) : passive e = true -> (fun _ : Event => true) e = true.
Proof. reflexivity. Qed.

Lemma tame_any_typed (c : TypedCommand) : tame (fun _ => true) (run_typed c).
Proof. apply tame_typed; intros; reflexivity. Qed.

Lemma replay_unacknowledged (calls : list (CtrlCall * bool)) (st : SafetyState) :
  ~ In (Reset, true) calls -> ~ In (EmergencyStop, true) calls ->
  replay calls st = st.
Proof.
  revert st. induction calls as [|[c b] calls IH]; intros st Hr He; [reflexivity|].
  unfold replay in *. cbn [fold_left].
  destruct c, b;
    try (apply IH; intros Hin; [apply Hr | apply He]; right; exact Hin);
    exfalso; first [apply He; left; reflexivity | apply Hr; left; reflexivity].
Qed.

Lemma replay_armed (calls : list (CtrlCall * bool)) (st : SafetyState) :
  In (Reset, true) calls -> ~ In (EmergencyStop, true) calls ->
  replay calls st = STATE_ARMED.
Proof.
  revert st. induction calls as [|[c b] calls IH]; intros st Hr He; [contradiction|].
  unfold replay in *. cbn [fold_left].
  assert (He' : ~ In (EmergencyStop, true) calls) by (intros Hin; apply He; right; exact Hin).
  destruct (in_dec (fun x y : CtrlCall * bool =>
                      ltac:(decide equality; [apply Bool.bool_dec
                                              | decide equality; apply Z.eq_dec]))
                   (Reset, true) calls) as [Hin|Hnin].
  - apply IH; assumption.
  - destruct Hr as [Heq|Hin]; [|contradiction].
    inversion Heq; subst. apply (replay_unacknowledged calls STATE_ARMED Hnin He').
Qed.

Lemma quiet_no_acknowledged_stop (d : list Event) :
  forallb quiet d = true -> ~ In (EmergencyStop, true) (ctrl_calls d).
Proof.
  induction d as [|e d IH]; [intros _ []|].
  simpl. intros H. apply andb_prop in H. destruct H as [He Hd].
  destruct e as [| | | |c ok| | |]; simpl; auto.
  intros [Heq|Hin]; [|exact (IH Hd Hin)].
  inversion Heq; subst. discriminate He.
Qed.

(** X22.  The safety state after a run, in every world.  The state the
    controller holds when [run_sequence] ends is the state it held before,
    replayed through the controller operations of the run: an acknowledged
    RESET arms, an acknowledged emergency stop latches, nothing else changes
    it.  So: if the emergency stop of a failed run was acknowledged, the
    state is Latched; if the RESET was acknowledged and no emergency stop
    was (the run completed, or was aborted after the RESET, or failed and
    its emergency stop failed too), the state is Armed; if neither was
    acknowledged, the state is what it was. *)
Theorem run_safety_state
    (save_dir sample_id : string) (crosspol_exposure_us normal_exposure_us : Z)
    (sample_angles : option (list Z)) (do_crosspol do_normal : bool)
    (w : World) (r : Outcome unit) (w' : World) :
  run_sequence save_dir sample_id crosspol_exposure_us normal_exposure_us
    sample_angles do_crosspol do_normal w = (r, w') ->
  last_state (ctrl w') =
    replay (ctrl_calls (events_since w w')) (last_state (ctrl w)) /\
  (In (EmergencyStop, true) (ctrl_calls (events_since w w')) ->
   last_state (ctrl w') = STATE_LATCHED) /\
  (In (Reset, true) (ctrl_calls (events_since w w')) ->
   ~ In (EmergencyStop, true) (ctrl_calls (events_since w w')) ->
   last_state (ctrl w') = STATE_ARMED) /\
  (~ In (Reset, true) (ctrl_calls (events_since w w')) ->
   ~ In (EmergencyStop, true) (ctrl_calls (events_since w w')) ->
   last_state (ctrl w') = last_state (ctrl w)).
Proof.
  intros Hrun.
  assert (Hreplay : last_state (ctrl w') =
                    replay (ctrl_calls (events_since w w')) (last_state (ctrl w))).
  { destruct (tame_run_sequence (fun _ => true) everything_passive
                ltac:(intros; reflexivity)
                save_dir sample_id crosspol_exposure_us normal_exposure_us
                sample_angles do_crosspol do_normal eq_refl
                (tame_any_typed TReset) (tame_any_typed THome)
                (tame_any_typed TEmergencyStop)
                (tame_any_typed (TRotatePolarizer 90))
                (tame_any_typed (TRotatePolarizer 0))
                (fun a _ => tame_any_typed (TRotateSample a))
                w r w' Hrun) as (_ & d & T & _ & S).
    rewrite (events_since_app w w' d T). exact S. }
  split; [exact Hreplay|].
  split; [|split].
  2:{ intros Hr He. rewrite Hreplay. apply replay_armed; assumption. }
  2:{ intros Hr He. rewrite Hreplay. apply replay_unacknowledged; assumption. }
  intros Hin. rewrite Hreplay.
  destruct (do_crosspol || do_normal) eqn:Hmode.
  2:{ unfold run_sequence in Hrun. rewrite Hmode in Hrun. cbn [negb] in Hrun.
      inversion Hrun; subst.
      rewrite (events_since_app w (set_abort_flag false w) []) in Hin
        by (cbn; rewrite app_nil_r; reflexivity).
      contradiction. }
  destruct (run_body save_dir sample_id crosspol_exposure_us normal_exposure_us
              (angles_of sample_angles) do_crosspol do_normal (set_abort_flag false w))
    as [rb w1] eqn:Hb.
  destruct (calm_run_body save_dir sample_id crosspol_exposure_us normal_exposure_us
              (angles_of sample_angles) do_crosspol do_normal _ _ _ Hb)
    as (Hnd & _ & d_body & Tb & Qb).
  cbn [trace set_abort_flag] in Tb.
  pose proof (quiet_no_acknowledged_stop d_body Qb) as Hbody.
  destruct rb as [[]|e|]; [| |contradiction].
  - exfalso.
    destruct (run_sequence_done save_dir sample_id crosspol_exposure_us
                normal_exposure_us sample_angles do_crosspol do_normal Hmode w w1 Hb)
      as (w'' & E & T & _).
    rewrite E in Hrun. inversion Hrun; subst r w''.
    rewrite (events_since_app w w' (d_body ++ resume_events w1)) in Hin
      by (rewrite T, Tb, <- app_assoc; reflexivity).
    rewrite ctrl_calls_app, resume_events_no_calls, app_nil_r in Hin.
    exact (Hbody Hin).
  - destruct (is_InterruptedError e) eqn:He.
    + exfalso.
      destruct (run_sequence_aborted save_dir sample_id crosspol_exposure_us
                  normal_exposure_us sample_angles do_crosspol do_normal Hmode w w1 e Hb He)
        as (w'' & E & T & _).
      rewrite E in Hrun. inversion Hrun; subst r w''.
      rewrite (events_since_app w w' (d_body ++ EvLog "Sequence Aborted!" :: resume_events w1))
        in Hin by (rewrite T, Tb, <- app_assoc; reflexivity).
      rewrite ctrl_calls_app in Hin. cbn [ctrl_calls] in Hin.
      rewrite resume_events_no_calls, app_nil_r in Hin.
      exact (Hbody Hin).
    + destruct (run_sequence_failed save_dir sample_id crosspol_exposure_us
                  normal_exposure_us sample_angles do_crosspol do_normal Hmode w w1 e Hb He)
        as (w'' & d_stop & stopped & E & T & L & _).
      rewrite E in Hrun. inversion Hrun; subst r w''.
      rewrite (events_since_app w w'
                 (d_body ++ [EvLog ("Sequence Error: " ++ exn_msg e);
                             EvLog "Emergency Stop Triggered due to Error."] ++
                  d_stop ++ [EvCtrl EmergencyStop stopped] ++ resume_events w1)) in *
        by (rewrite T, Tb, <- !app_assoc; reflexivity).
      rewrite !ctrl_calls_app, (low_level_no_calls d_stop L), resume_events_no_calls in *.
      cbn [ctrl_calls app] in *.
      apply in_app_or in Hin. destruct Hin as [Hin|[Heq|[]]]; [contradiction (Hbody Hin)|].
      inversion Heq; subst stopped.
      rewrite replay_app. reflexivity.
Qed.

Lemma run_safety_state_witness :
  let w := ex_world STATE_LATCHED
             (ex_acks 2 [RxLine "ERR JAM"; RxLine ("OK ESTOP" ++ LF)]) in
  let r := run_sequence "data" "s1" 100 200 (Some [45]) false true w in
  In (EmergencyStop, true) (ctrl_calls (events_since w (snd r))) /\
  last_state (ctrl (snd r)) = STATE_LATCHED.
Proof.
  intros w r.
  assert (Hin : In (EmergencyStop, true) (ctrl_calls (events_since w (snd r))))
    by (vm_compute; tauto).
  split; [exact Hin|].
  exact (proj1 (proj2 (run_safety_state "data" "s1" 100 200 (Some [45]) false true
                         w (fst r) (snd r) (surjective_pairing r))) Hin).
Defined.

Lemma wire_ok_writes (d : list Event) :
  forallb wire_ok d = true -> forallb is_wire_line (writes_of d) = true.
Proof.
  induction d as [|e d IH]; [reflexivity|].
  simpl. intros H. apply andb_prop in H. destruct H as [He Hd].
  destruct e; simpl in *; auto. rewrite He, (IH Hd). reflexivity.
Qed.

Lemma wire_ok_passive (e : Event) : passive e = true -> wire_ok e = true.
Proof. destruct e; simpl; congruence. Qed.

Lemma wire_line_in_range (pp aaa : Z) :
  0 <= pp <= 99 -> 0 <= aaa <= 999 ->
  is_wire_line ((PyStr.format_0d 2 pp ++ PyStr.format_0d 3 aaa) ++ LF) = true.
Proof.
  intros Hp Ha.
  rewrite format_02d_in_range, format_03d_in_range by assumption.
  cbn [append is_wire_line LF].
  assert (Q1 : 0 <= pp / 10 < 10)
    by (split; [apply Z.div_pos | apply Z.div_lt_upper_bound]; lia).
  assert (Q2 : 0 <= aaa / 100 < 10)
    by (split; [apply Z.div_pos | apply Z.div_lt_upper_bound]; lia).
  pose proof (Z.mod_pos_bound pp 10 ltac:(lia)) as M1.
  pose proof (Z.mod_pos_bound aaa 10 ltac:(lia)) as M2.
  pose proof (Z.mod_pos_bound (aaa / 10) 10 ltac:(lia)) as M3.
  rewrite !digit_char_is_digit by lia. reflexivity.
Qed.

Lemma tame_wire_typed (c : TypedCommand) :
  0 <= fst (code_of c) <= 99 -> 0 <= snd (code_of c) <= 999 ->
  tame wire_ok (run_typed c).
Proof.
  intros Hp Ha. apply (tame_typed wire_ok wire_ok_passive); try (intros; reflexivity).
  cbn [wire_ok]. unfold token_of. apply wire_line_in_range; assumption.
Qed.

Ltac in_range :=
  cbn [code_of fst snd];
  unfold CMD_POLARIZER, CMD_SAMPLE, CMD_HOME, CMD_RESET, CMD_ESTOP; lia.

(** X23.  What a run puts on the wire, in every world: if the angles of the
    sweep are in 0..999, every line written during [run_sequence], retries
    and emergency stop included, is well formed: five decimal digits and a
    line feed. *)
Theorem run_wire_well_formed
    (save_dir sample_id : string) (crosspol_exposure_us normal_exposure_us : Z)
    (sample_angles : option (list Z)) (do_crosspol do_normal : bool)
    (w : World) (r : Outcome unit) (w' : World) :
  Forall (fun a => 0 <= a <= 999) (angles_of sample_angles) ->
  run_sequence save_dir sample_id crosspol_exposure_us normal_exposure_us
    sample_angles do_crosspol do_normal w = (r, w') ->
  forallb is_wire_line (writes_of (events_since w w')) = true.
Proof.
  intros Hangles Hrun.
  assert (Hs : forall a, In a (angles_of sample_angles) -> tame wire_ok (rotate_sample a)).
  { intros a Hin. rewrite Forall_forall in Hangles.
    apply (tame_wire_typed (TRotateSample a)); cbn [code_of fst snd];
      [unfold CMD_SAMPLE; lia | apply Hangles, Hin]. }
  destruct (tame_run_sequence wire_ok wire_ok_passive ltac:(intros; reflexivity)
              save_dir sample_id crosspol_exposure_us normal_exposure_us
              sample_angles do_crosspol do_normal eq_refl
              (tame_wire_typed TReset ltac:(in_range) ltac:(in_range))
              (tame_wire_typed THome ltac:(in_range) ltac:(in_range))
              (tame_wire_typed TEmergencyStop ltac:(in_range) ltac:(in_range))
              (tame_wire_typed (TRotatePolarizer 90) ltac:(in_range) ltac:(in_range))
              (tame_wire_typed (TRotatePolarizer 0) ltac:(in_range) ltac:(in_range))
              Hs w r w' Hrun) as (_ & d & T & Pd & _).
  rewrite (events_since_app w w' d T). apply wire_ok_writes. exact Pd.
Qed.

Lemma run_wire_well_formed_witness :
  let w := ex_world STATE_LATCHED (ex_acks 2 [RxLine "ERR JAM"]) in
  let r := run_sequence "data" "s1" 100 200 None false true w in
  Forall (fun a => 0 <= a <= 999) (angles_of None) /\
  forallb is_wire_line (writes_of (events_since w (snd r))) = true /\
  List.length (writes_of (events_since w (snd r))) = 6%nat.
Proof.
  intros w r.
  assert (Ha : Forall (fun a => 0 <= a <= 999) (angles_of None))
    by (repeat constructor; lia).
  split; [exact Ha|]. split; [|vm_compute; reflexivity].
  exact (run_wire_well_formed "data" "s1" 100 200 None false true w (fst r) (snd r)
           Ha (surjective_pairing r)).
Defined.

(* ================================================================== *)
(** * SequenceOrchestrator: captures are settled, log records are truthful *)
(* ================================================================== *)

Lemma watch_app (s : Rig) (d1 d2 : list Event) :
  watch s (d1 ++ d2) =
  match watch s d1 with
  | Some s' => watch s' d2
  | None => None
  end.
Proof.
  revert s. induction d1 as [|e d1 IH]; intros s; [reflexivity|].
  cbn [app watch]. destruct (rig_step s e); [apply IH | reflexivity].
Qed.

Lemma slept_for_nonneg (d : list Event) : 0 <= slept_for d.
Proof. induction d as [|e d IH]; [reflexivity|]. destruct e; simpl; lia. Qed.

Lemma slept_for_app (a b : list Event) : slept_for (a ++ b) = slept_for a + slept_for b.
Proof.
  induction a as [|e a IH]; [reflexivity|]. destruct e; simpl; rewrite ?IH; lia.
Qed.

(** Background events only add to the time slept. *)
Lemma watch_background (d : list Event) :
  forallb background d = true ->
  forall s,
    watch s d =
    Some (mkRig (settled_ms s + slept_for d) (exposure_set s) (polarizer_at s)
                (sample_at s) (saved_as s)).
Proof.
  induction d as [|e d IH]; intros H s.
  - simpl. rewrite Z.add_0_r. destruct s; reflexivity.
  - simpl in H. apply andb_prop in H. destruct H as [He Hd].
    destruct e; simpl in He; try discriminate; cbn [watch rig_step slept_for];
      rewrite (IH Hd); cbn; try reflexivity.
    f_equal. f_equal. lia.
Qed.

Lemma passive_background (d : list Event) :
  forallb passive d = true -> forallb background d = true.
Proof.
  rewrite !forallb_forall. intros H e He. specialize (H e He).
  destruct e; simpl in *; congruence.
Qed.

Lemma keeps_weaken {A} (pre pre' : Rig -> Prop) (post post' : A -> Rig -> Prop)
    (m : M A) :
  (forall s, pre' s -> pre s) ->
  (forall a s, post a s -> post' a s) ->
  keeps pre m post -> keeps pre' m post'.
Proof.
  intros Hpre Hpost Hm w r w' H.
  destruct (Hm w r w' H) as (N & d & T & K).
  split; [exact N|]. exists d. split; [exact T|].
  intros s Hs. destruct (K s (Hpre s Hs)) as (s' & W & Q).
  exists s'. split; [exact W|]. destruct r; auto.
Qed.

Lemma keeps_bind {A B} (pre : Rig -> Prop) (mid : A -> Rig -> Prop)
    (post : B -> Rig -> Prop) (m : M A) (k : A -> M B) :
  keeps pre m mid -> (forall a, keeps (mid a) (k a) post) -> keeps pre (bind m k) post.
Proof.
  intros Hm Hk w r w' H. unfold bind in H.
  destruct (m w) as [r1 w1] eqn:E1.
  destruct (Hm w r1 w1 E1) as (N1 & d1 & T1 & K1).
  destruct r1 as [a|e|]; [| |contradiction].
  - destruct (Hk a w1 r w' H) as (N2 & d2 & T2 & K2).
    split; [exact N2|]. exists (d1 ++ d2)%list.
    split; [rewrite T2, T1, <- app_assoc; reflexivity|].
    intros s Hs. destruct (K1 s Hs) as (s1 & W1 & Q1).
    destruct (K2 s1 Q1) as (s2 & W2 & Q2).
    exists s2. rewrite watch_app, W1. auto.
  - inversion H; subst. split; [discriminate|]. exists d1. split; [exact T1|].
    intros s Hs. destruct (K1 s Hs) as (s1 & W1 & _). exists s1. auto.
Qed.

Lemma keeps_ret {A} (pre : Rig -> Prop) (a : A) : keeps pre (ret a) (fun _ s => pre s).
Proof.
  intros w r w' H. inversion H; subst. split; [discriminate|].
  exists []. rewrite app_nil_r. split; [reflexivity|].
  intros s Hs. exists s. auto.
Qed.

Lemma keeps_raise {A} (pre : Rig -> Prop) (post : A -> Rig -> Prop) (e : exn) :
  keeps pre (raise e) post.
Proof.
  intros w r w' H. inversion H; subst. split; [discriminate|].
  exists []. rewrite app_nil_r. split; [reflexivity|].
  intros s Hs. exists s. auto.
Qed.

(** An inert action keeps every patient condition. *)
Lemma keeps_inert {A} (pre : Rig -> Prop) (m : M A) :
  patient pre -> inert m -> keeps pre m (fun _ s => pre s).
Proof.
  intros Hp Hm w r w' H. destruct (Hm w r w' H) as (N & _ & d & T & Q).
  split; [exact N|]. exists d. split; [exact T|].
  intros s Hs. rewrite (watch_background d (passive_background d Q)).
  eexists. split; [reflexivity|].
  destruct r; auto. apply Hp; [apply slept_for_nonneg | exact Hs].
Qed.

(** The settling loop, by the clock. *)
Lemma settle_loop_clock (fuel : nat) :
  forall (start duration : Z) (w : World) r w',
    duration - (now w - start) <= 50 * Z.of_nat fuel ->
    settle_loop fuel start duration w = (r, w') ->
    exists d, trace w' = (trace w ++ d)%list /\
              forallb passive d = true /\
              slept_for d = now w' - now w /\
              (r = Ok tt -> duration <= now w' - start).
Proof.
  induction fuel as [|fuel IH]; intros start duration w r w' Hfuel H.
  - rewrite settle_loop_over in H by lia. inversion H; subst.
    exists []. rewrite app_nil_r. repeat split; try lia. simpl. lia.
  - destruct (Z.lt_ge_cases (now w - start) duration) as [Hlt|Hge].
    2:{ rewrite settle_loop_over in H by lia. inversion H; subst.
        exists []. rewrite app_nil_r. repeat split; try lia. simpl. lia. }
    destruct (abort_flag w) eqn:Hflag.
    + rewrite settle_loop_aborted in H by assumption. inversion H; subst.
      exists []. rewrite app_nil_r. repeat split; try lia; try discriminate. simpl. lia.
    + rewrite settle_loop_slice in H by assumption.
      set (w1 := tick (set_now (now w + 50) (emit (EvSleep 50) w))) in *.
      assert (T1 : trace w1 = (trace w ++ EvSleep 50 ::
                    tick_delta (set_now (now w + 50) (emit (EvSleep 50) w)))%list)
        by (unfold w1; solve_trace).
      assert (N1 : now w1 = now w + 50) by (unfold w1; wsimpl; reflexivity).
      destruct (IH start duration w1 r w') as (d & T & Q & S & D);
        [rewrite N1; lia | exact H |].
      eexists. split; [rewrite T, T1, <- app_assoc; reflexivity|].
      split; [cbn [app forallb passive]; rewrite forallb_app, tick_delta_passive; exact Q|].
      split; [|intros Hr; apply D; exact Hr].
      cbn [app slept_for]. rewrite slept_for_app, S, N1.
      assert (Hz : slept_for (tick_delta (set_now (now w + 50) (emit (EvSleep 50) w))) = 0).
      { unfold tick_delta. destruct (abort_in _) as [[|n]|]; reflexivity. }
      rewrite Hz. lia.
Qed.

(** The settling wait: when it returns, at least its duration has been
    slept since it started. *)
Lemma keeps_wait_settling (pre : Rig -> Prop) (duration : Z) :
  patient pre ->
  (forall s, pre s -> 0 <= settled_ms s) ->
  keeps pre (_wait_settling duration)
        (fun _ s => pre s /\ duration <= settled_ms s).
Proof.
  intros Hp H0 w r w' H.
  destruct (inert_wait_settling duration w r w' H) as (N & _ & _).
  split; [exact N|].
  unfold _wait_settling, bind, gets in H.
  destruct (settle_loop_clock (Z.to_nat duration) (now w) duration w r w')
    as (d & T & Q & S & D); [lia | exact H |].
  exists d. split; [exact T|].
  intros s Hs. rewrite (watch_background d (passive_background d Q)).
  eexists. split; [reflexivity|].
  destruct r as [[]|e|]; auto. cbn [settled_ms].
  split; [apply Hp; [apply slept_for_nonneg | exact Hs]|].
  specialize (D eq_refl). specialize (H0 s Hs). lia.
Qed.

(** A typed command: whatever happens during the transaction, the rig is
    then as the record of the command says. *)
Lemma keeps_typed (pre : Rig -> Prop) (c : TypedCommand) :
  keeps pre (run_typed c) (fun b s' => exists s, pre s /\ s' = rig_after c b s).
Proof.
  intros w r w' H.
  destruct (run_typed_record c w) as (b & w1 & d & E & T & L & _).
  rewrite E in H. inversion H; subst r w1.
  split; [discriminate|].
  exists (d ++ [EvCtrl (call_of c) b])%list. split; [exact T|].
  intros s Hs. rewrite watch_app, (watch_background d (low_level_background d L)).
  exists (rig_after c b s). split; [|exists s; auto].
  unfold rig_after. destruct c, b; reflexivity.
Qed.

(** A collaborator call, given what the monitor does of its event. *)
Lemma keeps_collab (pre : Rig -> Prop) (post : unit -> Rig -> Prop) (c : Collab) :
  (forall s fault, pre s ->
     exists s', rig_step s (EvCollab c fault) = Some s' /\
                (fault = None -> post tt s')) ->
  keeps pre (collab_call c) post.
Proof.
  intros Hstep w r w' H.
  destruct (collab_call_cases c w) as (w1 & fault & E & T & _).
  rewrite E in H. inversion H; subst.
  split; [destruct fault; discriminate|].
  eexists. split; [exact T|].
  intros s Hs.
  assert (Ht : watch s (tick_delta w) = Some s).
  { unfold tick_delta. destruct (abort_in w) as [[|n]|]; reflexivity. }
  rewrite watch_app, Ht. cbn [watch].
  destruct (Hstep s fault Hs) as (s' & St & Q). rewrite St.
  exists s'. split; [reflexivity|].
  destruct fault; [exact I | apply Q; reflexivity].
Qed.

Lemma keeps_set_exposure (pre : Rig -> Prop) (us : Z) :
  keeps pre (cam_set_exposure us) (fun _ s => exposure_set s = Some us).
Proof.
  unfold cam_set_exposure.
  apply (keeps_bind pre (fun _ s => exposure_set s = Some us)).
  - apply keeps_collab. intros s fault _. eexists. split; [reflexivity|].
    intros ->. reflexivity.
  - intros _ w r w' H. inversion H; subst. split; [discriminate|].
    exists []. cbn. rewrite app_nil_r. split; [reflexivity|].
    intros s Hs. exists s. auto.
Qed.


Lemma patient_in_phase (exposure angle : Z) : patient (in_phase exposure angle).
Proof. intros s k Hk (E & A & S). unfold in_phase. cbn. repeat split; auto. lia. Qed.

Lemma patient_in_pose (exposure angle sample : Z) :
  patient (in_pose exposure angle sample).
Proof.
  intros s k Hk (H & S). split; [apply patient_in_phase; assumption | exact S].
Qed.

Lemma patient_true : patient (fun _ => True).
Proof. intros s k _ _. exact I. Qed.

Lemma patient_exposure (us : Z) : patient (fun s => exposure_set s = Some us).
Proof. intros s k _ H. exact H. Qed.

(** A sample move that returned [True], made in a phase, gives the pose. *)
Lemma pose_after_sample (exposure angle sample : Z) (s' : Rig) :
  angle = 90 \/ angle = 0 ->
  (exists s, in_phase exposure angle s /\ s' = rig_after (TRotateSample sample) true s) ->
  in_pose exposure angle sample s'.
Proof.
  intros _ (s & (E & A & S) & ->). unfold in_pose, in_phase, rig_after. cbn.
  repeat split; auto. lia.
Qed.

(** A sample move that returned [False] leaves the rig in the phase. *)
Lemma phase_after_failed_sample (exposure angle sample : Z) (s' : Rig) :
  (exists s, in_phase exposure angle s /\ s' = rig_after (TRotateSample sample) false s) ->
  in_phase exposure angle s'.
Proof.
  intros (s & (E & A & S) & ->). unfold in_phase, rig_after. cbn.
  repeat split; auto. lia.
Qed.

Lemma keeps_crosspol_move_sample (exposure angle : Z) :
  keeps (in_phase exposure 90) (crosspol_move_sample angle)
        (fun _ s => in_pose exposure 90 angle s).
Proof.
  unfold crosspol_move_sample.
  eapply keeps_bind; [apply (keeps_typed _ (TRotateSample angle))|].
  intros [|].
  - eapply keeps_weaken; [| |apply keeps_ret]; cbn beta; [intros s H; exact H|].
    intros _ s H. apply pose_after_sample; auto.
  - eapply keeps_bind.
    { eapply keeps_weaken; [| |apply (keeps_inert (in_phase exposure 90))];
        [apply phase_after_failed_sample | intros a s H; exact H
        | apply patient_in_phase | apply inert_log]. }
    intros ?. eapply keeps_bind; [apply (keeps_typed _ (TRotateSample angle))|].
    intros [|]; [|apply keeps_raise].
    eapply keeps_weaken; [| |apply keeps_ret]; cbn beta; [intros s H; exact H|].
    intros _ s H. apply pose_after_sample; auto.
Qed.

Lemma keeps_normal_move_sample (exposure angle : Z) :
  keeps (in_phase exposure 0) (normal_move_sample angle)
        (fun _ s => in_pose exposure 0 angle s).
Proof.
  unfold normal_move_sample.
  eapply keeps_bind; [apply (keeps_typed _ (TRotateSample angle))|].
  intros [|]; [|apply keeps_raise].
  eapply keeps_weaken; [| |apply keeps_ret]; cbn beta; [intros s H; exact H|].
  intros _ s H. apply pose_after_sample; auto.
Qed.

Lemma keeps_done {A} (pre : Rig -> Prop) (a : A) :
  keeps pre (ret a) (fun _ _ => True).
Proof.
  apply (keeps_weaken pre pre (fun _ s => pre s)); auto. apply keeps_ret.
Qed.

Section TruthOfARun.

Variables (save_dir sample_id : string).
Variables (crosspol_exposure_us normal_exposure_us : Z).

(** The pose of the Crosspol loop, once the sample has been moved: the wait,
    the capture, the image, the record. *)
Lemma keeps_crosspol_pose (dir : string) (angle : Z) (rest : M unit) :
  keeps (in_phase crosspol_exposure_us 90) rest (fun _ _ => True) ->
  keeps (in_pose crosspol_exposure_us 90 angle)
    (_wait_settling SETTLING_TIME_MS ;;
     collab_call Capture ;;
     collab_call (SaveImage (crosspol_path sample_id dir angle)) ;;
     collab_call (AppendLog (log_path save_dir sample_id)
                    (crosspol_row crosspol_exposure_us
                       (crosspol_path sample_id dir angle) angle)) ;;
     rest)
    (fun _ _ => True).
Proof.
  intros Hrest.
  eapply keeps_bind.
  { apply keeps_wait_settling; [apply patient_in_pose|].
    intros s ((_ & _ & S) & _). exact S. }
  intros ?. eapply keeps_bind.
  { apply (keeps_collab _ (fun _ s => in_pose crosspol_exposure_us 90 angle s)).
    intros s fault (Hp & Hs). cbn [rig_step].
    apply Z.leb_le in Hs. rewrite Hs. eauto. }
  intros ?. eapply keeps_bind.
  { apply (keeps_collab _
             (fun _ s => in_pose crosspol_exposure_us 90 angle s /\
                         saved_as s = Some (crosspol_path sample_id dir angle))).
    intros s fault ((E & A & S) & Sa). eexists. split; [reflexivity|].
    intros ?. unfold in_pose, in_phase. cbn. auto. }
  intros ?. eapply keeps_bind; [|intros ?; exact Hrest].
  apply keeps_collab.
  intros s fault (((E & A & S) & Sa) & Sv). cbn [rig_step].
  assert (Ht : truthful s (crosspol_row crosspol_exposure_us
                             (crosspol_path sample_id dir angle) angle) = true).
  { unfold truthful, crosspol_row. cbn [row_exposure_us row_polarizer_angle
      row_sample_angle row_mode row_filepath mode_angle].
    rewrite E, A, Sa, Sv. cbn [holds holds_path].
    rewrite !Z.eqb_refl, String.eqb_refl. reflexivity. }
  rewrite Ht. exists s. split; [reflexivity|]. intros _.
  unfold in_phase. auto.
Qed.

Lemma keeps_normal_pose (dir : string) (angle : Z) (rest : M unit) :
  keeps (in_phase normal_exposure_us 0) rest (fun _ _ => True) ->
  keeps (in_pose normal_exposure_us 0 angle)
    (_wait_settling SETTLING_TIME_MS ;;
     collab_call Capture ;;
     collab_call (SaveImage (normal_path sample_id dir angle)) ;;
     collab_call (AppendLog (log_path save_dir sample_id)
                    (normal_row normal_exposure_us
                       (normal_path sample_id dir angle) angle)) ;;
     rest)
    (fun _ _ => True).
Proof.
  intros Hrest.
  eapply keeps_bind.
  { apply keeps_wait_settling; [apply patient_in_pose|].
    intros s ((_ & _ & S) & _). exact S. }
  intros ?. eapply keeps_bind.
  { apply (keeps_collab _ (fun _ s => in_pose normal_exposure_us 0 angle s)).
    intros s fault (Hp & Hs). cbn [rig_step].
    apply Z.leb_le in Hs. rewrite Hs. eauto. }
  intros ?. eapply keeps_bind.
  { apply (keeps_collab _
             (fun _ s => in_pose normal_exposure_us 0 angle s /\
                         saved_as s = Some (normal_path sample_id dir angle))).
    intros s fault ((E & A & S) & Sa). eexists. split; [reflexivity|].
    intros ?. unfold in_pose, in_phase. cbn. auto. }
  intros ?. eapply keeps_bind; [|intros ?; exact Hrest].
  apply keeps_collab.
  intros s fault (((E & A & S) & Sa) & Sv). cbn [rig_step].
  assert (Ht : truthful s (normal_row normal_exposure_us
                             (normal_path sample_id dir angle) angle) = true).
  { unfold truthful, normal_row. cbn [row_exposure_us row_polarizer_angle
      row_sample_angle row_mode row_filepath mode_angle].
    rewrite E, A, Sa, Sv. cbn [holds holds_path].
    rewrite !Z.eqb_refl, String.eqb_refl. reflexivity. }
  rewrite Ht. exists s. split; [reflexivity|]. intros _.
  unfold in_phase. auto.
Qed.

Lemma keeps_crosspol_loop (dir : string) (angles : list Z) :
  keeps (in_phase crosspol_exposure_us 90)
        (crosspol_loop save_dir sample_id crosspol_exposure_us dir angles)
        (fun _ _ => True).
Proof.
  induction angles as [|angle rest IH]; cbn [crosspol_loop].
  - apply keeps_done.
  - eapply keeps_bind;
      [apply (keeps_inert _ _ (patient_in_phase _ _) inert_check_abort)|].
    intros ?. eapply keeps_bind;
      [apply (keeps_inert _ _ (patient_in_phase _ _) (inert_log _))|].
    intros ?. eapply keeps_bind; [apply keeps_crosspol_move_sample|].
    intros ?. apply keeps_crosspol_pose. exact IH.
Qed.

Lemma keeps_normal_loop (dir : string) (angles : list Z) :
  keeps (in_phase normal_exposure_us 0)
        (normal_loop save_dir sample_id normal_exposure_us dir angles)
        (fun _ _ => True).
Proof.
  induction angles as [|angle rest IH]; cbn [normal_loop].
  - apply keeps_done.
  - eapply keeps_bind;
      [apply (keeps_inert _ _ (patient_in_phase _ _) inert_check_abort)|].
    intros ?. eapply keeps_bind;
      [apply (keeps_inert _ _ (patient_in_phase _ _) (inert_log _))|].
    intros ?. eapply keeps_bind; [apply keeps_normal_move_sample|].
    intros ?. apply keeps_normal_pose. exact IH.
Qed.

(** A phase, from the exposure to the end of its loop. *)
Lemma phase_after_polarizer (exposure angle : Z) (s' : Rig) :
  (exists s, exposure_set s = Some exposure /\
             s' = rig_after (TRotatePolarizer angle) true s) ->
  in_phase exposure angle s'.
Proof.
  intros (s & E & ->). unfold in_phase, rig_after. cbn. repeat split; auto. lia.
Qed.

Lemma fine_phase_crosspol (dir : string) (angles : list Z) :
  fine (phase_crosspol save_dir sample_id crosspol_exposure_us dir angles).
Proof.
  unfold fine, phase_crosspol.
  eapply keeps_bind; [apply (keeps_inert _ _ patient_true (inert_log _))|].
  intros ?. eapply keeps_bind; [apply keeps_set_exposure|].
  intros ?. eapply keeps_bind;
    [apply (keeps_inert _ _ (patient_exposure _) (inert_log _))|].
  intros ?. eapply keeps_bind; [apply (keeps_typed _ (TRotatePolarizer 90))|].
  intros ok. eapply keeps_bind.
  { instantiate (1 := fun _ s => in_phase crosspol_exposure_us 90 s).
    destruct ok; [|apply keeps_raise].
    eapply keeps_weaken; [| |apply keeps_ret]; cbn beta; [intros s H; exact H|].
    intros _ s H. apply phase_after_polarizer. exact H. }
  intros ?. eapply keeps_bind.
  { apply keeps_wait_settling; [apply patient_in_phase|].
    intros s (_ & _ & S). exact S. }
  intros ?. eapply keeps_weaken; [| |apply keeps_crosspol_loop]; cbn beta; tauto.
Qed.

Lemma fine_phase_normal (dir : string) (angles : list Z) :
  fine (phase_normal save_dir sample_id normal_exposure_us dir angles).
Proof.
  unfold fine, phase_normal.
  eapply keeps_bind; [apply (keeps_inert _ _ patient_true (inert_log _))|].
  intros ?. eapply keeps_bind; [apply keeps_set_exposure|].
  intros ?. eapply keeps_bind;
    [apply (keeps_inert _ _ (patient_exposure _) (inert_log _))|].
  intros ?. eapply keeps_bind; [apply (keeps_typed _ (TRotatePolarizer 0))|].
  intros ok. eapply keeps_bind.
  { instantiate (1 := fun _ s => in_phase normal_exposure_us 0 s).
    destruct ok; [|apply keeps_raise].
    eapply keeps_weaken; [| |apply keeps_ret]; cbn beta; [intros s H; exact H|].
    intros _ s H. apply phase_after_polarizer. exact H. }
  intros ?. eapply keeps_bind.
  { apply keeps_wait_settling; [apply patient_in_phase|].
    intros s (_ & _ & S). exact S. }
  intros ?. eapply keeps_weaken; [| |apply keeps_normal_loop]; cbn beta; tauto.
Qed.

End TruthOfARun.

Lemma fine_bind {A B} (m : M A) (k : A -> M B) :
  fine m -> (forall a, fine (k a)) -> fine (bind m k).
Proof. intros Hm Hk. unfold fine. eapply keeps_bind; [exact Hm | exact Hk]. Qed.

Lemma fine_of_inert {A} (m : M A) : inert m -> fine m.
Proof. intros H. apply (keeps_inert _ _ patient_true H). Qed.

Lemma fine_typed (c : TypedCommand) : fine (run_typed c).
Proof.
  unfold fine. eapply keeps_weaken; [| |apply (keeps_typed (fun _ => True) c)]; auto.
Qed.

Lemma fine_ensure_dir (path : string) : fine (collab_call (EnsureDir path)).
Proof. apply keeps_collab. intros s fault _. exists s. auto. Qed.

Lemma fine_when (b : bool) (m : M unit) : fine m -> fine (when b m).
Proof. intros H. destruct b; [exact H | apply fine_of_inert, inert_ret]. Qed.

Lemma fine_resume_live : fine cam_resume_live.
Proof.
  intros w r w' H. inversion H; subst. split; [discriminate|].
  exists [EvResumeLive]. split; [reflexivity|].
  intros s _. exists s. auto.
Qed.

Section TheWholeRun.

Variables (save_dir sample_id : string).
Variables (crosspol_exposure_us normal_exposure_us : Z).

Ltac fine_step :=
  lazymatch goal with
  | |- fine (phase_crosspol _ _ _ _ _) => apply fine_phase_crosspol
  | |- fine (phase_normal _ _ _ _ _) => apply fine_phase_normal
  | |- fine (collab_call (EnsureDir _)) => apply fine_ensure_dir
  | |- fine reset => apply (fine_typed TReset)
  | |- fine home => apply (fine_typed THome)
  | |- fine emergency_stop => apply (fine_typed TEmergencyStop)
  | |- fine cam_resume_live => apply fine_resume_live
  | |- fine (when _ _) => apply fine_when
  | |- fine (if ?b then _ else _) => destruct b
  | |- fine (bind _ _) => apply fine_bind; [|intros ?]
  | |- fine _ => apply fine_of_inert; solve [solve_inert]
  end.

Lemma fine_run_body (angles : list Z) (do_crosspol do_normal : bool) :
  fine (run_body save_dir sample_id crosspol_exposure_us normal_exposure_us
          angles do_crosspol do_normal).
Proof. unfold run_body. cbv zeta. repeat fine_step. Qed.

(** The monitor accepts the history of every run, from every state. *)
Lemma fine_run_sequence (sample_angles : option (list Z)) (do_crosspol do_normal : bool) :
  fine (run_sequence save_dir sample_id crosspol_exposure_us normal_exposure_us
          sample_angles do_crosspol do_normal).
Proof.
  intros w r w' Hrun.
  destruct (do_crosspol || do_normal) eqn:Hmode.
  2:{ unfold run_sequence in Hrun. rewrite Hmode in Hrun. cbn [negb] in Hrun.
      inversion Hrun; subst. split; [discriminate|].
      exists []. cbn. rewrite app_nil_r. split; [reflexivity|].
      intros s _. exists s. auto. }
  rewrite run_sequence_unfold in Hrun by exact Hmode.
  destruct (run_body save_dir sample_id crosspol_exposure_us normal_exposure_us
              (angles_of sample_angles) do_crosspol do_normal (set_abort_flag false w))
    as [rb w1] eqn:Hb.
  destruct (fine_run_body (angles_of sample_angles) do_crosspol do_normal _ _ _ Hb)
    as (N1 & d1 & T1 & K1).
  cbn [trace set_abort_flag] in T1.
  assert (Hh : fine (run_handlers rb)).
  { destruct rb as [[]|e|]; [apply fine_of_inert, inert_ret | | contradiction].
    unfold run_handlers. destruct (is_InterruptedError e); repeat fine_step. }
  destruct (run_handlers rb w1) as [r2 w2] eqn:Hh2.
  destruct (Hh w1 r2 w2 Hh2) as (N2 & d2 & T2 & K2).
  assert (Hf : fine run_finally) by (unfold run_finally; repeat fine_step).
  destruct (run_finally w2) as [r3 w3] eqn:Hf3.
  destruct (Hf w2 r3 w3 Hf3) as (N3 & d3 & T3 & K3).
  assert (Hres : r = match r3 with Ok _ => r2 | _ => r3 end /\ w' = w3).
  { destruct r2 as [[]|e2|]; [| |contradiction];
      destruct r3 as [[]|e3|]; inversion Hrun; subst; auto. }
  destruct Hres as [Hr Hw]. subst w'.
  split.
  - rewrite Hr. destruct r3 as [[]|e3|]; [exact N2 | discriminate | contradiction].
  - exists (d1 ++ d2 ++ d3)%list.
    split; [rewrite T3, T2, T1, <- !app_assoc; reflexivity|].
    intros s _.
    destruct (K1 s I) as (s1 & W1 & _).
    destruct (K2 s1 I) as (s2 & W2 & _).
    destruct (K3 s2 I) as (s3 & W3 & _).
    exists s3. rewrite watch_app, W1, watch_app, W2, W3. split; [reflexivity|].
    destruct r; exact I.
Qed.

End TheWholeRun.

(** What the monitor accepting a history means for one of its events. *)
Lemma watch_at (s0 : Rig) (before after : list Event) (e : Event) (s' : Rig) :
  watch s0 (before ++ e :: after) = Some s' ->
  exists s, watch s0 before = Some s /\ rig_step s e <> None.
Proof.
  rewrite watch_app. destruct (watch s0 before) as [s|]; [|discriminate].
  cbn [watch]. intros H. exists s. split; [reflexivity|].
  destruct (rig_step s e); [discriminate | discriminate H].
Qed.

(** X24.  No capture before the rig has settled, in every world.  Whenever
    [run_sequence] calls [cam.capture()], at least [SETTLING_TIME_S] of
    sleep have followed the last controller operation (the move of the
    sample or of the polarizer that precedes the capture): in the history of
    the run, the time slept between the last controller operation before a
    capture and that capture is at least 1500 ms. *)
Theorem captures_after_settling
    (save_dir sample_id : string) (crosspol_exposure_us normal_exposure_us : Z)
    (sample_angles : option (list Z)) (do_crosspol do_normal : bool)
    (w : World) (r : Outcome unit) (w' : World)
    (before after : list Event) (fault : option exn) :
  run_sequence save_dir sample_id crosspol_exposure_us normal_exposure_us
    sample_angles do_crosspol do_normal w = (r, w') ->
  events_since w w' = (before ++ EvCollab Capture fault :: after)%list ->
  exists s,
    watch rig_unknown before = Some s /\
    SETTLING_TIME_MS <= settled_ms s.
Proof.
  intros Hrun Hev.
  destruct (fine_run_sequence save_dir sample_id crosspol_exposure_us
              normal_exposure_us sample_angles do_crosspol do_normal w r w' Hrun)
    as (_ & d & T & K).
  rewrite (events_since_app w w' d T) in Hev. subst d.
  destruct (K rig_unknown I) as (s' & W & _).
  destruct (watch_at _ _ _ _ _ W) as (s & Ws & Hstep).
  exists s. split; [exact Ws|].
  cbn [rig_step] in Hstep.
  destruct (Z.leb_spec SETTLING_TIME_MS (settled_ms s)); [assumption | congruence].
Qed.

Lemma captures_after_settling_witness :
  let w := ex_world STATE_LATCHED (ex_acks 8 []) in
  let r := run_sequence "data" "s1" 100 200 None false true w in
  let before := firstn 79 (events_since w (snd r)) in
  let after := skipn 80 (events_since w (snd r)) in
  events_since w (snd r) = (before ++ EvCollab Capture None :: after)%list /\
  exists s, watch rig_unknown before = Some s /\ SETTLING_TIME_MS <= settled_ms s.
Proof.
  intros w r before after.
  assert (Hev : events_since w (snd r) =
                (before ++ EvCollab Capture None :: after)%list)
    by (vm_compute; reflexivity).
  split; [exact Hev|].
  exact (captures_after_settling "data" "s1" 100 200 None false true w (fst r) (snd r)
           before after None (surjective_pairing r) Hev).
Defined.

(** X25.  Every log record of a run tells the truth about the rig, in every
    world.  Whenever [run_sequence] calls [append_to_log], the exposure of
    the record is the one last given to the camera by a [set_exposure] that
    returned, its polarizer angle and its sample angle are those of the last
    polarizer move and of the last sample move, both acknowledged by the
    device, with no HOME, RESET or emergency stop since, its polarizer angle
    is the one of its mode (90 for Crosspol, 0 for Normal), and its path is
    the one handed to the [save_image] call before it. *)
Theorem log_records_truthful
    (save_dir sample_id : string) (crosspol_exposure_us normal_exposure_us : Z)
    (sample_angles : option (list Z)) (do_crosspol do_normal : bool)
    (w : World) (r : Outcome unit) (w' : World)
    (before after : list Event) (path : string) (row : LogRow) (fault : option exn) :
  run_sequence save_dir sample_id crosspol_exposure_us normal_exposure_us
    sample_angles do_crosspol do_normal w = (r, w') ->
  events_since w w' = (before ++ EvCollab (AppendLog path row) fault :: after)%list ->
  exists s,
    watch rig_unknown before = Some s /\
    exposure_set s = Some (row_exposure_us row) /\
    polarizer_at s = Some (row_polarizer_angle row) /\
    sample_at s = Some (row_sample_angle row) /\
    row_polarizer_angle row = mode_angle (row_mode row) /\
    saved_as s = Some (row_filepath row).
Proof.
  intros Hrun Hev.
  destruct (fine_run_sequence save_dir sample_id crosspol_exposure_us
              normal_exposure_us sample_angles do_crosspol do_normal w r w' Hrun)
    as (_ & d & T & K).
  rewrite (events_since_app w w' d T) in Hev. subst d.
  destruct (K rig_unknown I) as (s' & W & _).
  destruct (watch_at _ _ _ _ _ W) as (s & Ws & Hstep).
  exists s. split; [exact Ws|].
  cbn [rig_step] in Hstep.
  destruct (truthful s row) eqn:Ht; [|congruence].
  unfold truthful in Ht.
  repeat (apply andb_prop in Ht; destruct Ht as [Ht ?]).
  unfold holds, holds_path in *.
  destruct (exposure_set s) as [x1|]; [|discriminate].
  destruct (polarizer_at s) as [x2|]; [|discriminate].
  destruct (sample_at s) as [x3|]; [|discriminate].
  destruct (saved_as s) as [x4|]; [|discriminate].
  repeat match goal with
         | H : (_ =? _) = true |- _ => apply Z.eqb_eq in H
         | H : (_ =? _)%string = true |- _ => apply String.eqb_eq in H
         end.
  subst. auto.
Qed.

Lemma log_records_truthful_witness :
  let w := ex_world STATE_LATCHED (ex_acks 8 []) in
  let r := run_sequence "data" "s1" 100 200 None false true w in
  let before := firstn 81 (events_since w (snd r)) in
  let after := skipn 82 (events_since w (snd r)) in
  let fpath := normal_path "s1" (path_join (path_join "data" "s1") "normal") 90 in
  let row := normal_row 200 fpath 90 in
  events_since w (snd r) =
    (before ++ EvCollab (AppendLog (log_path "data" "s1") row) None :: after)%list /\
  exists s,
    watch rig_unknown before = Some s /\
    exposure_set s = Some 200 /\
    polarizer_at s = Some 0 /\
    sample_at s = Some 90 /\
    0 = mode_angle Normal /\
    saved_as s = Some fpath.
Proof.
  intros w r before after fpath row.
  assert (Hev : events_since w (snd r) =
                (before ++ EvCollab (AppendLog (log_path "data" "s1") row) None
                        :: after)%list)
    by (vm_compute; reflexivity).
  split; [exact Hev|].
  exact (log_records_truthful "data" "s1" 100 200 None false true w (fst r) (snd r)
           before after (log_path "data" "s1") row None (surjective_pairing r) Hev).
Defined.
